(** * VPS-CC-MCP: the tool execution engine

    A shallow embedding of the engine's core:
    - [context.py]  : [ProjectContext] (focus directory, path resolution);
    - [session.py]  : [SessionEntry], [Session], [SessionManager]
                       (append-only JSON-lines log and its replay);
    - [tools/base.py], [schemas/responses.py], [config.py] :
                       [BaseTool.run] (validation, approval gate, dry run,
                       execution, logging) and the response envelope.

    Python exceptions are values of [exn] carried by [outcome]; the session
    directory, the clock, the file system with its symbolic links and the
    process working directory are explicit arguments. *)

From Stdlib Require Import String Ascii List ZArith Bool Lia.
From Stdlib Require Import DecimalString.
From Stdlib Require Import Sorting.Permutation Sorting.Sorted.
Import ListNotations.
Open Scope string_scope.

Set Warnings "-register-all".

(* ================================================================== *)
(** * Exceptions and results *)

(** A raised exception: [type(e).__name__] and [str(e)]. *)
Record exn : Type := Exn { exn_class : string; exn_msg : string }.

Inductive outcome (A : Type) : Type :=
| Ok (a : A)
| Raise (e : exn).
Arguments Ok {A} a.
Arguments Raise {A} e.

Definition bind {A B : Type} (r : outcome A) (k : A -> outcome B) : outcome B :=
  match r with
  | Ok a => k a
  | Raise e => Raise e
  end.

Notation "x <- r ;; k" := (bind r (fun x => k))
  (at level 61, r at next level, right associativity).

(** [isinstance(e, ValueError)] for the exception classes that occur in this
    development.  [JSONDecodeError] and pydantic's [ValidationError] derive
    from [ValueError]. *)
Definition isinstance_ValueError (e : exn) : bool :=
  (exn_class e =? "ValueError") || (exn_class e =? "JSONDecodeError")
  || (exn_class e =? "ValidationError").

(* ================================================================== *)
(** * Strings *)

Definition NUL : ascii := ascii_of_nat 0.
Definition LF : ascii := ascii_of_nat 10.
Definition CR : ascii := ascii_of_nat 13.
Definition nl : string := String LF "".

Fixpoint str_contains (c : ascii) (s : string) : bool :=
  match s with
  | EmptyString => false
  | String a s' => Ascii.eqb a c || str_contains c s'
  end.

(** [s.startswith(p)] *)
Definition startswith (s p : string) : bool := String.prefix p s.

(** [sep.join(xs)] *)
Fixpoint join (sep : string) (xs : list string) : string :=
  match xs with
  | [] => ""
  | [x] => x
  | x :: rest => x ++ sep ++ join sep rest
  end.

(** [s.split("/")] : always at least one field. *)
Fixpoint split_slash (s : string) : list string :=
  match s with
  | EmptyString => [""]
  | String c s' =>
      if Ascii.eqb c "/" then "" :: split_slash s'
      else match split_slash s' with
           | [] => [String c ""]
           | x :: xs => String c x :: xs
           end
  end.

Definition DQUOTE : ascii := ascii_of_nat 34.
Definition BACKSLASH : ascii := ascii_of_nat 92.

Definition hex_lower (n : nat) : ascii :=
  nth n ["0"; "1"; "2"; "3"; "4"; "5"; "6"; "7"; "8"; "9";
         "a"; "b"; "c"; "d"; "e"; "f"]%char "0"%char.

Fixpoint repr_body (quote : ascii) (s : string) : string :=
  match s with
  | EmptyString => EmptyString
  | String c s' =>
      let n := nat_of_ascii c in
      (if Ascii.eqb c BACKSLASH then String BACKSLASH (String BACKSLASH "")
       else if Ascii.eqb c quote then String BACKSLASH (String quote "")
       else if Ascii.eqb c LF then String BACKSLASH "n"
       else if Ascii.eqb c CR then String BACKSLASH "r"
       else if (n =? 9)%nat then String BACKSLASH "t"
       else if (n <? 32)%nat || (n =? 127)%nat
       then String BACKSLASH
              (String "x" (String (hex_lower (n / 16))
                             (String (hex_lower (n mod 16)) "")))
       else String c "")
      ++ repr_body quote s'
  end.

(** [repr(s)] for a string: single quotes, unless the string holds a
    single quote and no double quote. *)
Definition repr (s : string) : string :=
  let quote :=
    if str_contains "'" s && negb (str_contains DQUOTE s) then DQUOTE
    else "'"%char in
  String quote (repr_body quote s ++ String quote "").

(* ================================================================== *)
(** * pathlib (POSIX flavour) *)

Module Pathlib.

(** A parsed path: the root (the empty string, "/" or "//") and the
    components after it. *)
Record PurePath : Type := mkPath { root : string; tail : list string }.

(** [posixpath.splitroot]: exactly two leading slashes are kept as a root
    of their own, three or more collapse to one. *)
Definition splitroot (s : string) : string * string :=
  match s with
  | String "/" (String "/" (String "/" r)) => ("/", String "/" (String "/" r))
  | String "/" (String "/" r) => ("//", r)
  | String "/" r => ("/", r)
  | _ => ("", s)
  end.

Definition is_fieldb (x : string) : bool :=
  negb (x =? "") && negb (x =? ".").

(** [Path(s)]: empty fields and "." fields are dropped, ".." is kept. *)
Definition Path (s : string) : PurePath :=
  let '(r, rel) := splitroot s in
  mkPath r (filter is_fieldb (split_slash rel)).

Definition is_absolute (p : PurePath) : bool := negb (root p =? "").

(** [str(p)] *)
Definition str (p : PurePath) : string :=
  let s := root p ++ join "/" (tail p) in
  if s =? "" then "." else s.

(** [p.parts] *)
Definition parts (p : PurePath) : list string :=
  if root p =? "" then tail p else root p :: tail p.

(** [a / b] *)
Definition truediv (a b : PurePath) : PurePath :=
  if is_absolute b then b else mkPath (root a) (tail a ++ tail b).

(** ** The file system, as [Path.resolve] sees it

    A file system gives the kind of each node under its absolute path, a
    list of components; a path that is not listed names nothing, and the
    root is a directory. *)
Inductive Node : Type :=
| Directory
| Regular
| Symlink (target : string).

Definition FileSystem : Type := list (list string * Node).

Fixpoint path_eqb (p q : list string) : bool :=
  match p, q with
  | [], [] => true
  | x :: p', y :: q' => (x =? y) && path_eqb p' q'
  | _, _ => false
  end.

Fixpoint fs_get (fs : FileSystem) (p : list string) : option Node :=
  match fs with
  | [] => None
  | (q, n) :: fs' => if path_eqb q p then Some n else fs_get fs' p
  end.

Definition is_dir_node (n : option Node) : bool :=
  match n with Some Directory => true | _ => false end.

(** Every path made of the first components of the path is a directory;
    the path is given innermost component first. *)
Fixpoint all_dirs (fs : FileSystem) (acc : list string) : bool :=
  match acc with
  | [] => true
  | x :: above => is_dir_node (fs_get fs (rev (x :: above))) && all_dirs fs above
  end.

(** [os.lstat(p)] for an absolute path without "." and "..", when it does
    not raise [OSError]: the node itself, reached through directories.
    The paths [realpath] asks about are built from components that were
    each found not to be a link, so no link is crossed on the way. *)
Definition lstat (fs : FileSystem) (p : list string) : option Node :=
  match rev p with
  | [] => Some Directory
  | _ :: above => if all_dirs fs above then fs_get fs p else None
  end.

(** [os.readlink(p)] where [stat.S_ISLNK(os.lstat(p).st_mode)] *)
Definition readlink (fs : FileSystem) (p : list string) : option string :=
  match lstat fs p with
  | Some (Symlink target) => Some target
  | _ => None
  end.

(** The dictionary [seen] of [posixpath._joinrealpath]: a link maps to
    [None] while it is being resolved and to its resolved path (innermost
    component first) afterwards. *)
Definition Seen : Type := list (list string * option (list string)).

Fixpoint seen_get (k : list string) (seen : Seen)
  : option (option (list string)) :=
  match seen with
  | [] => None
  | (k', v) :: seen' => if path_eqb k' k then Some v else seen_get k seen'
  end.

Fixpoint seen_set (k : list string) (v : option (list string)) (seen : Seen)
  : Seen :=
  match seen with
  | [] => [(k, v)]
  | (k', v') :: seen' =>
      if path_eqb k' k then (k', v) :: seen'
      else (k', v') :: seen_set k v seen'
  end.

(** What is left to walk: the fields of the path, and, after the fields
    of the target of a link, the point where the recursive call on the
    target returns and the link is recorded as resolved. *)
Inductive Item : Type :=
| Name (s : string)
| Resolved (key : list string).

Definition names_of (items : list Item) : list string :=
  flat_map (fun i => match i with Name s => [s] | Resolved _ => [] end) items.

(** [posixpath.join(a, b)]: a second part that starts with a slash
    replaces the first. *)
Fixpoint ends_with_slash (s : string) : bool :=
  match s with
  | EmptyString => false
  | String c EmptyString => Ascii.eqb c "/"
  | String _ s' => ends_with_slash s'
  end.

Definition posix_join (a b : string) : string :=
  if startswith b "/" then b
  else if (a =? "") || ends_with_slash a then a ++ b
  else a ++ "/" ++ b.

(** The text not yet walked ([rest]) of each call of [_joinrealpath] that
    is under way, the innermost call first; [cur] holds the fields of the
    innermost call read so far, last field first. *)
Fixpoint rests (cur : list string) (items : list Item) : list string :=
  match items with
  | [] => [join "/" (rev cur)]
  | Name s :: items' => rests (s :: cur) items'
  | Resolved _ :: items' => join "/" (rev cur) :: rests [] items'
  end.

Inductive Walk : Type :=
| Finished (acc : list string)
| Loop (raw : string)
| Follow (acc : list string) (items : list Item) (seen : Seen)
| Failed (e : exn).

(** The loop of [posixpath._joinrealpath] (non-strict), up to the next
    link to follow.  [acc] is the path built so far, innermost component
    first.  Empty and "." fields are skipped, ".." drops the last
    component (the parent of the root is the root), and every other field
    is passed to [os.lstat], which raises [ValueError] on an embedded NUL.
    A link met for the first time is followed: its target is walked from
    the root, or from the directory of the link, before the remaining
    fields.  A link met again while it is being resolved ends the walk
    ([Loop]): each call under way returns [join(path, rest)], so the
    result is the link's path joined with the text not yet walked of
    every call, the innermost first. *)
Fixpoint realpath_walk (fs : FileSystem) (seen : Seen) (acc : list string)
    (items : list Item) : Walk :=
  match items with
  | [] => Finished acc
  | Resolved key :: items' =>
      realpath_walk fs (seen_set key (Some acc) seen) acc items'
  | Name name :: items' =>
      if (name =? "") || (name =? ".") then realpath_walk fs seen acc items'
      else if name =? ".." then realpath_walk fs seen (List.tl acc) items'
      else if str_contains NUL name
      then Failed (Exn "ValueError" "embedded null byte")
      else
        let newpath := rev (name :: acc) in
        match readlink fs newpath with
        | None => realpath_walk fs seen (name :: acc) items'
        | Some target =>
            match seen_get newpath seen with
            | Some (Some cached) => realpath_walk fs seen cached items'
            | Some None =>
                Loop (fold_left posix_join (rests [] items')
                        ("/" ++ join "/" newpath))
            | None =>
                Follow (if startswith target "/" then [] else acc)
                  (map Name (split_slash target) ++ Resolved newpath :: items')
                  (seen_set newpath None seen)
            end
        end
  end.

(** The slashes [posixpath.normpath] keeps in front of an absolute path:
    exactly two leading slashes stay two, any other number becomes one. *)
Definition initial_slashes (s : string) : string :=
  if startswith s "//" && negb (startswith s "///") then "//" else "/".

(** [posixpath._joinrealpath]: the path reached, as its leading slashes
    and its fields, and whether the walk ended without meeting a loop.
    Every link is followed at most once, so [budget] links to follow are
    enough when [budget] is the number of nodes of the file system.  The
    recursion limit of the interpreter, which a chain of about a thousand
    links nested in one another would reach, is not modelled. *)
Fixpoint joinrealpath (budget : nat) (fs : FileSystem) (seen : Seen)
    (acc : list string) (items : list Item) : outcome (PurePath * bool) :=
  match realpath_walk fs seen acc items with
  | Finished acc' => Ok (mkPath "/" (rev acc'), true)
  | Loop raw => Ok (mkPath (initial_slashes raw) (split_slash raw), false)
  | Failed e => Raise e
  | Follow acc' items' seen' =>
      match budget with
      | O => Raise (Exn "RecursionError" "maximum recursion depth exceeded")
      | S budget' => joinrealpath budget' fs seen' acc' items'
      end
  end.

(** [posixpath.normpath] on the fields of an absolute path: empty and
    "." fields are dropped, ".." drops the field before it. *)
Fixpoint normpath (acc : list string) (rest : list string) : list string :=
  match rest with
  | [] => rev acc
  | name :: rest' =>
      if (name =? "") || (name =? ".") then normpath acc rest'
      else if name =? ".." then normpath (List.tl acc) rest'
      else normpath (name :: acc) rest'
  end.

(** The path walk of the kernel, up to the next link: [dir] is the
    directory reached, innermost component first.  A missing component or
    a file ends the walk. *)
Inductive Step : Type :=
| Stop
| Jump (dir : list string) (rest : list string).

Fixpoint namei_step (fs : FileSystem) (dir : list string) (rest : list string)
  : Step :=
  match rest with
  | [] => Stop
  | name :: rest' =>
      if (name =? "") || (name =? ".") then namei_step fs dir rest'
      else if name =? ".." then namei_step fs (List.tl dir) rest'
      else match fs_get fs (rev (name :: dir)) with
           | Some Directory => namei_step fs (name :: dir) rest'
           | Some (Symlink target) =>
               Jump (if startswith target "/" then [] else dir)
                 (split_slash target ++ rest')
           | _ => Stop
           end
  end.

(** Whether [os.stat] fails with [ELOOP]: the kernel follows at most
    [MAXSYMLINKS] links in one walk. *)
Fixpoint stat_eloop (budget : nat) (fs : FileSystem) (dir : list string)
    (rest : list string) : bool :=
  match namei_step fs dir rest with
  | Stop => false
  | Jump dir' rest' =>
      match budget with
      | O => true
      | S budget' => stat_eloop budget' fs dir' rest'
      end
  end.

Definition MAXSYMLINKS : nat := 40.

(** [p.resolve()] (non-strict), as Python up to 3.12 has it: the path
    [os.path.realpath] returns, which is [normpath] of what the walk
    gives, and then [p.stat()], which turns the kernel's [ELOOP] into a
    [RuntimeError] and raises [ValueError] on an embedded NUL; any other
    error of [stat] is ignored.  A relative path is walked from the
    process working directory [cwd]. *)
Definition resolve (fs : FileSystem) (cwd : list string) (p : PurePath)
  : outcome PurePath :=
  r <- joinrealpath (length fs) fs []
         (if is_absolute p then [] else rev cwd) (map Name (tail p)) ;;
  let resolved := mkPath (root (fst r)) (normpath [] (tail (fst r))) in
  if existsb (str_contains NUL) (tail resolved)
  then Raise (Exn "ValueError" "embedded null byte")
  else if stat_eloop MAXSYMLINKS fs [] (tail resolved)
  then Raise (Exn "RuntimeError" ("Symlink loop from " ++ repr (str resolved)))
  else Ok resolved.

(** [p.is_relative_to(f)]: the components of [f] are a prefix of the
    components of [p]. *)
Fixpoint list_prefixb (xs ys : list string) : bool :=
  match xs, ys with
  | [], _ => true
  | x :: xs', y :: ys' => (x =? y) && list_prefixb xs' ys'
  | _ :: _, [] => false
  end.

Definition is_relative_to (p f : PurePath) : bool :=
  list_prefixb (parts f) (parts p).

End Pathlib.
Import Pathlib.

(* ================================================================== *)
(** * context.py *)

Module Context.

(** [ProjectContext]: the only attribute is [_focus_path]. *)
Record ProjectContext : Type := mkContext { _focus_path : option PurePath }.

Definition focus_path_str (ctx : ProjectContext) : option string :=
  option_map str (_focus_path ctx).

(** The [ValueError] raised by [resolve_path] for a relative path when no
    focus is set. *)
Definition NoFocus (path : string) : exn :=
  Exn "ValueError"
      ("Cannot resolve relative path '" ++ path ++
       "' without a project focus. " ++
       "Use project_focus to set the current project first.").

(** [ProjectContext.set_focus]; [exists_] and [is_dir] are the file system's
    answers for the path. *)
Definition set_focus (exists_ is_dir : PurePath -> bool)
    (ctx : ProjectContext) (path : string) : outcome ProjectContext :=
  let p := Path path in
  if negb (is_absolute p) then
    Raise (Exn "ValueError" ("Project path must be absolute: " ++ path))
  else if negb (exists_ p) then
    Raise (Exn "ValueError" ("Project path does not exist: " ++ path))
  else if negb (is_dir p) then
    Raise (Exn "ValueError" ("Project path is not a directory: " ++ path))
  else Ok (mkContext (Some p)).

(** [ProjectContext.resolve_path] *)
Definition resolve_path (fs : FileSystem) (cwd : list string)
    (ctx : ProjectContext) (path : string) : outcome PurePath :=
  let p := Path path in
  if is_absolute p then Ok p
  else match _focus_path ctx with
       | None => Raise (NoFocus path)
       | Some f => resolve fs cwd (truediv f p)
       end.

(** [ProjectContext.is_within_focus]: the [try] block catches [ValueError]
    only. *)
Definition is_within_focus (fs : FileSystem) (cwd : list string)
    (ctx : ProjectContext) (path : string) : outcome bool :=
  match _focus_path ctx with
  | None => Ok false
  | Some f =>
      match resolve_path fs cwd ctx path with
      | Ok resolved => Ok (startswith (str resolved) (str f))
      | Raise e => if isinstance_ValueError e then Ok false else Raise e
      end
  end.

End Context.

(* ================================================================== *)
(** * JSON values *)

(** The values [json.loads] produces (floats are not modelled).  A Python
    [dict] is an association list in insertion order; [None] is [JNull]. *)
Inductive json : Type :=
| JNull
| JBool (b : bool)
| JInt (n : Z)
| JStr (s : string)
| JList (l : list json)
| JDict (d : list (string * json)).

Definition dict : Type := list (string * json).

(** [d.get(k)] *)
Fixpoint dict_get (k : string) (d : dict) : option json :=
  match d with
  | [] => None
  | (k', v) :: d' => if k' =? k then Some v else dict_get k d'
  end.

Definition json_of_opt_str (o : option string) : json :=
  match o with Some s => JStr s | None => JNull end.

Definition json_of_opt_dict (o : option dict) : json :=
  match o with Some d => JDict d | None => JNull end.

(** [v == s] for a string literal [s] *)
Definition json_eq_str (v : json) (s : string) : bool :=
  match v with JStr s' => s' =? s | _ => false end.

(** [s in xs] for strings: substring test. *)
Fixpoint str_in (needle hay : string) : bool :=
  String.prefix needle hay ||
  match hay with
  | EmptyString => false
  | String _ hay' => str_in needle hay'
  end.

(** [k in v]: key membership for a dict, element membership for a list,
    substring test for a string; [TypeError] for the other values. *)
Definition json_contains (v : json) (k : string) : outcome bool :=
  match v with
  | JDict d => Ok (match dict_get k d with Some _ => true | None => false end)
  | JList l => Ok (existsb (fun x => json_eq_str x k) l)
  | JStr s => Ok (str_in k s)
  | _ => Raise (Exn "TypeError" "argument is not iterable")
  end.

(** [v[k]] for a string key *)
Definition json_getitem (v : json) (k : string) : outcome json :=
  match v with
  | JDict d => match dict_get k d with
               | Some x => Ok x
               | None => Raise (Exn "KeyError" k)
               end
  | _ => Raise (Exn "TypeError" "indices must be integers")
  end.

(* ================================================================== *)
(** * Text files read line by line *)

(** [str.isspace] on ASCII *)
Definition is_space (c : ascii) : bool :=
  let n := nat_of_ascii c in
  ((9 <=? n)%nat && (n <=? 13)%nat) || ((28 <=? n)%nat && (n <=? 32)%nat).

Fixpoint lstrip (s : string) : string :=
  match s with
  | EmptyString => ""
  | String c s' => if is_space c then lstrip s' else s
  end.

Fixpoint rstrip (s : string) : string :=
  match s with
  | EmptyString => ""
  | String c s' =>
      match rstrip s' with
      | EmptyString => if is_space c then "" else String c ""
      | r => String c r
      end
  end.

(** [s.strip()] *)
Definition strip (s : string) : string := rstrip (lstrip s).

(** [for line in f] on a file opened in text mode: lines keep their
    terminator, and "\r" and "\r\n" are read as "\n". *)
Fixpoint readlines (s : string) : list string :=
  match s with
  | EmptyString => []
  | String c s' =>
      if Ascii.eqb c LF then nl :: readlines s'
      else if Ascii.eqb c CR then
        nl :: readlines (match s' with
                         | String c' s'' => if Ascii.eqb c' LF then s'' else s'
                         | EmptyString => s'
                         end)
      else match readlines s' with
           | [] => [String c ""]
           | l :: ls => String c l :: ls
           end
  end.

Fixpoint ends_nonspace (s : string) : bool :=
  match s with
  | EmptyString => false
  | String c EmptyString => negb (is_space c)
  | String _ s' => ends_nonspace s'
  end.

(** A text that occupies exactly one line of a file and that [strip]
    leaves alone: no line terminator inside, no white space at its ends. *)
Definition record_line (l : string) : bool :=
  negb (str_contains LF l) && negb (str_contains CR l)
  && match l with
     | EmptyString => false
     | String c _ => negb (is_space c)
     end
  && ends_nonspace l.

(* ================================================================== *)
(** * A reference JSON codec

    [json.dumps] and [json.loads] are parameters of the session store
    below.  This module is one concrete codec in the format of
    [json.dumps] (separators ", " and ": ", ASCII output with control
    characters escaped), on which the store can be run. *)

Module RefJson.

Definition DQ : ascii := ascii_of_nat 34.
Definition BS : ascii := ascii_of_nat 92.

Definition string_of_Z (n : Z) : string := NilZero.string_of_int (Z.to_int n).

Definition Z_of_string (s : string) : option Z :=
  option_map Z.of_int (NilZero.int_of_string s).

Definition hex_digit (n : nat) : ascii :=
  nth n ["0"; "1"; "2"; "3"; "4"; "5"; "6"; "7"; "8"; "9";
         "a"; "b"; "c"; "d"; "e"; "f"]%char "0"%char.

Definition hex_val (c : ascii) : option nat :=
  let n := nat_of_ascii c in
  if (48 <=? n)%nat && (n <=? 57)%nat then Some (n - 48)%nat
  else if (97 <=? n)%nat && (n <=? 102)%nat then Some (n - 87)%nat
  else None.

Definition escape_char (c : ascii) : string :=
  let n := nat_of_ascii c in
  if Ascii.eqb c DQ then String BS (String DQ "")
  else if Ascii.eqb c BS then String BS (String BS "")
  else if (n <? 32)%nat || (127 <=? n)%nat then
    String BS (String "u" (String "0" (String "0"
      (String (hex_digit (n / 16)) (String (hex_digit (n mod 16)) "")))))
  else String c "".

Fixpoint escape (s : string) : string :=
  match s with
  | EmptyString => ""
  | String c s' => escape_char c ++ escape s'
  end.

Definition quote (s : string) : string :=
  String DQ (escape s ++ String DQ "").

Fixpoint dumps (v : json) : string :=
  match v with
  | JNull => "null"
  | JBool true => "true"
  | JBool false => "false"
  | JInt n => string_of_Z n
  | JStr s => quote s
  | JList l => "[" ++ join ", " (map dumps l) ++ "]"
  | JDict d =>
      "{" ++ join ", " (map (fun kv => match kv with
                                       | (k, x) => quote k ++ ": " ++ dumps x
                                       end) d) ++ "}"
  end.

(** The text after an opening quote, up to the closing one. *)
Fixpoint parse_string (s : string) : option (string * string) :=
  match s with
  | EmptyString => None
  | String c s' =>
      if Ascii.eqb c DQ then Some ("", s')
      else if Ascii.eqb c BS then
        match s' with
        | String "u" (String "0" (String "0" (String h (String l r)))) =>
            match hex_val h, hex_val l, parse_string r with
            | Some a, Some b, Some (x, r') =>
                Some (String (ascii_of_nat (16 * a + b)) x, r')
            | _, _, _ => None
            end
        | String e r =>
            if Ascii.eqb e DQ || Ascii.eqb e BS then
              match parse_string r with
              | Some (x, r') => Some (String e x, r')
              | None => None
              end
            else None
        | EmptyString => None
        end
      else match parse_string s' with
           | Some (x, r') => Some (String c x, r')
           | None => None
           end
  end.

Definition is_num_char (c : ascii) : bool :=
  let n := nat_of_ascii c in
  Ascii.eqb c "-" || ((48 <=? n)%nat && (n <=? 57)%nat).

Fixpoint span_num (s : string) : string * string :=
  match s with
  | String c s' =>
      if is_num_char c then let '(a, b) := span_num s' in (String c a, b)
      else ("", s)
  | EmptyString => ("", "")
  end.

Fixpoint drop_prefix (p s : string) : option string :=
  match p, s with
  | EmptyString, _ => Some s
  | String a p', String b s' => if Ascii.eqb a b then drop_prefix p' s' else None
  | String _ _, EmptyString => None
  end.

Definition parse_atom (s : string) : option (json * string) :=
  match drop_prefix "null" s, drop_prefix "true" s, drop_prefix "false" s with
  | Some r, _, _ => Some (JNull, r)
  | _, Some r, _ => Some (JBool true, r)
  | _, _, Some r => Some (JBool false, r)
  | _, _, _ =>
      let '(digits, r) := span_num s in
      match Z_of_string digits with
      | Some n => if digits =? "" then None else Some (JInt n, r)
      | None => None
      end
  end.

Fixpoint parse_value (fuel : nat) (s : string) {struct fuel}
  : option (json * string) :=
  match fuel with
  | O => None
  | S f =>
      match lstrip s with
      | EmptyString => None
      | String c r =>
          if Ascii.eqb c DQ then
            match parse_string r with
            | Some (x, r') => Some (JStr x, r')
            | None => None
            end
          else if Ascii.eqb c "[" then
            match lstrip r with
            | String "]" r' => Some (JList [], r')
            | _ => parse_elems f [] r
            end
          else if Ascii.eqb c "{" then
            match lstrip r with
            | String "}" r' => Some (JDict [], r')
            | _ => parse_members f [] r
            end
          else parse_atom (String c r)
      end
  end
with parse_elems (fuel : nat) (acc : list json) (s : string) {struct fuel}
  : option (json * string) :=
  match fuel with
  | O => None
  | S f =>
      match parse_value f s with
      | Some (v, r) =>
          match lstrip r with
          | String "," r' => parse_elems f (v :: acc) r'
          | String "]" r' => Some (JList (rev (v :: acc)), r')
          | _ => None
          end
      | None => None
      end
  end
with parse_members (fuel : nat) (acc : dict) (s : string) {struct fuel}
  : option (json * string) :=
  match fuel with
  | O => None
  | S f =>
      match lstrip s with
      | String c r =>
          if Ascii.eqb c DQ then
            match parse_string r with
            | Some (k, r1) =>
                match lstrip r1 with
                | String ":" r2 =>
                    match parse_value f r2 with
                    | Some (v, r3) =>
                        match lstrip r3 with
                        | String "," r4 => parse_members f ((k, v) :: acc) r4
                        | String "}" r4 =>
                            Some (JDict (rev ((k, v) :: acc)), r4)
                        | _ => None
                        end
                    | None => None
                    end
                | _ => None
                end
            | None => None
            end
          else None
      | EmptyString => None
      end
  end.

Definition loads (s : string) : outcome json :=
  match parse_value (2 * String.length s + 2) s with
  | Some (v, r) =>
      if lstrip r =? "" then Ok v
      else Raise (Exn "JSONDecodeError" "Extra data")
  | None => Raise (Exn "JSONDecodeError" "Expecting value")
  end.

End RefJson.

(* ================================================================== *)
(** * config.py *)

Module Config.

Inductive ApprovalLevel : Type := AUTO | CONFIRM | EXPLICIT.

(** [level.value] *)
Definition value (l : ApprovalLevel) : string :=
  match l with
  | AUTO => "auto"
  | CONFIRM => "confirm"
  | EXPLICIT => "explicit"
  end.

Definition is_EXPLICIT (l : ApprovalLevel) : bool :=
  match l with EXPLICIT => true | _ => false end.

Definition SESSION_TTL_HOURS : Z := 24.
Definition SESSION_ID_PREFIX : string := "sess_".

End Config.
Import Config.

(* ================================================================== *)
(** * The session directory and the clock *)

(** A log file: its modification time and its text. *)
Record File : Type := mkFile { st_mtime : Z; content : string }.

(** [SESSION_DIR]: the files "<id>.jsonl", keyed by the session id, in
    the order in which the directory lists them. *)
Definition SessionDir : Type := list (string * File).

Fixpoint dir_lookup (sid : string) (d : SessionDir) : option File :=
  match d with
  | [] => None
  | (k, f) :: d' => if k =? sid then Some f else dir_lookup sid d'
  end.

(** The text of a log; a missing file has none. *)
Definition dir_content (sid : string) (d : SessionDir) : string :=
  match dir_lookup sid d with
  | Some f => content f
  | None => ""
  end.

(** [open(file, "a").write(text)] at time [t]: the text goes after the
    bytes already there; a missing file is created. *)
Fixpoint dir_append (t : Z) (sid : string) (text : string) (d : SessionDir)
  : SessionDir :=
  match d with
  | [] => [(sid, mkFile t text)]
  | (k, f) :: d' =>
      if k =? sid then (k, mkFile t (content f ++ text)) :: d'
      else (k, f) :: dir_append t sid text d'
  end.

(** One reading of the clocks: [datetime.utcnow().isoformat()], the time
    stamped on written files, and [datetime.now()] (local, naive), the last
    two in microseconds. *)
Record Clock : Type := mkClock {
  utcnow_isoformat : string;
  time_ : Z;
  now_ : Z
}.

(** [timedelta(hours=h)] in microseconds *)
Definition timedelta_hours (h : Z) : Z := (h * 3600 * 1000000)%Z.

(* ================================================================== *)
(** * session.py: entries and sessions *)

Definition SessionEntry : Type := dict.

(** [SessionEntry.create] *)
Definition SessionEntry_create (clk : Clock) (entry_type : string)
    (tool : option string) (params result error context : json)
  : SessionEntry :=
  [ ("timestamp", JStr (utcnow_isoformat clk ++ "Z"));
    ("type", JStr entry_type);
    ("tool", json_of_opt_str tool);
    ("params", params);
    ("result", result);
    ("error", error);
    ("context", context) ].

(** [SessionEntry(v)], that is [dict(v)], for a value read from the log.
    A JSON object is the entry, and an empty array or an empty string
    gives the empty entry; a null, a boolean or a number is not iterable,
    and the characters of a string are no pairs.  A non-empty array,
    which [dict] accepts when its items are pairs, is taken to raise as
    it does on an item that is no sequence: the engine writes objects
    only. *)
Definition SessionEntry_of_json (v : json) : outcome SessionEntry :=
  match v with
  | JDict d => Ok d
  | JList [] => Ok []
  | JStr EmptyString => Ok []
  | JStr _ =>
      Raise (Exn "ValueError"
               ("dictionary update sequence element #0 has length 1; " ++
                "2 is required"))
  | JList _ =>
      Raise (Exn "TypeError"
               ("cannot convert dictionary update sequence element #0 " ++
                "to a sequence"))
  | JNull => Raise (Exn "TypeError" "'NoneType' object is not iterable")
  | JBool _ => Raise (Exn "TypeError" "'bool' object is not iterable")
  | JInt _ => Raise (Exn "TypeError" "'int' object is not iterable")
  end.

Record Session : Type := mkSession {
  session_id : string;
  _project_focus : json;
  _entries : list SessionEntry;
  _loaded : bool
}.

(** [Session(session_id)] *)
Definition Session_init (sid : string) : Session :=
  mkSession sid JNull [] false.

Definition set_loaded (s : Session) : Session :=
  mkSession (session_id s) (_project_focus s) (_entries s) true.

Definition push_entry (s : Session) (e : SessionEntry) : Session :=
  mkSession (session_id s) (_project_focus s) (_entries s ++ [e]) (_loaded s).

Definition set_project_focus (s : Session) (f : json) : Session :=
  mkSession (session_id s) f (_entries s) (_loaded s).

(** The kinds of record the engine writes, with their payload. *)
Inductive LogRecord : Type :=
| session_start
| session_resume
| session_continue
| context_change (project_focus : option string)
| tool_call (tool : string) (params result error : json)
            (focus_snapshot : json).

Definition is_context_change (r : LogRecord) : bool :=
  match r with context_change _ => true | _ => false end.

(** The entry each call site of [SessionEntry.create] builds. *)
Definition entry_of (clk : Clock) (r : LogRecord) : SessionEntry :=
  match r with
  | session_start =>
      SessionEntry_create clk "session_start" None JNull JNull JNull JNull
  | session_resume =>
      SessionEntry_create clk "session_resume" None JNull JNull JNull JNull
  | session_continue =>
      SessionEntry_create clk "session_continue" None JNull JNull JNull JNull
  | context_change f =>
      SessionEntry_create clk "context_change" None JNull JNull JNull
        (JDict [("project_focus", json_of_opt_str f)])
  | tool_call t p r e f =>
      SessionEntry_create clk "tool_call" (Some t) p r e
        (JDict [("project_focus", f)])
  end.

(** The fold the specification describes: the focus of the last
    [context_change] record, [JNull] (Python's [None]) when there is
    none. *)
Fixpoint last_context_change (acc : json) (rs : list (Clock * LogRecord))
  : json :=
  match rs with
  | [] => acc
  | (_, context_change f) :: rs' => last_context_change (json_of_opt_str f) rs'
  | _ :: rs' => last_context_change acc rs'
  end.

(* ================================================================== *)
(** * schemas/responses.py *)

Module Responses.

Record ErrorDetail : Type := mkErrorDetail {
  type_ : string;
  message : string;
  err_tool : option string;
  details : dict
}.

Record ContextInfo : Type := mkContextInfo {
  project : option string;
  ctx_session_id : option string;
  additional : dict
}.

Record ToolResponse : Type := mkToolResponse {
  success : bool;
  session_id : string;
  tool : string;
  approval_level : string;
  dry_run : bool;
  result : json;
  context : ContextInfo;
  error : option ErrorDetail;
  timestamp : string
}.

(** [ContextInfo()] *)
Definition ContextInfo_default : ContextInfo := mkContextInfo None None [].

Definition or_default (c : option ContextInfo) : ContextInfo :=
  match c with Some c => c | None => ContextInfo_default end.

(** [ToolResponse.success_response] *)
Definition success_response (clk : Clock) (session_id tool approval_level : string)
    (result : json) (context : option ContextInfo) (dry_run : bool)
  : ToolResponse :=
  mkToolResponse true session_id tool approval_level dry_run result
    (or_default context) None (utcnow_isoformat clk ++ "Z").

(** [ToolResponse.error_response] *)
Definition error_response (clk : Clock) (session_id tool approval_level : string)
    (error_type error_message : string) (details : option dict)
    (context : option ContextInfo) : ToolResponse :=
  mkToolResponse false session_id tool approval_level false JNull
    (or_default context)
    (Some (mkErrorDetail error_type error_message (Some tool)
             (match details with Some x => x | None => [] end)))
    (utcnow_isoformat clk ++ "Z").

End Responses.

(* ================================================================== *)
(** * tools/base.py: the tool contract *)

Module Tools.

(** Validated parameters: every model derives from [BaseToolParams] and
    so carries [dry_run]; the other fields are kept by name. *)
Record BaseToolParams : Type := mkParams {
  dry_run : bool;
  fields : dict
}.

Record ToolMetadata : Type := mkMetadata {
  name : string;
  approval_level : ApprovalLevel;
  description : string;
  (** [params_model.model_validate] *)
  params_model : json -> outcome BaseToolParams
}.

(** What a tool instance holds and can change: its session, its context,
    and the session directory the session writes to. *)
Record ToolEnv : Type := mkEnv {
  session : Session;
  context : Context.ProjectContext;
  sessions : SessionDir
}.

(** A tool: its metadata and its [execute] method, which returns a value
    or raises, and may change the environment either way. *)
Record BaseTool : Type := mkTool {
  metadata : ToolMetadata;
  execute : BaseToolParams -> ToolEnv -> outcome json * ToolEnv
}.

End Tools.
Import Tools.

(* ================================================================== *)
(** * session.py and tools/base.py over a JSON codec *)

Section Store.

(** [json.dumps] and [json.loads] *)
Variable json_dumps : json -> string.
Variable json_loads : string -> outcome json.

(** The body of the loop of [Session._load] for one line. *)
Definition load_line (s : Session) (line : string) : outcome Session :=
  let line := strip line in
  if line =? "" then Ok s
  else
    v <- json_loads line ;;
    entry <- SessionEntry_of_json v ;;
    let s := push_entry s entry in
    match dict_get "type" entry with
    | Some ty =>
        if json_eq_str ty "context_change" then
          let ctx := match dict_get "context" entry with
                     | Some c => c
                     | None => JDict []
                     end in
          has <- json_contains ctx "project_focus" ;;
          if (has : bool) then
            f <- json_getitem ctx "project_focus" ;;
            Ok (set_project_focus s f)
          else Ok s
        else Ok s
    | None => Ok s
    end.

Fixpoint load_lines (s : Session) (lines : list string) : outcome Session :=
  match lines with
  | [] => Ok s
  | line :: rest => s' <- load_line s line ;; load_lines s' rest
  end.

(** [Session._load] *)
Definition Session_load (d : SessionDir) (s : Session) : outcome Session :=
  if _loaded s then Ok s
  else match dir_lookup (session_id s) d with
       | Some f =>
           s' <- load_lines s (readlines (content f)) ;;
           Ok (set_loaded s')
       | None => Ok (set_loaded s)
       end.

(** The [project_focus] property *)
Definition Session_project_focus (d : SessionDir) (s : Session)
  : outcome (json * Session) :=
  s' <- Session_load d s ;; Ok (_project_focus s', s').

(** [Session.append] *)
Definition Session_append (clk : Clock) (d : SessionDir) (s : Session)
    (entry : SessionEntry) : outcome (Session * SessionDir) :=
  s1 <- Session_load d s ;;
  Ok (push_entry s1 entry,
      dir_append (time_ clk) (session_id s) (json_dumps (JDict entry) ++ nl) d).

(** [Session.log_tool_call] *)
Definition log_tool_call (clk : Clock) (d : SessionDir) (s : Session)
    (tool : string) (params result error : json)
  : outcome (Session * SessionDir) :=
  Session_append clk d s
    (entry_of clk (tool_call tool params result error (_project_focus s))).

(** [Session.log_context_change] *)
Definition log_context_change (clk : Clock) (d : SessionDir) (s : Session)
    (project_focus : option string) : outcome (Session * SessionDir) :=
  let s := set_project_focus s (json_of_opt_str project_focus) in
  Session_append clk d s (entry_of clk (context_change project_focus)).

(** Appending a sequence of entries, one [Session.append] each. *)
Fixpoint append_all (d : SessionDir) (s : Session)
    (es : list (Clock * SessionEntry)) : outcome (Session * SessionDir) :=
  match es with
  | [] => Ok (s, d)
  | (clk, e) :: es' =>
      r <- Session_append clk d s e ;;
      append_all (snd r) (fst r) es'
  end.

(** [datetime.fromtimestamp]: the local wall-clock reading of a file time. *)
Variable fromtimestamp : Z -> Z.

(** [Session.is_expired] *)
Definition is_expired (clk : Clock) (d : SessionDir) (s : Session) : bool :=
  match dir_lookup (session_id s) d with
  | None => true
  | Some f =>
      let mtime := fromtimestamp (st_mtime f) in
      let expiry := (mtime + timedelta_hours SESSION_TTL_HOURS)%Z in
      (now_ clk >? expiry)%Z
  end.

(* ------------------------------------------------------------------ *)
(** ** session.py: the session manager

    The manager's [_current_session] attribute is written and never read;
    it is left out. *)

(** [SESSION_DIR.glob("sess_*.jsonl")], as session ids *)
Definition glob_sessions (d : SessionDir) : list string :=
  filter (fun sid => startswith sid "sess_") (map fst d).

(** [p.stat().st_mtime] *)
Definition mtime_of (d : SessionDir) (sid : string) : Z :=
  match dir_lookup sid d with
  | Some f => st_mtime f
  | None => 0%Z
  end.

(** [xs.sort(key=key, reverse=True)]: a stable sort, largest key first;
    entries with equal keys keep their order. *)
Fixpoint insert_desc (key : string -> Z) (x : string) (l : list string)
  : list string :=
  match l with
  | [] => [x]
  | y :: l' =>
      if (key y <=? key x)%Z then x :: y :: l'
      else y :: insert_desc key x l'
  end.

Fixpoint sort_desc (key : string -> Z) (l : list string) : list string :=
  match l with
  | [] => []
  | x :: l' => insert_desc key x (sort_desc key l')
  end.

(** [SessionManager.generate_session_id]; [suffix] is the random draw. *)
Definition generate_session_id (suffix : string) : string :=
  SESSION_ID_PREFIX ++ suffix.

(** [SessionManager.create_session] *)
Definition create_session (clk : Clock) (suffix : string) (d : SessionDir)
  : outcome (Session * SessionDir) :=
  let session := Session_init (generate_session_id suffix) in
  Session_append clk d session (entry_of clk session_start).

(** [SessionManager.resume_session] *)
Definition resume_session (clk : Clock) (d : SessionDir) (sid : string)
  : outcome (option Session * SessionDir) :=
  let session := Session_init sid in
  match dir_lookup sid d with
  | None => Ok (None, d)
  | Some _ =>
      if is_expired clk d session then Ok (None, d)
      else
        s1 <- Session_load d session ;;
        r <- Session_append clk d s1 (entry_of clk session_resume) ;;
        Ok (Some (fst r), snd r)
  end.

(** The [for] loop of [continue_last_session]. *)
Fixpoint continue_scan (clk : Clock) (d : SessionDir)
    (session_files : list string) : outcome (option Session * SessionDir) :=
  match session_files with
  | [] => Ok (None, d)
  | sid :: rest =>
      let session := Session_init sid in
      if negb (is_expired clk d session) then
        s1 <- Session_load d session ;;
        r <- Session_append clk d s1 (entry_of clk session_continue) ;;
        Ok (Some (fst r), snd r)
      else continue_scan clk d rest
  end.

(** [SessionManager.continue_last_session] *)
Definition continue_last_session (clk : Clock) (d : SessionDir)
  : outcome (option Session * SessionDir) :=
  let session_files := glob_sessions d in
  match session_files with
  | [] => Ok (None, d)
  | _ => continue_scan clk d (sort_desc (mtime_of d) session_files)
  end.

(** [SessionManager.get_or_create_session]; an empty [resume_id] is falsy. *)
Definition get_or_create_session (clk : Clock) (suffix : string)
    (resume_id : option string) (continue_last : bool) (d : SessionDir)
  : outcome (Session * SessionDir) :=
  let fresh := create_session clk suffix in
  let continue_ (d : SessionDir) :=
    if continue_last then
      r <- continue_last_session clk d ;;
      match fst r with
      | Some session => Ok (session, snd r)
      | None => fresh (snd r)
      end
    else fresh d in
  match resume_id with
  | Some sid =>
      if sid =? "" then continue_ d
      else
        r <- resume_session clk d sid ;;
        match fst r with
        | Some session => Ok (session, snd r)
        | None => continue_ (snd r)
        end
  | None => continue_ d
  end.

(* ------------------------------------------------------------------ *)
(** ** tools/base.py: [BaseTool.run] *)

(** [BaseTool.validate_params] *)
Definition validate_params (t : BaseTool) (params : json)
  : outcome BaseToolParams :=
  params_model (metadata t) params.

(** The calls of [session.log_tool_call] made by [run]. *)
Definition env_log_tool_call (clk : Clock) (env : ToolEnv) (tool : string)
    (params result error : json) : outcome ToolEnv :=
  r <- log_tool_call clk (sessions env) (session env) tool params result error ;;
  Ok (mkEnv (fst r) (context env) (snd r)).

(** The [except Exception as e] block of [BaseTool.run]. *)
Definition run_except (clk : Clock) (t : BaseTool) (raw_params : json)
    (context_info : Responses.ContextInfo) (e : exn) (env : ToolEnv)
  : outcome (Responses.ToolResponse * ToolEnv) :=
  let error_info :=
    JDict [("type", JStr (exn_class e)); ("message", JStr (exn_msg e))] in
  env' <- env_log_tool_call clk env (name (metadata t)) raw_params JNull
            error_info ;;
  Ok (Responses.error_response clk
        (session_id (session env')) (name (metadata t))
        (value (approval_level (metadata t)))
        (exn_class e) (exn_msg e) None (Some context_info),
      env').

(** [BaseTool.run] *)
Definition run (clk : Clock) (t : BaseTool) (raw_params : json)
    (auto_approve : bool) (env : ToolEnv)
  : outcome (Responses.ToolResponse * ToolEnv) :=
  let meta := metadata t in
  let context_info :=
    Responses.mkContextInfo (Context.focus_path_str (context env))
      (Some (session_id (session env))) [] in
  match validate_params t raw_params with
  | Raise e => run_except clk t raw_params context_info e env
  | Ok params =>
      if negb auto_approve && is_EXPLICIT (approval_level meta) then
        Ok (Responses.error_response clk
              (session_id (session env)) (name meta)
              (value (approval_level meta))
              "ApprovalRequired"
              ("Tool '" ++ name meta ++ "' requires explicit approval. " ++
               "Use --auto-approve flag to execute.")
              None (Some context_info),
            env)
      else if dry_run params then
        Ok (Responses.success_response clk
              (session_id (session env)) (name meta)
              (value (approval_level meta))
              (JDict [("dry_run", JBool true);
                      ("would_execute", JStr (name meta));
                      ("params", raw_params);
                      ("approval_level", JStr (value (approval_level meta)))])
              (Some context_info) true,
            env)
      else
        match execute t params env with
        | (Raise e, env1) =>
            run_except clk t raw_params context_info e env1
        | (Ok result, env1) =>
            match env_log_tool_call clk env1 (name meta) raw_params result
                    JNull with
            | Raise e => run_except clk t raw_params context_info e env1
            | Ok env2 =>
                Ok (Responses.success_response clk
                      (session_id (session env2)) (name meta)
                      (value (approval_level meta))
                      result (Some context_info) false,
                    env2)
            end
        end
  end.

End Store.

(* ================================================================== *)
(** * schemas/requests.py and tools/bash.py: the [bash_run] tool *)

Definition ValidationError (msg : string) : exn := Exn "ValidationError" msg.

(** [repr(v)] of a parsed JSON value. *)
Fixpoint py_repr (v : json) : string :=
  match v with
  | JNull => "None"
  | JBool true => "True"
  | JBool false => "False"
  | JInt n => RefJson.string_of_Z n
  | JStr s => repr s
  | JList l => "[" ++ join ", " (map py_repr l) ++ "]"
  | JDict d =>
      "{" ++ join ", " (map (fun kv => match kv with
                                       | (k, x) => repr k ++ ": " ++ py_repr x
                                       end) d) ++ "}"
  end.

(** [type(v).__name__] *)
Definition py_type (v : json) : string :=
  match v with
  | JNull => "NoneType"
  | JBool _ => "bool"
  | JInt _ => "int"
  | JStr _ => "str"
  | JList _ => "list"
  | JDict _ => "dict"
  end.

(** One error of a pydantic [ValidationError]: where (the keys leading to
    the input, none for the input as a whole), what, the kind of error
    and the offending input. *)
Record LineError : Type := mkLineError {
  le_loc : list string;
  le_msg : string;
  le_type : string;
  le_input : json
}.

(** The input as the report shows it: a text of more than 50 bytes is cut
    to its first 25 and last 24 bytes. *)
Definition truncated (s : string) : string :=
  let n := String.length s in
  if (50 <? n)%nat
  then substring 0 25 s ++ "..." ++ substring (n - 24) 24 s
  else s.

(** [str(e)] for a pydantic [ValidationError] on the model [title], with
    the documentation links pydantic includes unless its environment
    switches them off.  [version] is the release of the installed
    pydantic, which the links name. *)
Definition line_error_text (version : string) (e : LineError) : string :=
  match le_loc e with
  | [] => ""
  | loc => join "." loc ++ nl
  end ++
  "  " ++ le_msg e ++ " [type=" ++ le_type e ++
  ", input_value=" ++ truncated (py_repr (le_input e)) ++
  ", input_type=" ++ py_type (le_input e) ++ "]" ++ nl ++
  "    For further information visit https://errors.pydantic.dev/" ++
  version ++ "/v/" ++ le_type e.

Definition validation_report (version title : string)
    (errors : list LineError) : string :=
  RefJson.string_of_Z (Z.of_nat (length errors)) ++
  " validation error" ++
  (if (length errors =? 1)%nat then "" else "s") ++
  " for " ++ title ++ nl ++
  join nl (map (line_error_text version) errors).

(** The errors for the keys of the input that are not fields of the
    model ([extra = "forbid"]). *)
Definition extra_errors (allowed : list string) (d : dict) : list LineError :=
  flat_map (fun kv =>
              if existsb (String.eqb (fst kv)) allowed then []
              else [mkLineError [fst kv] "Extra inputs are not permitted"
                      "extra_forbidden" (snd kv)]) d.

(** The field [dry_run] of [BaseToolParams]. *)
Definition dry_run_field (d : dict) : bool * list LineError :=
  match dict_get "dry_run" d with
  | None => (false, [])
  | Some (JBool b) => (b, [])
  | Some v =>
      (false, [mkLineError ["dry_run"] "Input should be a valid boolean"
                 "bool_type" v])
  end.

Definition not_a_dictionary (title : string) (raw : json) : LineError :=
  mkLineError []
    ("Input should be a valid dictionary or instance of " ++ title)
    "model_type" raw.

(** [BashRunParams.model_validate], for inputs of the declared JSON types:
    [command] a required string, [timeout] an integer from 1 to 300
    (default 60), [cwd] a string or null (default null), [dry_run] a
    boolean (default false), no other field.  Every field is checked, in
    the order of the model, then the extra keys, and all errors are
    reported together.  The conversions pydantic applies to inputs of
    other types are not modelled; such inputs are rejected here. *)
Definition BashRunParams (version : string) (raw : json)
  : outcome BaseToolParams :=
  match raw with
  | JDict d =>
      let '(dry, e1) := dry_run_field d in
      let '(command, e2) :=
        match dict_get "command" d with
        | Some (JStr c) => (c, [])
        | Some v =>
            ("", [mkLineError ["command"] "Input should be a valid string"
                    "string_type" v])
        | None => ("", [mkLineError ["command"] "Field required" "missing" raw])
        end in
      let '(timeout, e3) :=
        match dict_get "timeout" d with
        | None => (60%Z, [])
        | Some (JInt n) =>
            if (n <? 1)%Z then
              (n, [mkLineError ["timeout"]
                     "Input should be greater than or equal to 1"
                     "greater_than_equal" (JInt n)])
            else if (300 <? n)%Z then
              (n, [mkLineError ["timeout"]
                     "Input should be less than or equal to 300"
                     "less_than_equal" (JInt n)])
            else (n, [])
        | Some v =>
            (60%Z, [mkLineError ["timeout"] "Input should be a valid integer"
                      "int_type" v])
        end in
      let '(cwd, e4) :=
        match dict_get "cwd" d with
        | None | Some JNull => (JNull, [])
        | Some (JStr c) => (JStr c, [])
        | Some v =>
            (JNull, [mkLineError ["cwd"] "Input should be a valid string"
                       "string_type" v])
        end in
      match (e1 ++ e2 ++ e3 ++ e4
             ++ extra_errors ["dry_run"; "command"; "timeout"; "cwd"] d)%list
      with
      | [] => Ok (mkParams dry [("command", JStr command);
                                ("timeout", JInt timeout);
                                ("cwd", cwd)])
      | errors =>
          Raise (ValidationError
                   (validation_report version "BashRunParams" errors))
      end
  | _ =>
      Raise (ValidationError
               (validation_report version "BashRunParams"
                  [not_a_dictionary "BashRunParams" raw]))
  end.

(** [BashRunTool]: [execute] catches whatever the subprocess raises and
    returns a dict; [subprocess_run] stands for the outcome of running the
    command in the chosen working directory. *)
Definition BashRunTool (pydantic_version : string)
    (subprocess_run : dict -> option string -> json) : BaseTool :=
  mkTool
    (mkMetadata "bash_run" EXPLICIT
       ("Execute arbitrary bash commands. Escape hatch for operations not " ++
        "covered by other tools. Requires explicit approval.")
       (BashRunParams pydantic_version))
    (fun params env =>
       let cwd :=
         match dict_get "cwd" (fields params) with
         | Some (JStr c) =>
             if c =? "" then Context.focus_path_str (context env) else Some c
         | _ => Context.focus_path_str (context env)
         end in
       (Ok (subprocess_run (fields params) cwd), env)).

(* ================================================================== *)
(** * Specification-level notions *)

(** A component that survives normalisation. *)
Definition plain_component (x : string) : Prop :=
  x <> "" /\ x <> "." /\ x <> "..".

(** One collapsing step on the components after the root: an empty or "."
    component is dropped; a ".." is dropped together with the plain
    component before it; a leading ".." (the parent of the root) is
    dropped. *)
Inductive collapse_step : list string -> list string -> Prop :=
| collapse_dot : forall pre x post,
    x = "" \/ x = "." ->
    collapse_step (pre ++ x :: post) (pre ++ post)
| collapse_dotdot : forall pre x post,
    plain_component x ->
    collapse_step (pre ++ x :: ".." :: post) (pre ++ post)
| collapse_root : forall post,
    collapse_step (".." :: post) post.

(** Any number of collapsing steps. *)
Inductive collapses : list string -> list string -> Prop :=
| collapses_refl : forall l, collapses l l
| collapses_step : forall l1 l2 l3,
    collapse_step l1 l2 -> collapses l2 l3 -> collapses l1 l3.

(** [q] is the normalised form of the components [l]. *)
Definition normalized_from (l q : list string) : Prop :=
  collapses l q /\ Forall plain_component q.

(** What one component does to the plain components kept so far (the
    innermost first). *)
Definition keep_component (kept : list string) (x : string) : list string :=
  if (x =? "") || (x =? ".") then kept
  else if x =? ".." then List.tl kept
  else x :: kept.

(** A path string the operating system accepts: no NUL byte. *)
Definition posix_string (s : string) : bool := negb (str_contains NUL s).

Definition posix_path (p : PurePath) : bool :=
  forallb posix_string (tail p).

(** The path is not a symbolic link. *)
Definition unlinked (fs : FileSystem) (q : list string) : bool :=
  match readlink fs q with Some _ => false | None => true end.

(** The paths a walk of the fields [rest] from [acc] (innermost component
    first) passes to [os.lstat] as long as it meets no link: "." and
    empty fields are skipped, ".." goes up, and every other field gives
    the path reached so far with the field added. *)
Fixpoint visited (acc : list string) (rest : list string)
  : list (list string) :=
  match rest with
  | [] => []
  | name :: rest' =>
      if (name =? "") || (name =? ".") then visited acc rest'
      else if name =? ".." then visited (List.tl acc) rest'
      else rev (name :: acc) :: visited (name :: acc) rest'
  end.

(** No component met on the way is a symbolic link. *)
Definition link_free (fs : FileSystem) (acc rest : list string) : bool :=
  forallb (unlinked fs) (visited acc rest).

(** None of the directories above and including the path (innermost
    component first) is a symbolic link. *)
Fixpoint all_unlinked (fs : FileSystem) (acc : list string) : bool :=
  match acc with
  | [] => true
  | x :: above => unlinked fs (rev (x :: above)) && all_unlinked fs above
  end.


(** The entry of a record as [Session.append] takes it. *)
Definition stamped (cr : Clock * LogRecord) : Clock * SessionEntry :=
  (fst cr, entry_of (fst cr) (snd cr)).

(** The entries of a sequence of records. *)
Definition entries_of (rs : list (Clock * LogRecord)) : list SessionEntry :=
  map (fun cr => snd (stamped cr)) rs.

(** What replaying one record does to the session in memory. *)
Definition replay_record (s : Session) (cr : Clock * LogRecord) : Session :=
  let s' := push_entry s (snd (stamped cr)) in
  match snd cr with
  | context_change f => set_project_focus s' (json_of_opt_str f)
  | _ => s'
  end.

Section Serialisation.

Variable json_dumps : json -> string.
Variable json_loads : string -> outcome json.

(** An entry that [json.dumps] writes on one line and [json.loads] reads
    back, as holds of every JSON value in Python. *)
Definition serialisable (e : SessionEntry) : Prop :=
  record_line (json_dumps (JDict e)) = true /\
  json_loads (json_dumps (JDict e)) = Ok (JDict e).

(** The text of a log made of the given entries, one per line. *)
Fixpoint log_text (es : list SessionEntry) : string :=
  match es with
  | [] => ""
  | e :: es' => (json_dumps (JDict e) ++ nl) ++ log_text es'
  end.

End Serialisation.

(** Sample data. *)

(** A file system where [/tmp/vlinks] holds a link to [/etc] and a link
    to itself. *)
Definition sample_links : FileSystem :=
  [ (["tmp"], Directory); (["tmp"; "vlinks"], Directory);
    (["tmp"; "vlinks"; "link"], Symlink "/etc");
    (["tmp"; "vlinks"; "loop"], Symlink "loop");
    (["etc"], Directory); (["etc"; "hosts"], Regular) ].

Definition clock0 : Clock := mkClock "2024-05-01T10:00:00" 1000 5000.
Definition clock1 : Clock := mkClock "2024-05-01T10:00:01" 2000 6000.
Definition clock2 : Clock := mkClock "2024-05-01T10:00:02" 3000 7000.

Definition sample_history : list (Clock * LogRecord) :=
  [ (clock0, session_start);
    (clock0, context_change (Some "/tmp/proj")) ].

Definition sample_records : list (Clock * LogRecord) :=
  [ (clock1, tool_call "file_read" (JDict [("path", JStr "a.txt")])
               (JDict [("lines", JInt 3)]) JNull (JStr "/tmp/proj"));
    (clock1, context_change (Some "/srv/app"));
    (clock2, tool_call "bash_run" (JDict [("command", JStr "ls")]) JNull
               (JDict [("type", JStr "ValueError"); ("message", JStr "boom")])
               (JStr "/srv/app"));
    (clock2, session_continue) ].

(** The test of the scan of [continue_last_session]: the session of this
    id has not expired. *)
Definition live (fromtimestamp : Z -> Z) (clk : Clock) (d : SessionDir)
    (sid : string) : bool :=
  negb (is_expired fromtimestamp clk d (Session_init sid)).

(** A time zone whose clocks go back by one hour at file time [100 h]:
    two hours ahead of the file times before, one hour ahead after. *)
Definition fall_back (t : Z) : Z :=
  if (t <? timedelta_hours 100)%Z then (t + timedelta_hours 2)%Z
  else (t + timedelta_hours 1)%Z.

Definition minutes (m : Z) : Z := (m * 60 * 1000000)%Z.

(** Three logs: [sess_new] written last, [sess_mid] twenty minutes
    earlier, across the clock change, and [sess_old] long before. *)
Definition sample_log : string :=
  RefJson.dumps (JDict (entry_of clock0 session_start)) ++ nl.

Definition sample_dir : SessionDir :=
  [ ("sess_old", mkFile (timedelta_hours 50) sample_log);
    ("sess_mid", mkFile (timedelta_hours 100 - minutes 10) sample_log);
    ("sess_new", mkFile (timedelta_hours 100 + minutes 10) sample_log) ].

(** A reading of the clocks at local time 125 h 30 min. *)
Definition clock_late : Clock :=
  mkClock "2024-05-06T05:30:00" (timedelta_hours 124 + minutes 30)
    (timedelta_hours 125 + minutes 30).

(** Two readings of the clocks, twenty minutes apart, before and after
    the clocks of [fall_back] go back, and a log written 24 hours and a
    quarter before the first. *)
Definition clock_before_change : Clock :=
  mkClock "2024-05-05T03:45:00" (timedelta_hours 99 + minutes 45)
    (timedelta_hours 101 + minutes 45).

Definition clock_after_change : Clock :=
  mkClock "2024-05-05T04:05:00" (timedelta_hours 100 + minutes 5)
    (timedelta_hours 101 + minutes 5).

Definition sample_dir_change : SessionDir :=
  [ ("sess_x", mkFile (timedelta_hours 75 + minutes 30) sample_log) ].

(** A directory with the log of [sample_history]. *)
Definition sample_dir0 : SessionDir :=
  [ ("sess_a", mkFile 1000 (log_text RefJson.dumps (entries_of sample_history))) ].

(** A [bash_run] tool on a machine where every command prints nothing, and
    an environment to run it in: a new, loaded session and no focus. *)
Definition sample_bash : BaseTool :=
  BashRunTool "2.11" (fun _ cwd =>
    JDict [("exit_code", JInt 0); ("stdout", JStr ""); ("stderr", JStr "");
           ("cwd", json_of_opt_str cwd)]).

Definition sample_env : ToolEnv :=
  mkEnv (set_loaded (Session_init "sess_a")) (Context.mkContext None) [].

(* ================================================================== *)
(** * context.py: the rest of [ProjectContext] *)

Import Context.

(** Python's truth value of a JSON value. *)
Definition truthy (v : json) : bool :=
  match v with
  | JNull => false
  | JBool b => b
  | JInt n => negb (n =? 0)%Z
  | JStr s => negb (s =? "")
  | JList l => match l with [] => false | _ => true end
  | JDict d => match d with [] => false | _ => true end
  end.

(** [ProjectContext(focus_path)]: a falsy argument leaves the focus unset;
    a string is passed to [set_focus]; [Path] rejects any other value. *)
Definition ProjectContext_init (exists_ is_dir : PurePath -> bool)
    (focus_path : json) : outcome ProjectContext :=
  if truthy focus_path then
    match focus_path with
    | JStr path => set_focus exists_ is_dir (mkContext None) path
    | _ => Raise (Exn "TypeError" "expected str, bytes or os.PathLike object")
    end
  else Ok (mkContext None).

(** [ProjectContext.clear_focus] *)
Definition clear_focus (ctx : ProjectContext) : ProjectContext :=
  mkContext None.

(** The calls that change a context.  A [set_focus] that raises leaves
    the object as it was. *)
Inductive ContextCall : Type :=
| call_set_focus (path : string)
| call_clear_focus.

Definition context_call (exists_ is_dir : PurePath -> bool)
    (ctx : ProjectContext) (c : ContextCall) : ProjectContext :=
  match c with
  | call_set_focus path =>
      match set_focus exists_ is_dir ctx path with
      | Ok ctx' => ctx'
      | Raise _ => ctx
      end
  | call_clear_focus => clear_focus ctx
  end.

(** [p.relative_to(f)]: the roots must agree and the components of [f]
    must begin those of [p]; what is left is a relative path. *)
Definition relative_to (p f : PurePath) : outcome PurePath :=
  if (root p =? root f) && list_prefixb (tail f) (tail p)
  then Ok (mkPath "" (skipn (length (tail f)) (tail p)))
  else Raise (Exn "ValueError" (str p ++ " is not in the subpath of " ++ str f)).

(** [ProjectContext.get_relative_path]; the [try] block catches
    [ValueError] only. *)
Definition get_relative_path (ctx : ProjectContext) (path : string)
  : outcome string :=
  match _focus_path ctx with
  | None => Ok path
  | Some f =>
      let p := Path path in
      if negb (is_absolute p) then Ok path
      else match relative_to p f with
           | Ok r => Ok (str r)
           | Raise e => if isinstance_ValueError e then Ok path else Raise e
           end
  end.

(** [_detect_project_type] *)
Definition _detect_project_type (markers : list string) : string :=
  let has m := existsb (String.eqb m) markers in
  if has "package.json" then "node"
  else if has "pyproject.toml" || has "setup.py" || has "requirements.txt"
  then "python"
  else if has "Cargo.toml" then "rust"
  else if has "go.mod" then "go"
  else if has ".git" then "git"
  else "unknown".

(** A parsed path as [Path] builds it: one of the three roots, and
    components that are neither empty nor "." and hold no slash. *)
Definition wf_component (x : string) : bool :=
  is_fieldb x && negb (str_contains "/" x).

Definition wf_path (p : PurePath) : bool :=
  ((root p =? "") || (root p =? "/") || (root p =? "//"))
  && forallb wf_component (tail p).

Definition no_dotdot (p : PurePath) : bool :=
  forallb (fun x => negb (x =? "..")) (tail p).

(* ================================================================== *)
(** * session.py: history and clean-up *)

(** [l[start:]] for a Python list: a negative [start] counts from the
    end, and an index outside the list is clipped. *)
Definition slice_from {A : Type} (start : Z) (l : list A) : list A :=
  if (start <? 0)%Z then skipn (length l - Z.to_nat (- start)) l
  else skipn (Z.to_nat start) l.

(** [Session.get_history] *)
Definition get_history (json_loads : string -> outcome json)
    (d : SessionDir) (s : Session) (limit : Z)
  : outcome (list SessionEntry * Session) :=
  s' <- Session_load json_loads d s ;;
  Ok (slice_from (- limit) (_entries s'), s').

(** [session_file.unlink()] *)
Fixpoint dir_remove (sid : string) (d : SessionDir) : SessionDir :=
  match d with
  | [] => []
  | (k, f) :: d' => if k =? sid then d' else (k, f) :: dir_remove sid d'
  end.

(** The loop of [cleanup_expired] over the globbed files. *)
Fixpoint cleanup_scan (fromtimestamp : Z -> Z) (clk : Clock)
    (session_files : list string) (d : SessionDir) (deleted : nat)
  : nat * SessionDir :=
  match session_files with
  | [] => (deleted, d)
  | sid :: rest =>
      if is_expired fromtimestamp clk d (Session_init sid)
      then cleanup_scan fromtimestamp clk rest (dir_remove sid d) (S deleted)
      else cleanup_scan fromtimestamp clk rest d deleted
  end.

(** [SessionManager.cleanup_expired]: the count and the directory left. *)
Definition cleanup_expired (fromtimestamp : Z -> Z) (clk : Clock)
    (d : SessionDir) : nat * SessionDir :=
  cleanup_scan fromtimestamp clk (glob_sessions d) d 0.

(* ================================================================== *)
(** * config.py: the approval table *)

Definition TOOL_APPROVAL_LEVELS : list (string * ApprovalLevel) :=
  [ ("project_list", AUTO); ("project_info", AUTO); ("file_read", AUTO);
    ("dir_tree", AUTO); ("code_explain", AUTO); ("code_debug", AUTO);
    ("service_status", AUTO); ("service_list", AUTO); ("vps_status", AUTO);
    ("file_write", CONFIRM); ("service_start", CONFIRM);
    ("service_restart", CONFIRM); ("project_focus", AUTO);
    ("bash_run", EXPLICIT); ("service_stop", EXPLICIT) ].

(** [get_approval_level] *)
Fixpoint lookup_level (tool_name : string)
    (table : list (string * ApprovalLevel)) : option ApprovalLevel :=
  match table with
  | [] => None
  | (k, l) :: rest => if k =? tool_name then Some l else lookup_level tool_name rest
  end.

Definition get_approval_level (tool_name : string) : ApprovalLevel :=
  match lookup_level tool_name TOOL_APPROVAL_LEVELS with
  | Some l => l
  | None => EXPLICIT
  end.

(** The name and level in the metadata of each [@register_tool] class, in
    the order in which [tools/__init__.py] imports the modules. *)
Definition REGISTERED_LEVELS : list (string * ApprovalLevel) :=
  [ ("project_focus", AUTO); ("project_list", AUTO); ("project_info", AUTO);
    ("file_read", AUTO); ("file_write", CONFIRM); ("dir_tree", AUTO);
    ("code_explain", AUTO); ("code_debug", AUTO);
    ("service_list", AUTO); ("service_status", AUTO);
    ("service_start", CONFIRM); ("service_stop", EXPLICIT);
    ("service_restart", CONFIRM);
    ("vps_status", AUTO);
    ("bash_run", EXPLICIT) ].

(* ================================================================== *)
(** * tools/base.py: the registry *)

(** [_tool_registry]: a dict from names to tool classes, in insertion
    order. *)
Definition Registry : Type := list (string * BaseTool).

(** [_tool_registry.get(name)] *)
Fixpoint registry_get (n : string) (reg : Registry) : option BaseTool :=
  match reg with
  | [] => None
  | (k, t) :: rest => if k =? n then Some t else registry_get n rest
  end.

(** [BaseTool.validate_metadata] for the class named [cls].  A tool here
    always has a [metadata] of the right type, and an approval level and a
    parameter model are never falsy; the two tests left are those on the
    name and the description. *)
Definition validate_metadata (cls : string) (t : BaseTool) : outcome unit :=
  if name (metadata t) =? "" then
    Raise (Exn "ValueError" ("Tool " ++ cls ++ " missing 'name' in metadata"))
  else if description (metadata t) =? "" then
    Raise (Exn "ValueError"
             ("Tool " ++ cls ++ " missing 'description' in metadata"))
  else Ok tt.

(** [register_tool] *)
Definition register_tool (cls : string) (t : BaseTool) (reg : Registry)
  : outcome Registry :=
  _ <- validate_metadata cls t ;;
  let n := name (metadata t) in
  match registry_get n reg with
  | Some _ => Raise (Exn "ValueError" ("Tool '" ++ n ++ "' is already registered"))
  | None => Ok (reg ++ [(n, t)])%list
  end.

(** The decorators run one after the other as the modules are imported;
    the first one that raises stops the import. *)
Fixpoint register_all (classes : list (string * BaseTool)) (reg : Registry)
  : outcome Registry :=
  match classes with
  | [] => Ok reg
  | (cls, t) :: rest =>
      reg' <- register_tool cls t reg ;; register_all rest reg'
  end.

(** [get_tool] *)
Definition get_tool (reg : Registry) (n : string) : option BaseTool :=
  registry_get n reg.

(** [ToolMetadata.to_dict]; [schema] is [params_model.model_json_schema()]. *)
Definition to_dict (schema : json) (m : ToolMetadata) : dict :=
  [ ("name", JStr (name m));
    ("approval_level", JStr (value (approval_level m)));
    ("description", JStr (description m));
    ("params_schema", schema) ].

(** [list_tools] *)
Definition list_tools (model_json_schema : BaseTool -> json) (reg : Registry)
  : list dict :=
  map (fun kt => to_dict (model_json_schema (snd kt)) (metadata (snd kt))) reg.

(** [create_tool]: the instance is the tool together with the session and
    the context it was given. *)
Definition create_tool (reg : Registry) (n : string) (s : Session)
    (ctx : ProjectContext) (d : SessionDir) : option (BaseTool * ToolEnv) :=
  match get_tool reg n with
  | None => None
  | Some t => Some (t, mkEnv s ctx d)
  end.

(* ================================================================== *)
(** * schemas/requests.py and tools/project.py: the [project_focus] tool *)

(** [ProjectFocusParams.model_validate], for inputs of the declared JSON
    types: [path] a required string that starts with a slash, [dry_run] a
    boolean (default false), no other field.  As for [BashRunParams], all
    errors are reported together and the conversions of other types are
    not modelled. *)
Definition ProjectFocusParams (version : string) (raw : json)
  : outcome BaseToolParams :=
  match raw with
  | JDict d =>
      let '(dry, e1) := dry_run_field d in
      let '(path, e2) :=
        match dict_get "path" d with
        | Some (JStr v) =>
            if startswith v "/" then (v, [])
            else (v, [mkLineError ["path"]
                        "Value error, Path must be absolute (start with /)"
                        "value_error" (JStr v)])
        | Some v =>
            ("", [mkLineError ["path"] "Input should be a valid string"
                    "string_type" v])
        | None => ("", [mkLineError ["path"] "Field required" "missing" raw])
        end in
      match (e1 ++ e2 ++ extra_errors ["dry_run"; "path"] d)%list with
      | [] => Ok (mkParams dry [("path", JStr path)])
      | errors =>
          Raise (ValidationError
                   (validation_report version "ProjectFocusParams" errors))
      end
  | _ =>
      Raise (ValidationError
               (validation_report version "ProjectFocusParams"
                  [not_a_dictionary "ProjectFocusParams" raw]))
  end.

Section Agent.

Variable json_dumps : json -> string.
Variable json_loads : string -> outcome json.

(** The file system as the context sees it. *)
Variable exists_ : PurePath -> bool.
Variable is_dir : PurePath -> bool.

(** The release of the installed pydantic. *)
Variable pydantic_version : string.

(** [ProjectFocusTool]; [get_project_info] stands for the survey of the
    directory, and [clk] for the clock read when the context change is
    logged.  When logging the change raises, the session keeps the focus
    that [log_context_change] had already set. *)
Definition ProjectFocusTool (get_project_info : string -> outcome json)
    (clk : Clock) : BaseTool :=
  mkTool
    (mkMetadata "project_focus" AUTO
       ("Set the current project context. Subsequent relative paths will " ++
        "resolve against this project.")
       (ProjectFocusParams pydantic_version))
    (fun params env =>
       match dict_get "path" (fields params) with
       | Some (JStr path) =>
           match set_focus exists_ is_dir (context env) path with
           | Raise e => (Raise e, env)
           | Ok ctx' =>
               match log_context_change json_dumps json_loads clk
                       (sessions env) (session env) (Some path) with
               | Raise e =>
                   (Raise e,
                    mkEnv (set_project_focus (session env) (JStr path)) ctx'
                      (sessions env))
               | Ok (s', d') =>
                   match get_project_info path with
                   | Raise e => (Raise e, mkEnv s' ctx' d')
                   | Ok info =>
                       (Ok (JDict [("focused", JBool true);
                                   ("path", JStr path);
                                   ("project", info)]),
                        mkEnv s' ctx' d')
                   end
               end
           end
       | _ => (Raise (Exn "AttributeError" "path"), env)
       end).

(* ------------------------------------------------------------------ *)
(** ** agent.py

    [response.to_json()] is not modelled: the functions below return the
    response object that is serialised. *)

(** [create_error_response] *)
Definition create_error_response (clk : Clock) (error_type message : string)
    (tool session_id : string) (details : option dict)
  : Responses.ToolResponse :=
  Responses.mkToolResponse false session_id tool "none" false JNull
    Responses.ContextInfo_default
    (Some (Responses.mkErrorDetail error_type message (Some tool)
             (match details with Some x => x | None => [] end)))
    (utcnow_isoformat clk ++ "Z").

(** [t["name"] for t in tools.list_tools()] *)
Definition tool_names (model_json_schema : BaseTool -> json) (reg : Registry)
  : list json :=
  map (fun t => match dict_get "name" t with Some v => v | None => JNull end)
    (list_tools model_json_schema reg).

(** [execute_tool] *)
Definition execute_tool (model_json_schema : BaseTool -> json)
    (reg : Registry) (clk : Clock) (tool_name : string) (params : json)
    (s : Session) (d : SessionDir) (auto_approve : bool)
  : outcome (Responses.ToolResponse * ToolEnv) :=
  fs <- Session_project_focus json_loads d s ;;
  ctx <- ProjectContext_init exists_ is_dir (fst fs) ;;
  match create_tool reg tool_name (snd fs) ctx d with
  | None =>
      Ok (create_error_response clk "ToolNotFound"
            ("Unknown tool: " ++ tool_name) tool_name (session_id (snd fs))
            (Some [("available_tools",
                    JList (tool_names model_json_schema reg))]),
          mkEnv (snd fs) ctx d)
  | Some (tool_instance, env) =>
      r <- run json_dumps json_loads clk tool_instance params auto_approve env ;;
      let response := fst r in
      let env' := snd r in
      Ok (Responses.mkToolResponse
            (Responses.success response) (Responses.session_id response)
            (Responses.tool response) (Responses.approval_level response)
            (Responses.dry_run response) (Responses.result response)
            (Responses.mkContextInfo
               (focus_path_str (context env'))
               (Some (session_id (session env')))
               (Responses.additional (Responses.context response)))
            (Responses.error response) (Responses.timestamp response),
          env')
  end.

End Agent.

(** Sample data: a file system with the one directory [/srv/app], a
    [project_focus] tool on it, and the registry of the two sample
    tools. *)
Definition sample_fs (p : PurePath) : bool := str p =? "/srv/app".

Definition sample_project_focus : BaseTool :=
  ProjectFocusTool RefJson.dumps RefJson.loads sample_fs sample_fs "2.11"
    (fun path => Ok (JDict [("path", JStr path); ("exists", JBool true)]))
    clock1.

Definition sample_classes : list (string * BaseTool) :=
  [ ("ProjectFocusTool", sample_project_focus); ("BashRunTool", sample_bash) ].

Definition sample_registry : Registry :=
  [ ("project_focus", sample_project_focus); ("bash_run", sample_bash) ].

(* ================================================================== *)
(** * session.py: sequences of logging calls *)

(** The two methods through which the engine writes to a session once it
    is open. *)
Inductive SessionCall : Type :=
| call_log_tool_call (tool : string) (params result error : json)
| call_log_context_change (project_focus : option string).

Section Calls.

Variable json_dumps : json -> string.
Variable json_loads : string -> outcome json.

Definition session_call (clk : Clock) (d : SessionDir) (s : Session)
    (c : SessionCall) : outcome (Session * SessionDir) :=
  match c with
  | call_log_tool_call tool params result error =>
      log_tool_call json_dumps json_loads clk d s tool params result error
  | call_log_context_change f =>
      log_context_change json_dumps json_loads clk d s f
  end.

(** The calls made one after the other, each at its own time. *)
Fixpoint session_calls (d : SessionDir) (s : Session)
    (cs : list (Clock * SessionCall)) : outcome (Session * SessionDir) :=
  match cs with
  | [] => Ok (s, d)
  | (clk, c) :: cs' =>
      r <- session_call clk d s c ;;
      session_calls (snd r) (fst r) cs'
  end.

End Calls.

(** The record a call writes when the focus in memory is [focus], and the
    focus in memory after it. *)
Definition record_of_call (focus : json) (c : SessionCall) : LogRecord :=
  match c with
  | call_log_tool_call tool params result error =>
      tool_call tool params result error focus
  | call_log_context_change f => context_change f
  end.

Definition focus_after_call (focus : json) (c : SessionCall) : json :=
  match c with
  | call_log_tool_call _ _ _ _ => focus
  | call_log_context_change f => json_of_opt_str f
  end.

Fixpoint records_of_calls (focus : json) (cs : list (Clock * SessionCall))
  : list (Clock * LogRecord) :=
  match cs with
  | [] => []
  | (clk, c) :: cs' =>
      (clk, record_of_call focus c)
      :: records_of_calls (focus_after_call focus c) cs'
  end.

(** What a call returns, without the session directory it leaves. *)
Definition returned {A B : Type} (r : outcome (A * B)) : outcome A :=
  x <- r ;; Ok (fst x).

Definition sample_calls : list (Clock * SessionCall) :=
  [ (clock1, call_log_tool_call "file_read" (JDict [("path", JStr "a.py")])
               (JDict [("lines", JInt 3)]) JNull);
    (clock2, call_log_context_change (Some "/srv/app"));
    (clock2, call_log_tool_call "bash_run" (JDict []) JNull
               (JStr "ApprovalRequired")) ].

(* ================================================================== *)
(** * tools/files.py: [FileReadTool] *)

Definition MAX_FILE_SIZE_BYTES : Z := 10 * 1024 * 1024.

(** [FileReadParams], after validation. *)
Record FileReadParams : Type := mkFileReadParams {
  fr_path : string;
  start_line : option Z;
  end_line : option Z;
  encoding : string
}.

(** The bounds [Field(ge=1)] puts on the two line numbers. *)
Definition ge_1 (x : option Z) : bool :=
  match x with Some n => (1 <=? n)%Z | None => true end.

(** Truth value of an [Optional[int]], and [x or dflt]. *)
Definition truthy_int (x : option Z) : bool :=
  match x with Some n => negb (n =? 0)%Z | None => false end.

Definition int_or (x : option Z) (dflt : Z) : Z :=
  if truthy_int x then match x with Some n => n | None => dflt end else dflt.

(** [l[start:stop]] for a Python list: negative indices count from the
    end, and both are clipped to the list. *)
Definition slice_index (len i : Z) : Z :=
  if (i <? 0)%Z then Z.max (i + len) 0 else Z.min i len.

Definition slice {A : Type} (start stop : Z) (l : list A) : list A :=
  let n := Z.of_nat (length l) in
  skipn (Z.to_nat (slice_index n start))
    (firstn (Z.to_nat (slice_index n stop)) l).

Section FileRead.

(** The file system: [exists], [is_file], [stat().st_size], [read_text],
    and [str.splitlines(keepends=True)]. *)
Variable exists_ : PurePath -> bool.
Variable is_file : PurePath -> bool.
Variable st_size : PurePath -> Z.
Variable read_text : PurePath -> string -> outcome string.
Variable splitlines : string -> list string.

(** [FileReadTool.execute] *)
Definition FileReadTool_execute (fs : FileSystem) (cwd : list string)
    (ctx : ProjectContext) (params : FileReadParams) : outcome dict :=
  file_path <- resolve_path fs cwd ctx (fr_path params) ;;
  if negb (exists_ file_path) then
    Raise (Exn "FileNotFoundError" ("File not found: " ++ str file_path))
  else if negb (is_file file_path) then
    Raise (Exn "ValueError" ("Not a file: " ++ str file_path))
  else
    let size := st_size file_path in
    if (size >? MAX_FILE_SIZE_BYTES)%Z then
      Raise (Exn "ValueError"
               ("File too large (" ++ RefJson.string_of_Z size ++
                " bytes). Maximum is " ++ RefJson.string_of_Z MAX_FILE_SIZE_BYTES ++
                " bytes."))
    else
      content <- read_text file_path (encoding params) ;;
      let lines := splitlines content in
      let total_lines := Z.of_nat (length lines) in
      let '(lines, content, truncated) :=
        if truthy_int (start_line params) || truthy_int (end_line params)
        then
          let start := (int_or (start_line params) 1 - 1)%Z in
          let end_ := int_or (end_line params) total_lines in
          let lines := slice start end_ lines in
          (lines, String.concat "" lines, true)
        else (lines, content, false) in
      Ok [ ("path", JStr (str file_path));
           ("content", JStr content);
           ("lines", JInt (Z.of_nat (length lines)));
           ("total_lines", JInt total_lines);
           ("size_bytes", JInt size);
           ("encoding", JStr (encoding params));
           ("truncated", JBool truncated) ].

End FileRead.

(** Sample data: a machine with the one file [/etc/hosts], of three
    lines. *)
Definition sample_file (p : PurePath) : bool := str p =? "/etc/hosts".

Definition sample_text : string :=
  "127.0.0.1 localhost" ++ nl ++ "10.0.0.2 db" ++ nl ++ "10.0.0.3 web" ++ nl.

Definition sample_lines : list string :=
  [ "127.0.0.1 localhost" ++ nl; "10.0.0.2 db" ++ nl; "10.0.0.3 web" ++ nl ].

(* ================================================================== *)
(** * context.py: [discover_projects] *)

Definition project_markers : list string :=
  [ ".git"; "package.json"; "pyproject.toml"; "setup.py";
    "requirements.txt"; "Cargo.toml"; "go.mod"; "Makefile" ].

(** An entry of [p.iterdir()]: the directory's path with one more
    component. *)
Definition child (p : PurePath) (name : string) : PurePath :=
  mkPath (root p) (tail p ++ [name]).

(** [xs.sort(key=key)]: a stable sort, smallest key first, comparing keys
    with [<] only. *)
Fixpoint insert_asc {A K : Type} (ltb : K -> K -> bool) (key : A -> K)
    (x : A) (l : list A) : list A :=
  match l with
  | [] => [x]
  | y :: l' =>
      if ltb (key y) (key x) then y :: insert_asc ltb key x l'
      else x :: y :: l'
  end.

Fixpoint sort_asc {A K : Type} (ltb : K -> K -> bool) (key : A -> K)
    (l : list A) : list A :=
  match l with
  | [] => []
  | x :: l' => insert_asc ltb key x (sort_asc ltb key l')
  end.

Section Discover.

(** [DEFAULT_PROJECTS_DIR], the file system ([exists], [is_dir] and the
    names [iterdir] yields, in its order), [str.lower] and [<] on
    strings. *)
Variable DEFAULT_PROJECTS_DIR : PurePath.
Variable exists_ : PurePath -> bool.
Variable is_dir : PurePath -> bool.
Variable iterdir : PurePath -> outcome (list string).
Variable lower : string -> string.
Variable str_ltb : string -> string -> bool.

(** The markers found in one entry, in the order of [project_markers]. *)
Definition markers_found (entry : PurePath) : list string :=
  filter (fun marker => exists_ (truediv entry (Path marker))) project_markers.

(** The body of the loop of [discover_projects] for one entry. *)
Definition discover_entry (base : PurePath) (name : string) : option dict :=
  let entry := child base name in
  if negb (is_dir entry) then None
  else if startswith name "." then None
  else
    match markers_found entry with
    | [] => None
    | markers =>
        Some [ ("path", JStr (str entry));
               ("name", JStr name);
               ("type", JStr (_detect_project_type markers));
               ("markers", JList (map JStr markers)) ]
    end.

Fixpoint discover_scan (base : PurePath) (names : list string) : list dict :=
  match names with
  | [] => []
  | name :: rest =>
      match discover_entry base name with
      | Some p => p :: discover_scan base rest
      | None => discover_scan base rest
      end
  end.

(** The sort key [p["name"].lower()]. *)
Definition name_key (p : dict) : string :=
  match dict_get "name" p with Some (JStr n) => lower n | _ => "" end.

(** [discover_projects]; an empty [base_path] is falsy. *)
Definition discover_projects (base_path : option string)
  : outcome (list dict) :=
  let base := match base_path with
              | Some s => if s =? "" then DEFAULT_PROJECTS_DIR else Path s
              | None => DEFAULT_PROJECTS_DIR
              end in
  if negb (exists_ base) then Ok []
  else
    names <- iterdir base ;;
    Ok (sort_asc str_ltb name_key (discover_scan base names)).

End Discover.

(** Sample data: [/srv] holds a Python project with a Makefile, a
    directory with nothing but a Makefile, a hidden directory and a
    file. *)
Definition sample_tree (p : PurePath) : bool :=
  existsb (String.eqb (str p))
    [ "/srv"; "/srv/web"; "/srv/web/setup.py"; "/srv/web/Makefile";
      "/srv/Build"; "/srv/Build/Makefile"; "/srv/.cache"; "/srv/.cache/.git";
      "/srv/notes.txt" ].

Definition sample_tree_dir (p : PurePath) : bool :=
  existsb (String.eqb (str p)) [ "/srv"; "/srv/web"; "/srv/Build"; "/srv/.cache" ].

Definition sample_iterdir (p : PurePath) : outcome (list string) :=
  if str p =? "/srv" then Ok [ "web"; ".cache"; "notes.txt"; "Build" ]
  else Raise (Exn "NotADirectoryError" (str p)).

Definition sample_lower_char (c : ascii) : ascii :=
  let n := nat_of_ascii c in
  if (65 <=? n)%nat && (n <=? 90)%nat then ascii_of_nat (n + 32) else c.

Fixpoint sample_lower (s : string) : string :=
  match s with
  | EmptyString => EmptyString
  | String c s' => String (sample_lower_char c) (sample_lower s')
  end.

Definition sample_ltb (a b : string) : bool :=
  match String.compare a b with Lt => true | _ => false end.
(* ================================================================== *)
(** * Facts about paths *)

Import Context.

Lemma str_app_assoc : forall a b c : string, (a ++ b) ++ c = a ++ (b ++ c).
Proof.
  induction a as [|x a IH]; intros b c; simpl; [reflexivity|].
  rewrite IH. reflexivity.
Qed.

Lemma str_app_nil_r : forall a : string, a ++ "" = a.
Proof.
  induction a as [|x a IH]; simpl; [reflexivity|]. rewrite IH. reflexivity.
Qed.

Lemma eqb_false_neq (a b : string) : (a =? b) = false -> a <> b.
Proof. intros H E. apply String.eqb_neq in H. contradiction. Qed.

Lemma split_slash_posix :
  forall s, posix_string s = true ->
            Forall (fun x => posix_string x = true) (split_slash s).
Proof.
  unfold posix_string.
  induction s as [|c s IH]; simpl; intros H.
  - repeat constructor.
  - apply negb_true_iff, orb_false_iff in H. destruct H as [Hc Hs].
    assert (IH' := IH (proj2 (negb_true_iff _) Hs)).
    destruct (Ascii.eqb c "/").
    + constructor; [reflexivity | exact IH'].
    + destruct (split_slash s) as [|x xs].
      * constructor; [simpl; rewrite Hc; reflexivity | constructor].
      * inversion IH' as [|? ? Hx Hxs]; subst.
        constructor; [|exact Hxs].
        simpl. rewrite Hc. simpl. exact Hx.
Qed.

Lemma posix_string_tail :
  forall c s, posix_string (String c s) = true -> posix_string s = true.
Proof.
  unfold posix_string. simpl. intros c s H.
  apply negb_true_iff, orb_false_iff in H. destruct H as [_ H].
  rewrite H. reflexivity.
Qed.

Lemma splitroot_posix :
  forall s, posix_string s = true -> posix_string (snd (splitroot s)) = true.
Proof.
  intros s H. unfold splitroot.
  destruct s as [|c s]; [exact H|].
  destruct c as [[] [] [] [] [] [] [] []]; try exact H.
  destruct s as [|c' s]; [reflexivity|].
  destruct c' as [[] [] [] [] [] [] [] []]; try exact H.
  destruct s as [|c'' s]; [reflexivity|].
  destruct c'' as [[] [] [] [] [] [] [] []]; exact H.
Qed.

Lemma Path_posix :
  forall s, posix_string s = true -> posix_path (Path s) = true.
Proof.
  intros s H. unfold posix_path, Path.
  pose proof (splitroot_posix s H) as Hr.
  destruct (splitroot s) as [r rel]. simpl in *.
  apply forallb_forall. intros x Hx.
  apply filter_In in Hx. destruct Hx as [Hx _].
  pose proof (split_slash_posix rel Hr) as HF.
  rewrite Forall_forall in HF. apply HF. exact Hx.
Qed.

Lemma collapses_one : forall l1 l2, collapse_step l1 l2 -> collapses l1 l2.
Proof. intros l1 l2 H. eapply collapses_step; [exact H | constructor]. Qed.




(** ** The walk of [realpath] *)



Lemma normpath_fold :
  forall rest acc, normpath acc rest = rev (fold_left keep_component rest acc).
Proof.
  induction rest as [|name rest IH]; intros acc; [reflexivity|].
  cbn [normpath fold_left]. unfold keep_component at 2.
  destruct ((name =? "") || (name =? ".")); [apply IH|].
  destruct (name =? ".."); apply IH.
Qed.

(** [normpath] computes a normalised form of the path built so far
    followed by the remaining fields. *)
Lemma normpath_normalized :
  forall rest acc,
    Forall plain_component acc ->
    normalized_from (rev acc ++ rest) (normpath acc rest).
Proof.
  induction rest as [|name rest IH]; intros acc Hacc.
  - simpl. rewrite app_nil_r. split; [constructor|].
    apply Forall_rev. exact Hacc.
  - cbn [normpath].
    destruct (name =? "") eqn:E1; [|destruct (name =? ".") eqn:E2]; cbn [orb].
    + apply String.eqb_eq in E1. subst name.
      destruct (IH acc Hacc) as (Hc & Hp). split; [|exact Hp].
      eapply collapses_step; [|exact Hc].
      apply collapse_dot. left. reflexivity.
    + apply String.eqb_eq in E2. subst name.
      destruct (IH acc Hacc) as (Hc & Hp). split; [|exact Hp].
      eapply collapses_step; [|exact Hc].
      apply collapse_dot. right. reflexivity.
    + destruct (name =? "..") eqn:E3.
      * apply String.eqb_eq in E3. subst name.
        destruct acc as [|x acc']; cbn [List.tl].
        -- destruct (IH [] Hacc) as (Hc & Hp). split; [|exact Hp].
           eapply collapses_step; [|exact Hc]. apply collapse_root.
        -- inversion Hacc as [|? ? Hx Hacc']; subst.
           destruct (IH acc' Hacc') as (Hc & Hp). split; [|exact Hp].
           eapply collapses_step; [|exact Hc].
           cbn [rev]. rewrite <- app_assoc. cbn [app].
           apply collapse_dotdot. exact Hx.
      * assert (Hplain : plain_component name).
        { repeat split; apply eqb_false_neq; assumption. }
        destruct (IH (name :: acc) (Forall_cons _ Hplain Hacc)) as (Hc & Hp).
        split; [|exact Hp].
        cbn [rev] in Hc. rewrite <- app_assoc in Hc. exact Hc.
Qed.

Lemma normpath_plain :
  forall l acc,
    Forall plain_component l -> normpath acc l = (rev acc ++ l)%list.
Proof.
  induction l as [|x l IH]; intros acc H.
  - simpl. rewrite app_nil_r. reflexivity.
  - inversion H as [|? ? (H1 & H2 & H3) Hl]; subst.
    apply String.eqb_neq in H1, H2, H3.
    cbn [normpath]. rewrite H1, H2, H3. cbn [orb].
    rewrite (IH (x :: acc) Hl). cbn [rev]. rewrite <- app_assoc. reflexivity.
Qed.

Lemma normpath_posix :
  forall rest acc,
    forallb posix_string acc = true ->
    forallb posix_string rest = true ->
    forallb posix_string (normpath acc rest) = true.
Proof.
  induction rest as [|name rest IH]; intros acc Hacc Hrest.
  - simpl. apply forallb_forall. intros x Hx. apply in_rev in Hx.
    rewrite forallb_forall in Hacc. apply Hacc. exact Hx.
  - cbn [forallb] in Hrest. apply andb_true_iff in Hrest.
    destruct Hrest as [Hn Hrest]. cbn [normpath].
    destruct ((name =? "") || (name =? ".")); [exact (IH _ Hacc Hrest)|].
    destruct (name =? "..").
    + refine (IH _ _ Hrest). destruct acc as [|a acc]; [reflexivity|].
      cbn [forallb] in Hacc. apply andb_true_iff in Hacc. apply Hacc.
    + refine (IH _ _ Hrest). cbn [forallb]. rewrite Hn, Hacc. reflexivity.
Qed.

Lemma posix_no_nul :
  forall l, forallb posix_string l = true ->
            existsb (str_contains NUL) l = false.
Proof.
  induction l as [|x l IH]; intros H; [reflexivity|].
  cbn [forallb] in H. apply andb_true_iff in H. destruct H as [Hx Hl].
  unfold posix_string in Hx. apply negb_true_iff in Hx.
  cbn [existsb]. rewrite Hx, (IH Hl). reflexivity.
Qed.

Section WalkFacts.

Variable fs : FileSystem.

(** As long as no link is met, the walk is the one of [normpath]. *)
Lemma realpath_walk_link_free :
  forall rest acc seen,
    link_free fs acc rest = true ->
    forallb posix_string rest = true ->
    realpath_walk fs seen acc (map Name rest)
    = Finished (fold_left keep_component rest acc).
Proof.
  unfold link_free.
  induction rest as [|name rest IH]; intros acc seen Hfree Hposix;
    [reflexivity|].
  cbn [forallb] in Hposix. apply andb_true_iff in Hposix.
  destruct Hposix as [Hn Hposix].
  cbn [map realpath_walk fold_left]. cbn [visited] in Hfree.
  unfold keep_component at 2.
  destruct ((name =? "") || (name =? ".")); [exact (IH _ _ Hfree Hposix)|].
  destruct (name =? ".."); [exact (IH _ _ Hfree Hposix)|].
  unfold posix_string in Hn. apply negb_true_iff in Hn. rewrite Hn.
  cbn [forallb] in Hfree. apply andb_true_iff in Hfree.
  destruct Hfree as [Hu Hfree]. unfold unlinked in Hu.
  destruct (readlink fs (rev (name :: acc))); [discriminate|].
  exact (IH _ _ Hfree Hposix).
Qed.

Lemma joinrealpath_link_free :
  forall budget rest acc seen,
    link_free fs acc rest = true ->
    forallb posix_string rest = true ->
    joinrealpath budget fs seen acc (map Name rest)
    = Ok (mkPath "/" (normpath acc rest), true).
Proof.
  intros budget rest acc seen Hfree Hposix.
  destruct budget; cbn [joinrealpath];
    rewrite (realpath_walk_link_free rest acc seen Hfree Hposix);
    rewrite normpath_fold; reflexivity.
Qed.

Lemma link_free_unlinked :
  forall rest acc,
    link_free fs acc rest = true ->
    all_unlinked fs acc = true ->
    all_unlinked fs (fold_left keep_component rest acc) = true.
Proof.
  unfold link_free.
  induction rest as [|name rest IH]; intros acc Hfree Hacc; [exact Hacc|].
  cbn [fold_left]. cbn [visited] in Hfree. unfold keep_component at 2.
  destruct ((name =? "") || (name =? ".")); [exact (IH _ Hfree Hacc)|].
  destruct (name =? "..").
  - refine (IH _ Hfree _). destruct acc as [|a acc]; [reflexivity|].
    cbn [all_unlinked] in Hacc. apply andb_true_iff in Hacc. apply Hacc.
  - cbn [forallb] in Hfree. apply andb_true_iff in Hfree.
    destruct Hfree as [Hu Hfree].
    refine (IH _ Hfree _). cbn [all_unlinked]. rewrite Hu, Hacc. reflexivity.
Qed.

Lemma all_unlinked_app :
  forall l1 l2, all_unlinked fs (l1 ++ l2) = true -> all_unlinked fs l2 = true.
Proof.
  induction l1 as [|x l1 IH]; intros l2 H; [exact H|].
  cbn [app all_unlinked] in H. apply andb_true_iff in H. apply IH, H.
Qed.

(** The kernel's walk of a path free of links ends without a jump. *)
Lemma namei_step_unlinked :
  forall rest dir,
    Forall plain_component rest ->
    all_dirs fs dir = true ->
    all_unlinked fs (rev rest ++ dir) = true ->
    namei_step fs dir rest = Stop.
Proof.
  induction rest as [|name rest IH]; intros dir Hplain Hdirs Hun;
    [reflexivity|].
  inversion Hplain as [|? ? (H1 & H2 & H3) Hrest]; subst.
  apply String.eqb_neq in H1, H2, H3.
  cbn [namei_step]. rewrite H1, H2, H3. cbn [orb].
  cbn [rev] in Hun. rewrite <- app_assoc in Hun. cbn [app] in Hun.
  pose proof (all_unlinked_app _ _ Hun) as Hhere.
  cbn [all_unlinked] in Hhere. apply andb_true_iff in Hhere.
  destruct Hhere as [Hu _]. unfold unlinked, readlink, lstat in Hu.
  rewrite rev_involutive, Hdirs in Hu.
  destruct (fs_get fs (rev (name :: dir))) as [[| |target]|] eqn:E;
    try reflexivity; [|discriminate].
  apply IH; [exact Hrest | | exact Hun].
  cbn [all_dirs]. rewrite E, Hdirs. reflexivity.
Qed.

Lemma stat_eloop_unlinked :
  forall budget comps,
    Forall plain_component comps ->
    all_unlinked fs (rev comps) = true ->
    stat_eloop budget fs [] comps = false.
Proof.
  intros budget comps Hplain Hun.
  assert (H : namei_step fs [] comps = Stop).
  { apply namei_step_unlinked; [exact Hplain | reflexivity|].
    rewrite app_nil_r. exact Hun. }
  destruct budget; cbn [stat_eloop]; rewrite H; reflexivity.
Qed.

(** [Path.resolve] on an absolute path that meets no symbolic link
    returns the normalised path. *)
Lemma resolve_link_free :
  forall cwd p,
    is_absolute p = true ->
    link_free fs [] (tail p) = true ->
    posix_path p = true ->
    resolve fs cwd p = Ok (mkPath "/" (normpath [] (tail p))).
Proof.
  intros cwd p Habs Hfree Hposix. unfold resolve. rewrite Habs.
  rewrite (joinrealpath_link_free _ _ _ _ Hfree Hposix).
  cbn [bind fst tail root].
  destruct (normpath_normalized (tail p) [] (Forall_nil _)) as [_ Hplain].
  rewrite (normpath_plain _ [] Hplain). cbn [rev app].
  rewrite (posix_no_nul _ (normpath_posix _ [] eq_refl Hposix)).
  rewrite stat_eloop_unlinked; [reflexivity | exact Hplain|].
  rewrite normpath_fold, rev_involutive.
  apply link_free_unlinked; [exact Hfree | reflexivity].
Qed.

(** The exceptions of the walk. *)
Lemma realpath_walk_failed :
  forall items seen acc e,
    realpath_walk fs seen acc items = Failed e ->
    e = Exn "ValueError" "embedded null byte".
Proof.
  induction items as [|[name|key] items IH]; intros seen acc e H;
    cbn [realpath_walk] in H; [discriminate | | eauto].
  destruct ((name =? "") || (name =? ".")); [eauto|].
  destruct (name =? ".."); [eauto|].
  destruct (str_contains NUL name); [inversion H; reflexivity|].
  destruct (readlink fs (rev (name :: acc))); [|eauto].
  destruct (seen_get (rev (name :: acc)) seen) as [[cached|]|];
    [eauto | discriminate | discriminate].
Qed.

Lemma joinrealpath_raises :
  forall budget seen acc items e,
    joinrealpath budget fs seen acc items = Raise e ->
    e = Exn "ValueError" "embedded null byte" \/
    e = Exn "RecursionError" "maximum recursion depth exceeded".
Proof.
  induction budget as [|budget IH]; intros seen acc items e H;
    cbn [joinrealpath] in H;
    destruct (realpath_walk fs seen acc items) eqn:E; try discriminate.
  - inversion H. right. reflexivity.
  - inversion H; subst. left. eapply realpath_walk_failed. exact E.
  - eauto.
  - inversion H; subst. left. eapply realpath_walk_failed. exact E.
Qed.

(** What the walk returns is an absolute path. *)
Lemma joinrealpath_root :
  forall budget seen acc items r,
    joinrealpath budget fs seen acc items = Ok r ->
    root (fst r) = "/" \/ root (fst r) = "//".
Proof.
  induction budget as [|budget IH]; intros seen acc items r H;
    cbn [joinrealpath] in H;
    destruct (realpath_walk fs seen acc items) as [a|raw|a its sn|e'];
    try discriminate.
  - inversion H. left. reflexivity.
  - inversion H. cbn [fst root]. unfold initial_slashes.
    destruct (startswith raw "//" && negb (startswith raw "///"));
      [right | left]; reflexivity.
  - inversion H. left. reflexivity.
  - inversion H. cbn [fst root]. unfold initial_slashes.
    destruct (startswith raw "//" && negb (startswith raw "///"));
      [right | left]; reflexivity.
  - eauto.
Qed.

Lemma joinrealpath_absolute :
  forall budget seen acc items r,
    joinrealpath budget fs seen acc items = Ok r ->
    is_absolute (fst r) = true.
Proof.
  intros budget seen acc items r H. unfold is_absolute.
  destruct (joinrealpath_root _ _ _ _ _ H) as [-> | ->]; reflexivity.
Qed.

End WalkFacts.


(** ** Every link is followed at most once *)






Lemma seen_set_In :
  forall k v seen k0 c,
    In (k0, Some c) (seen_set k v seen) ->
    v = Some c \/ In (k0, Some c) seen.
Proof.
  induction seen as [|[k' v'] seen IH]; intros k0 c H.
  - destruct H as [H | []]. inversion H. left. reflexivity.
  - cbn [seen_set] in H. destruct (path_eqb k' k).
    + destruct H as [H | H];
        [inversion H; left; reflexivity | right; right; exact H].
    + destruct H as [H | H]; [right; left; exact H|].
      destruct (IH _ _ H) as [Hv | Hin]; [left; exact Hv | right; right; exact Hin].
Qed.

Lemma seen_get_In :
  forall k seen v, seen_get k seen = Some v -> exists k', In (k', v) seen.
Proof.
  induction seen as [|[k' v'] seen IH]; intros v H; [discriminate|].
  cbn [seen_get] in H. destruct (path_eqb k' k).
  - inversion H; subst. exists k'. left. reflexivity.
  - destruct (IH _ H) as (k0 & Hin). exists k0. right. exact Hin.
Qed.

Section LinkBudget.

Variable fs : FileSystem.




End LinkBudget.

(* ================================================================== *)
(** * context.py: path resolution and focus containment *)


(** C9.  An absolute path resolves to itself, whatever the focus (set or
    not), the working directory and the file system: [resolve_path]
    returns [Path(p)], the path it was given; nothing is joined to it, no
    ".." is collapsed and no link is followed. *)
Theorem resolve_path_absolute_unchanged :
  forall fs cwd ctx p,
    is_absolute (Path p) = true ->
    resolve_path fs cwd ctx p = Ok (Path p).
Proof.
  intros fs cwd ctx p H. unfold resolve_path. rewrite H. reflexivity.
Qed.

Lemma resolve_path_absolute_unchanged_witness :
  is_absolute (Path "/etc/hosts") = true /\
  resolve_path sample_links ["srv"] (mkContext None) "/etc/hosts"
  = Ok (Path "/etc/hosts").
Proof.
  split; [reflexivity|].
  apply (resolve_path_absolute_unchanged sample_links ["srv"] (mkContext None)
           "/etc/hosts").
  reflexivity.
Defined.







(** The scenario of the specification: with focus [/tmp/proj], the
    relative path [a/b.txt] resolves under the focus and the absolute path
    [/etc/hosts] to itself. *)
Example resolve_scenario :
  let ctx := mkContext (Some (Path "/tmp/proj")) in
  option_map str (match resolve_path [] ["srv"] ctx "a/b.txt" with
                  | Ok p => Some p
                  | Raise _ => None
                  end) = Some "/tmp/proj/a/b.txt" /\
  resolve_path [] ["srv"] ctx "/etc/hosts" = Ok (Path "/etc/hosts") /\
  str (Path "/etc/hosts") = "/etc/hosts".
Proof. repeat split. Qed.

(** A resolution error that is converted: a relative path with a NUL byte
    under a set focus. *)
Example is_within_focus_nul :
  let ctx := mkContext (Some (Path "/tmp/proj")) in
  let path := String "a" (String NUL "b") in
  resolve_path [] [] ctx path = Raise (Exn "ValueError" "embedded null byte") /\
  is_within_focus [] [] ctx path = Ok false.
Proof. split; reflexivity. Qed.

(** [Path(s)] is absolute exactly when [s] starts with a slash. *)
Lemma Path_is_absolute :
  forall s, is_absolute (Path s) = startswith s "/".
Proof.
  intros s. unfold is_absolute, Path, startswith.
  destruct s as [|c s]; [reflexivity|].
  destruct c as [[] [] [] [] [] [] [] []]; try reflexivity.
  destruct s as [|c' s]; [reflexivity|].
  destruct c' as [[] [] [] [] [] [] [] []]; try reflexivity.
  destruct s as [|c'' s]; [reflexivity|].
  destruct c'' as [[] [] [] [] [] [] [] []]; reflexivity.
Qed.

Lemma prefix_app :
  forall a b c, String.prefix (a ++ b) (a ++ c) = String.prefix b c.
Proof.
  induction a as [|x a IH]; intros b c; simpl; [reflexivity|].
  destruct (ascii_dec x x); [apply IH | contradiction].
Qed.

Lemma prefix_nil : forall b, String.prefix "" b = true.
Proof. destruct b; reflexivity. Qed.

Lemma prefix_app_r : forall a b, String.prefix a (a ++ b) = true.
Proof.
  induction a as [|x a IH]; intros b; simpl; [apply prefix_nil|].
  destruct (ascii_dec x x); [apply IH | contradiction].
Qed.

Lemma join_prefix :
  forall xs ys,
    list_prefixb xs ys = true ->
    String.prefix (join "/" xs) (join "/" ys) = true.
Proof.
  induction xs as [|x xs IH]; intros ys H; [apply prefix_nil|].
  destruct ys as [|y ys]; [discriminate|].
  simpl in H. apply andb_true_iff in H. destruct H as [Hxy H].
  apply String.eqb_eq in Hxy. subst y.
  destruct xs as [|x' xs].
  - destruct ys as [|y' ys]; simpl.
    + rewrite <- (str_app_nil_r x) at 2. apply prefix_app_r.
    + apply prefix_app_r.
  - destruct ys as [|y' ys]; [discriminate|].
    change (String.prefix (x ++ "/" ++ join "/" (x' :: xs))
              (x ++ "/" ++ join "/" (y' :: ys)) = true).
    rewrite !prefix_app. apply IH. exact H.
Qed.

(** A path whose components extend those of the focus also extends it as
    a string: the string test never misses a path that is under the
    focus. *)
Lemma is_relative_to_startswith :
  forall p f,
    is_absolute f = true ->
    is_absolute p = true ->
    is_relative_to p f = true ->
    startswith (str p) (str f) = true.
Proof.
  intros [rp tp] [rf tf] Hf Hp H.
  unfold is_absolute, is_relative_to, parts, startswith, str in *.
  simpl in *.
  apply negb_true_iff in Hf, Hp. rewrite Hf, Hp in H.
  simpl in H. apply andb_true_iff in H. destruct H as [Hr Ht].
  apply String.eqb_eq in Hr. subst rp.
  assert (Hne : forall t, (rf ++ t =? "") = false).
  { intros t. destruct rf; [discriminate | reflexivity]. }
  rewrite !Hne, prefix_app. apply join_prefix. exact Ht.
Qed.

(** Whenever the resolved path is under an absolute focus component by
    component, [is_within_focus] answers [True]. *)
Lemma is_within_focus_under :
  forall fs cwd f path r,
    is_absolute f = true ->
    resolve_path fs cwd (mkContext (Some f)) path = Ok r ->
    is_relative_to r f = true ->
    is_within_focus fs cwd (mkContext (Some f)) path = Ok true.
Proof.
  intros fs cwd f path r Hf Hr Hunder.
  unfold is_within_focus. simpl. rewrite Hr.
  rewrite (is_relative_to_startswith r f Hf); [reflexivity | | exact Hunder].
  unfold resolve_path in Hr. simpl in Hr.
  destruct (is_absolute (Path path)) eqn:E.
  - inversion Hr; subst. exact E.
  - unfold resolve, bind in Hr.
    destruct (joinrealpath _ _ _ _ _) as [jr|] eqn:Ej; [|discriminate].
    destruct (existsb _ _); [discriminate|].
    destruct (stat_eloop _ _ _ _); inversion Hr.
    exact (joinrealpath_absolute _ _ _ _ _ _ Ej).
Qed.

(** C1 (defect).  With focus [/root/proj], the absolute path
    [/root/proj2/x] of a sibling directory is reported within focus,
    although its components do not extend those of the focus, whatever
    the file system; the same holds for the relative path [../proj2/x]
    where none of [/root], [/root/proj], [/root/proj2] and
    [/root/proj2/x] is a symbolic link.  The comparison is made on the
    strings, not on the components. *)
Theorem is_within_focus_sibling_prefix :
  forall fs cwd,
    let ctx := mkContext (Some (Path "/root/proj")) in
    (is_within_focus fs cwd ctx "/root/proj2/x" = Ok true /\
     resolve_path fs cwd ctx "/root/proj2/x" = Ok (Path "/root/proj2/x") /\
     is_relative_to (Path "/root/proj2/x") (Path "/root/proj") = false) /\
    (link_free fs [] ["root"; "proj"; ".."; "proj2"; "x"] = true ->
     is_within_focus fs cwd ctx "../proj2/x" = Ok true /\
     resolve_path fs cwd ctx "../proj2/x" = Ok (Path "/root/proj2/x")).
Proof.
  intros fs cwd ctx. split; [repeat split|].
  intros Hfree.
  assert (Hr : resolve_path fs cwd ctx "../proj2/x"
               = Ok (Path "/root/proj2/x")).
  { unfold resolve_path, ctx. cbn [_focus_path].
    change (is_absolute (Path "../proj2/x")) with false. cbv iota.
    change (truediv (Path "/root/proj") (Path "../proj2/x"))
      with (mkPath "/" ["root"; "proj"; ".."; "proj2"; "x"]).
    rewrite resolve_link_free; [reflexivity | reflexivity | exact Hfree|].
    reflexivity. }
  split; [|exact Hr].
  unfold is_within_focus, ctx. cbn [_focus_path]. fold ctx. rewrite Hr.
  reflexivity.
Qed.

Lemma is_within_focus_sibling_prefix_witness :
  is_within_focus sample_links [] (mkContext (Some (Path "/root/proj")))
    "../proj2/x" = Ok true /\
  resolve_path sample_links [] (mkContext (Some (Path "/root/proj")))
    "../proj2/x" = Ok (Path "/root/proj2/x").
Proof.
  apply (is_within_focus_sibling_prefix sample_links []). reflexivity.
Defined.

(* ================================================================== *)
(** * Facts about lines of text *)

Lemma readlines_line :
  forall l rest,
    str_contains LF l = false ->
    str_contains CR l = false ->
    readlines (l ++ nl ++ rest) = (l ++ nl) :: readlines rest.
Proof.
  induction l as [|c l IH]; intros rest HLF HCR.
  - reflexivity.
  - simpl in HLF, HCR.
    apply orb_false_iff in HLF. destruct HLF as [Hc1 HLF].
    apply orb_false_iff in HCR. destruct HCR as [Hc2 HCR].
    change (readlines (String c (l ++ nl ++ rest))
            = String c (l ++ nl) :: readlines rest).
    simpl. rewrite Hc1, Hc2.
    change (String LF rest) with (nl ++ rest).
    rewrite (IH rest HLF HCR). reflexivity.
Qed.

Lemma rstrip_app_nl : forall l, rstrip (l ++ nl) = rstrip l.
Proof.
  induction l as [|c l IH]; [reflexivity|].
  simpl. rewrite IH. reflexivity.
Qed.

Lemma rstrip_ends_nonspace :
  forall l, ends_nonspace l = true -> rstrip l = l.
Proof.
  induction l as [|c l IH]; intros H; [reflexivity|].
  destruct l as [|c' l'].
  - simpl in *. apply negb_true_iff in H. rewrite H. reflexivity.
  - change (ends_nonspace (String c (String c' l')))
      with (ends_nonspace (String c' l')) in H.
    specialize (IH H).
    change (rstrip (String c (String c' l')))
      with (match rstrip (String c' l') with
            | EmptyString => if is_space c then "" else String c ""
            | r => String c r
            end).
    rewrite IH. reflexivity.
Qed.

(** A record line followed by its terminator is read back as the line. *)
Lemma strip_record_line :
  forall l, record_line l = true -> strip (l ++ nl) = l /\ l <> "".
Proof.
  intros l H. unfold record_line in H.
  apply andb_true_iff in H. destruct H as [H Hend].
  apply andb_true_iff in H. destruct H as [_ Hfirst].
  destruct l as [|c l]; [discriminate|].
  split; [|discriminate].
  unfold strip. simpl lstrip.
  apply negb_true_iff in Hfirst. rewrite Hfirst.
  change (String c (l ++ nl)) with (String c l ++ nl).
  rewrite rstrip_app_nl. apply rstrip_ends_nonspace. exact Hend.
Qed.

Lemma record_line_no_break :
  forall l, record_line l = true ->
            str_contains LF l = false /\ str_contains CR l = false.
Proof.
  intros l H. unfold record_line in H.
  apply andb_true_iff in H. destruct H as [H _].
  apply andb_true_iff in H. destruct H as [H _].
  apply andb_true_iff in H. destruct H as [H1 H2].
  split; apply negb_true_iff; assumption.
Qed.

(* ================================================================== *)
(** * Facts about the session directory *)

Lemma dir_lookup_append_same :
  forall t sid text d,
    dir_lookup sid (dir_append t sid text d)
    = Some (mkFile t (dir_content sid d ++ text)).
Proof.
  intros t sid text d. unfold dir_content.
  induction d as [|[k f] d IH]; simpl.
  - rewrite String.eqb_refl. reflexivity.
  - destruct (k =? sid) eqn:E; simpl; rewrite E; [reflexivity | exact IH].
Qed.

Lemma dir_lookup_append_other :
  forall t sid text d sid',
    sid' <> sid ->
    dir_lookup sid' (dir_append t sid text d) = dir_lookup sid' d.
Proof.
  intros t sid text d sid' Hne.
  induction d as [|[k f] d IH]; simpl.
  - destruct (sid =? sid') eqn:E; [|reflexivity].
    apply String.eqb_eq in E. congruence.
  - destruct (k =? sid) eqn:E; simpl.
    + apply String.eqb_eq in E. subst k.
      destruct (sid =? sid') eqn:E'; [|reflexivity].
      apply String.eqb_eq in E'. congruence.
    + destruct (k =? sid'); [reflexivity | exact IH].
Qed.

Lemma dir_content_append_same :
  forall t sid text d,
    dir_content sid (dir_append t sid text d) = dir_content sid d ++ text.
Proof.
  intros. unfold dir_content at 1. rewrite dir_lookup_append_same. reflexivity.
Qed.

(* ================================================================== *)
(** * session.py: the append-only log and its replay *)

Lemma last_context_change_app :
  forall rs1 rs2 acc,
    last_context_change acc (rs1 ++ rs2)
    = last_context_change (last_context_change acc rs1) rs2.
Proof.
  induction rs1 as [|[clk r] rs1 IH]; intros rs2 acc; [reflexivity|].
  destruct r; simpl; apply IH.
Qed.

(** Only the [context_change] records count. *)
Lemma last_context_change_filter :
  forall rs acc,
    last_context_change acc rs
    = last_context_change acc
        (filter (fun cr => is_context_change (snd cr)) rs).
Proof.
  induction rs as [|[clk r] rs IH]; intros acc; [reflexivity|].
  destruct r; simpl; apply IH.
Qed.

(** The last [context_change] record decides. *)
Lemma last_context_change_last :
  forall pre clk f post acc,
    Forall (fun cr => is_context_change (snd cr) = false) post ->
    last_context_change acc (pre ++ (clk, context_change f) :: post)
    = json_of_opt_str f.
Proof.
  intros pre clk f post acc Hpost.
  rewrite last_context_change_app. simpl.
  generalize (json_of_opt_str f) as a.
  induction Hpost as [|[c r] post Hr _ IH]; intros a; [reflexivity|].
  destruct r; simpl in *; try discriminate; apply IH.
Qed.

Lemma last_context_change_none :
  forall rs acc,
    Forall (fun cr => is_context_change (snd cr) = false) rs ->
    last_context_change acc rs = acc.
Proof.
  intros rs acc H.
  induction H as [|[c r] rs Hr _ IH]; [reflexivity|].
  destruct r; simpl in *; try discriminate; exact IH.
Qed.

Lemma replay_records_state :
  forall rs s,
    let s' := fold_left replay_record rs s in
    session_id s' = session_id s /\
    _loaded s' = _loaded s /\
    _entries s' = (_entries s ++ map (fun cr => snd (stamped cr)) rs)%list /\
    _project_focus s' = last_context_change (_project_focus s) rs.
Proof.
  induction rs as [|[clk r] rs IH]; intros s; simpl.
  - rewrite app_nil_r. repeat split.
  - destruct (IH (replay_record s (clk, r))) as (H1 & H2 & H3 & H4).
    rewrite H1, H2, H3, H4.
    destruct r; simpl; rewrite <- app_assoc; repeat split.
Qed.

Section StoreFacts.

Variable json_dumps : json -> string.
Variable json_loads : string -> outcome json.

(** Reading back the line of a record replays the record. *)
Lemma load_line_record :
  forall s cr,
    serialisable json_dumps json_loads (snd (stamped cr)) ->
    load_line json_loads s (json_dumps (JDict (snd (stamped cr))) ++ nl)
    = Ok (replay_record s cr).
Proof.
  intros s cr [Hline Hrt]. unfold load_line.
  destruct (strip_record_line _ Hline) as [Hstrip Hne].
  rewrite Hstrip.
  apply String.eqb_neq in Hne. rewrite Hne.
  rewrite Hrt. destruct cr as [clk r]. destruct r; reflexivity.
Qed.

Lemma load_lines_log_text :
  forall rs s,
    Forall (serialisable json_dumps json_loads) (map (fun cr => snd (stamped cr)) rs) ->
    load_lines json_loads s
      (readlines (log_text json_dumps (map (fun cr => snd (stamped cr)) rs)))
    = Ok (fold_left replay_record rs s).
Proof.
  induction rs as [|cr rs IH]; intros s H; [reflexivity|].
  inversion H as [|? ? Hcr Hrs]; subst.
  cbn [map log_text fold_left].
  destruct (record_line_no_break _ (proj1 Hcr)) as [HLF HCR].
  rewrite str_app_assoc.
  rewrite (readlines_line _ _ HLF HCR).
  cbn [load_lines].
  pose proof (load_line_record s cr Hcr) as HL.
  change (snd (stamped cr)) with (entry_of (fst cr) (snd cr)) in HL.
  rewrite HL. cbn [bind].
  apply IH. exact Hrs.
Qed.

(** [Session.append] on a session whose log loads. *)
Lemma Session_append_ok :
  forall clk d s e s1,
    Session_load json_loads d s = Ok s1 ->
    Session_append json_dumps json_loads clk d s e
    = Ok (push_entry s1 e,
          dir_append (time_ clk) (session_id s)
            (json_dumps (JDict e) ++ nl) d).
Proof.
  intros clk d s e s1 H. unfold Session_append. rewrite H.
  reflexivity.
Qed.

Lemma Session_load_loaded :
  forall d s, _loaded s = true -> Session_load json_loads d s = Ok s.
Proof.
  intros d s H. unfold Session_load. rewrite H. reflexivity.
Qed.

Lemma fold_push_entry :
  forall es s,
    fold_left push_entry es s
    = mkSession (session_id s) (_project_focus s) (_entries s ++ es)%list
        (_loaded s).
Proof.
  induction es as [|e es IH]; intros s; simpl.
  - rewrite app_nil_r. destruct s; reflexivity.
  - rewrite IH. simpl. rewrite <- app_assoc. reflexivity.
Qed.

Lemma append_all_loaded :
  forall es d s,
    _loaded s = true ->
    exists d',
      append_all json_dumps json_loads d s es = Ok (fold_left push_entry (map snd es) s, d') /\
      dir_content (session_id s) d'
      = dir_content (session_id s) d ++ log_text json_dumps (map snd es) /\
      (forall sid, sid <> session_id s -> dir_lookup sid d' = dir_lookup sid d).
Proof.
  induction es as [|[clk e] es IH]; intros d s Hl.
  - exists d. simpl. rewrite str_app_nil_r. repeat split.
  - cbn [append_all].
    rewrite (Session_append_ok clk d s e s (Session_load_loaded d s Hl)).
    cbn [bind fst snd].
    destruct (IH (dir_append (time_ clk) (session_id s)
                    (json_dumps (JDict e) ++ nl) d) (push_entry s e) Hl)
      as (d' & Happ & Hc & Ho).
    exists d'. split; [exact Happ|]. split.
    + simpl in Hc. rewrite Hc. rewrite dir_content_append_same.
      cbn [map snd log_text]. rewrite !str_app_assoc. reflexivity.
    + intros sid Hne. rewrite (Ho sid Hne).
      apply dir_lookup_append_other. exact Hne.
Qed.

Lemma log_text_nil :
  forall es, log_text json_dumps es = "" -> es = [].
Proof.
  intros [|e es]; [reflexivity|]. simpl.
  destruct (json_dumps (JDict e)); discriminate.
Qed.

Lemma log_text_app :
  forall es1 es2,
    log_text json_dumps (es1 ++ es2)
    = log_text json_dumps es1 ++ log_text json_dumps es2.
Proof.
  induction es1 as [|e es1 IH]; intros es2; simpl; [reflexivity|].
  rewrite IH, !str_app_assoc. reflexivity.
Qed.

Lemma Session_load_sets_loaded :
  forall d s s', Session_load json_loads d s = Ok s' -> _loaded s' = true.
Proof.
  intros d s s' H. unfold Session_load, bind in H.
  destruct (_loaded s) eqn:E; [inversion H; subst; exact E|].
  destruct (dir_lookup (session_id s) d).
  - destruct (load_lines json_loads s (readlines (content f)));
      [|discriminate].
    inversion H. reflexivity.
  - inversion H. reflexivity.
Qed.

(** Loading a log made of the lines of serialisable records replays the
    records in order. *)
Lemma Session_load_log_text :
  forall rs d sid,
    dir_content sid d = log_text json_dumps (entries_of rs) ->
    Forall (serialisable json_dumps json_loads) (entries_of rs) ->
    exists s,
      Session_load json_loads d (Session_init sid) = Ok s /\
      session_id s = sid /\
      _loaded s = true /\
      _entries s = entries_of rs /\
      _project_focus s = last_context_change JNull rs.
Proof.
  intros rs d sid Hc Hser. unfold Session_load, dir_content in *. simpl.
  destruct (dir_lookup sid d) as [f|].
  - rewrite Hc. unfold entries_of in *.
    rewrite (load_lines_log_text rs _ Hser). simpl.
    destruct (replay_records_state rs (Session_init sid)) as (H1 & H2 & H3 & H4).
    eexists. split; [reflexivity|]. simpl. repeat split; assumption.
  - symmetry in Hc. apply log_text_nil in Hc.
    destruct rs; [|discriminate].
    eexists. split; [reflexivity|]. repeat split.
Qed.

(** A session loaded from a log of serialisable records [rs0], the
    records [rs] appended to it, and the log read again. *)
Lemma append_all_replay :
  forall d sid rs0 rs,
    dir_content sid d = log_text json_dumps (entries_of rs0) ->
    Forall (serialisable json_dumps json_loads) (entries_of (rs0 ++ rs)) ->
    exists s0 s' d' s'',
      Session_load json_loads d (Session_init sid) = Ok s0 /\
      append_all json_dumps json_loads d s0 (map stamped rs) = Ok (s', d') /\
      dir_content sid d' = log_text json_dumps (entries_of (rs0 ++ rs)) /\
      _entries s' = entries_of (rs0 ++ rs) /\
      (forall sid', sid' <> sid -> dir_lookup sid' d' = dir_lookup sid' d) /\
      Session_load json_loads d' (Session_init sid) = Ok s'' /\
      _entries s'' = entries_of (rs0 ++ rs) /\
      _project_focus s'' = last_context_change JNull (rs0 ++ rs).
Proof.
  intros d sid rs0 rs Hc Hser.
  assert (Hser0 : Forall (serialisable json_dumps json_loads) (entries_of rs0)).
  { unfold entries_of in *. rewrite map_app in Hser.
    apply Forall_app in Hser. tauto. }
  destruct (Session_load_log_text rs0 d sid Hc Hser0)
    as (s0 & Hl0 & Hid & Hld & He0 & _).
  destruct (append_all_loaded (map stamped rs) d s0 Hld)
    as (d' & Happ & Hc' & Ho).
  rewrite Hid in Hc', Ho.
  assert (Hmm : map snd (map stamped rs) = entries_of rs).
  { unfold entries_of. apply map_map. }
  rewrite Hmm in Happ, Hc'.
  assert (Hc'' : dir_content sid d'
                 = log_text json_dumps (entries_of (rs0 ++ rs))).
  { rewrite Hc', Hc. unfold entries_of. rewrite map_app, log_text_app.
    reflexivity. }
  destruct (Session_load_log_text (rs0 ++ rs) d' sid Hc'' Hser)
    as (s'' & Hl'' & _ & _ & He'' & Hf'').
  exists s0, (fold_left push_entry (entries_of rs) s0), d', s''.
  split; [exact Hl0|]. split; [exact Happ|]. split; [exact Hc''|].
  split.
  { rewrite fold_push_entry. simpl. rewrite He0.
    unfold entries_of. rewrite map_app. reflexivity. }
  split; [exact Ho|]. split; [exact Hl''|]. split; assumption.
Qed.

(** C6.  [Session.append], on a session whose log loads, writes one JSON
    record followed by a newline after the bytes already in the log, which
    stay as they were, touches no other log, and adds the entry at the end
    of the entries in memory.  Whatever records [rs0] the log of a session
    holds (none for a new session), after any sequence of appends [rs] to
    the loaded session the log is the sequence of all the records' lines,
    and replaying it returns all entries in append order. *)
Theorem Session_append_replay :
  forall clk d s e,
    (forall s1,
       Session_load json_loads d s = Ok s1 ->
       exists d',
         Session_append json_dumps json_loads clk d s e
         = Ok (push_entry s1 e, d') /\
         dir_content (session_id s) d'
         = dir_content (session_id s) d ++ json_dumps (JDict e) ++ nl /\
         (forall sid, sid <> session_id s ->
                      dir_lookup sid d' = dir_lookup sid d)) /\
    (forall sid rs0 rs,
       dir_content sid d = log_text json_dumps (entries_of rs0) ->
       Forall (serialisable json_dumps json_loads) (entries_of (rs0 ++ rs)) ->
       exists s0 s' d' s'',
         Session_load json_loads d (Session_init sid) = Ok s0 /\
         append_all json_dumps json_loads d s0 (map stamped rs) = Ok (s', d') /\
         dir_content sid d' = log_text json_dumps (entries_of (rs0 ++ rs)) /\
         _entries s' = entries_of (rs0 ++ rs) /\
         Session_load json_loads d' (Session_init sid) = Ok s'' /\
         _entries s'' = entries_of (rs0 ++ rs)).
Proof.
  intros clk d s e. split.
  - intros s1 Hload. eexists. split; [apply Session_append_ok; exact Hload|].
    split; [apply dir_content_append_same|].
    intros sid Hne. apply dir_lookup_append_other. exact Hne.
  - intros sid rs0 rs Hc Hser.
    destruct (append_all_replay d sid rs0 rs Hc Hser)
      as (s0 & s' & d' & s'' & H1 & H2 & H3 & H4 & _ & H6 & H7 & _).
    exists s0, s', d', s''. repeat split; assumption.
Qed.

(** C2.  Whatever records [rs0] the log of a session holds (none for a
    new session) and whatever records [rs] are then appended, a session
    reloaded from the log reports as focus the value carried by the last
    [context_change] record of the whole sequence, and [None] when there
    is no such record; how many records of the other kinds come before,
    between or after does not matter. *)
Theorem replay_last_context_change :
  forall d sid rs0 rs,
    dir_content sid d = log_text json_dumps (entries_of rs0) ->
    Forall (serialisable json_dumps json_loads) (entries_of (rs0 ++ rs)) ->
    exists s0 s' d' s'' focus,
      Session_load json_loads d (Session_init sid) = Ok s0 /\
      append_all json_dumps json_loads d s0 (map stamped rs) = Ok (s', d') /\
      Session_project_focus json_loads d' (Session_init sid)
      = Ok (focus, s'') /\
      focus = last_context_change JNull (rs0 ++ rs) /\
      (Forall (fun cr => is_context_change (snd cr) = false) (rs0 ++ rs) ->
       focus = JNull) /\
      (forall pre clk f post,
         (rs0 ++ rs)%list = (pre ++ (clk, context_change f) :: post)%list ->
         Forall (fun cr => is_context_change (snd cr) = false) post ->
         focus = json_of_opt_str f).
Proof.
  intros d sid rs0 rs Hc Hser.
  destruct (append_all_replay d sid rs0 rs Hc Hser)
    as (s0 & s' & d' & s'' & H1 & H2 & _ & _ & _ & H6 & _ & H8).
  exists s0, s', d', s'', (last_context_change JNull (rs0 ++ rs)).
  split; [exact H1|]. split; [exact H2|]. split.
  - unfold Session_project_focus. rewrite H6. simpl. rewrite H8. reflexivity.
  - split; [reflexivity|]. split.
    + apply last_context_change_none.
    + intros pre clk f post -> Hpost.
      apply last_context_change_last. exact Hpost.
Qed.

End StoreFacts.

Lemma sample_records_serialisable :
  Forall (serialisable RefJson.dumps RefJson.loads)
    (entries_of (sample_history ++ sample_records)).
Proof.
  repeat (constructor; [split; vm_compute; reflexivity|]). constructor.
Qed.

Lemma Session_append_replay_witness :
  (exists d',
     Session_append RefJson.dumps RefJson.loads clock1 sample_dir0
       (Session_init "sess_a") (entry_of clock1 session_resume)
     = Ok (push_entry
             (mkSession "sess_a" (JStr "/tmp/proj")
                (entries_of sample_history) true)
             (entry_of clock1 session_resume), d') /\
     dir_content "sess_a" d'
     = dir_content "sess_a" sample_dir0
       ++ RefJson.dumps (JDict (entry_of clock1 session_resume)) ++ nl /\
     (forall sid, sid <> "sess_a" ->
                  dir_lookup sid d' = dir_lookup sid sample_dir0)) /\
  (exists s0 s' d' s'',
     Session_load RefJson.loads sample_dir0 (Session_init "sess_a") = Ok s0 /\
     append_all RefJson.dumps RefJson.loads sample_dir0 s0
       (map stamped sample_records) = Ok (s', d') /\
     dir_content "sess_a" d'
     = log_text RefJson.dumps (entries_of (sample_history ++ sample_records)) /\
     _entries s' = entries_of (sample_history ++ sample_records) /\
     Session_load RefJson.loads d' (Session_init "sess_a") = Ok s'' /\
     _entries s'' = entries_of (sample_history ++ sample_records)).
Proof.
  destruct (Session_append_replay RefJson.dumps RefJson.loads clock1
              sample_dir0 (Session_init "sess_a")
              (entry_of clock1 session_resume))
    as [H1 H2].
  split.
  - apply H1. vm_compute. reflexivity.
  - apply (H2 "sess_a" sample_history sample_records);
      [reflexivity | exact sample_records_serialisable].
Defined.

Lemma replay_last_context_change_witness :
  exists s0 s' d' s'' focus,
    Session_load RefJson.loads sample_dir0 (Session_init "sess_a") = Ok s0 /\
    append_all RefJson.dumps RefJson.loads sample_dir0 s0
      (map stamped sample_records) = Ok (s', d') /\
    Session_project_focus RefJson.loads d' (Session_init "sess_a")
    = Ok (focus, s'') /\
    focus = JStr "/srv/app".
Proof.
  destruct (replay_last_context_change RefJson.dumps RefJson.loads
              sample_dir0 "sess_a" sample_history sample_records
              eq_refl sample_records_serialisable)
    as (s0 & s' & d' & s'' & focus & H1 & H2 & H3 & H4 & _).
  exists s0, s', d', s'', focus. repeat split; assumption.
Defined.

(* ================================================================== *)
(** * session.py: continuing the most recent session *)

Lemma insert_desc_perm :
  forall key x l, Permutation (insert_desc key x l) (x :: l).
Proof.
  intros key x l. induction l as [|y l IH]; simpl.
  - apply Permutation_refl.
  - destruct (key y <=? key x)%Z.
    + apply Permutation_refl.
    + eapply Permutation_trans; [apply perm_skip; exact IH | apply perm_swap].
Qed.

Lemma sort_desc_perm :
  forall key l, Permutation (sort_desc key l) l.
Proof.
  intros key l. induction l as [|x l IH]; simpl.
  - apply Permutation_refl.
  - eapply Permutation_trans; [apply insert_desc_perm|].
    apply perm_skip. exact IH.
Qed.

Lemma insert_desc_sorted :
  forall key x l,
    Sorted (fun a b => (key b <= key a)%Z) l ->
    Sorted (fun a b => (key b <= key a)%Z) (insert_desc key x l).
Proof.
  intros key x l Hs. induction Hs as [|y l Hs IH Hhd]; simpl.
  - repeat constructor.
  - destruct (key y <=? key x)%Z eqn:E.
    + constructor; [constructor; assumption|].
      constructor. apply Z.leb_le. exact E.
    + constructor; [exact IH|].
      apply Z.leb_gt in E.
      destruct l as [|z l]; simpl.
      * constructor. lia.
      * inversion Hhd; subst.
        destruct (key z <=? key x)%Z; constructor; lia.
Qed.

Lemma sort_desc_sorted :
  forall key l, Sorted (fun a b => (key b <= key a)%Z) (sort_desc key l).
Proof.
  intros key l. induction l as [|x l IH]; simpl.
  - constructor.
  - apply insert_desc_sorted. exact IH.
Qed.

(** A list either fails a test everywhere or has a first element that
    passes it. *)
Lemma first_passing :
  forall (A : Type) (p : A -> bool) (l : list A),
    Forall (fun x => p x = false) l \/
    exists pre x post,
      l = (pre ++ x :: post)%list /\
      Forall (fun y => p y = false) pre /\ p x = true.
Proof.
  intros A p l. induction l as [|a l IH].
  - left. constructor.
  - destruct (p a) eqn:E.
    + right. exists [], a, l. repeat split; [constructor | exact E].
    + destruct IH as [IH | (pre & x & post & -> & Hpre & Hx)].
      * left. constructor; assumption.
      * right. exists (a :: pre), x, post.
        repeat split; [constructor; assumption | exact Hx].
Qed.

Section ManagerFacts.

Variable json_dumps : json -> string.
Variable json_loads : string -> outcome json.
Variable fromtimestamp : Z -> Z.

Lemma continue_scan_skip :
  forall clk d pre rest,
    Forall (fun sid => live fromtimestamp clk d sid = false) pre ->
    continue_scan json_dumps json_loads fromtimestamp clk d (pre ++ rest)
    = continue_scan json_dumps json_loads fromtimestamp clk d rest.
Proof.
  intros clk d pre rest H. induction H as [|sid pre Hsid _ IH]; [reflexivity|].
  simpl. unfold live in Hsid. rewrite Hsid. exact IH.
Qed.

Lemma load_line_session_id :
  forall s line s',
    load_line json_loads s line = Ok s' -> session_id s' = session_id s.
Proof.
  intros s line s' H. unfold load_line, bind in H.
  repeat match goal with
         | H : context [match ?x with _ => _ end] |- _ => destruct x eqn:?
         end;
    try discriminate; inversion H; reflexivity.
Qed.

Lemma load_lines_session_id :
  forall lines s s',
    load_lines json_loads s lines = Ok s' -> session_id s' = session_id s.
Proof.
  induction lines as [|l lines IH]; simpl; intros s s' H.
  - inversion H. reflexivity.
  - unfold bind in H. destruct (load_line json_loads s l) eqn:E; [|discriminate].
    rewrite (IH _ _ H). eapply load_line_session_id. exact E.
Qed.

Lemma Session_load_session_id :
  forall d s s',
    Session_load json_loads d s = Ok s' -> session_id s' = session_id s.
Proof.
  intros d s s' H. unfold Session_load, bind in H.
  destruct (_loaded s); [inversion H; reflexivity|].
  destruct (dir_lookup (session_id s) d).
  - destruct (load_lines json_loads s (readlines (content f))) eqn:E;
      [|discriminate].
    inversion H. simpl. eapply load_lines_session_id. exact E.
  - inversion H. reflexivity.
Qed.

(** C7.  [continue_last_session] scans the session logs in the order of
    their modification times, newest first, and returns the first one
    that has not expired, skipping the expired ones before it; so does
    [get_or_create_session] when asked to continue, and no other log is
    touched, none created.  Only when every log has expired, or there is
    none, does the scan return nothing and [get_or_create_session] create
    a new session. *)
Theorem continue_last_session_first_live :
  forall clk suffix d,
    let order := sort_desc (mtime_of d) (glob_sessions d) in
    (Permutation order (glob_sessions d) /\
     Sorted (fun a b => (mtime_of d b <= mtime_of d a)%Z) order) /\
    (forall pre sid post s1,
       order = (pre ++ sid :: post)%list ->
       Forall (fun x => live fromtimestamp clk d x = false) pre ->
       live fromtimestamp clk d sid = true ->
       Session_load json_loads d (Session_init sid) = Ok s1 ->
       exists s d',
         continue_last_session json_dumps json_loads fromtimestamp clk d
         = Ok (Some s, d') /\
         get_or_create_session json_dumps json_loads fromtimestamp clk suffix
           None true d = Ok (s, d') /\
         session_id s = sid /\
         _entries s = (_entries s1 ++ [entry_of clk session_continue])%list /\
         (forall sid', sid' <> sid -> dir_lookup sid' d' = dir_lookup sid' d)) /\
    (Forall (fun x => live fromtimestamp clk d x = false) order ->
     continue_last_session json_dumps json_loads fromtimestamp clk d
     = Ok (None, d) /\
     get_or_create_session json_dumps json_loads fromtimestamp clk suffix
       None true d
     = create_session json_dumps json_loads clk suffix d) /\
    (Forall (fun x => live fromtimestamp clk d x = false) order \/
     exists pre sid post,
       order = (pre ++ sid :: post)%list /\
       Forall (fun x => live fromtimestamp clk d x = false) pre /\
       live fromtimestamp clk d sid = true).
Proof.
  intros clk suffix d order.
  split; [split; [apply sort_desc_perm | apply sort_desc_sorted]|].
  split; [|split; [|apply first_passing]].
  - intros pre sid post s1 Horder Hpre Hlive Hload.
    assert (Hscan :
      continue_last_session json_dumps json_loads fromtimestamp clk d
      = Ok (Some (push_entry s1 (entry_of clk session_continue)),
            dir_append (time_ clk) sid
              (json_dumps (JDict (entry_of clk session_continue)) ++ nl) d)).
    { unfold continue_last_session. fold order.
      destruct (glob_sessions d) eqn:Eg.
      - subst order. simpl in Horder. destruct pre; discriminate.
      - rewrite Horder, (continue_scan_skip clk d pre _ Hpre).
        cbn [continue_scan].
        unfold live in Hlive. rewrite Hlive, Hload. cbn [bind].
        rewrite (Session_append_ok json_dumps json_loads clk d s1
                   (entry_of clk session_continue) s1).
        + cbn [bind fst snd].
          rewrite (Session_load_session_id _ _ _ Hload). reflexivity.
        + unfold Session_load.
          rewrite (Session_load_sets_loaded json_loads _ _ _ Hload).
          reflexivity. }
    eexists. eexists. split; [exact Hscan|]. split.
    + unfold get_or_create_session. rewrite Hscan. reflexivity.
    + simpl. split; [apply (Session_load_session_id _ _ _ Hload)|].
      split; [reflexivity|].
      intros sid' Hne. apply dir_lookup_append_other. exact Hne.
  - intros Hall.
    assert (Hscan :
      continue_last_session json_dumps json_loads fromtimestamp clk d
      = Ok (None, d)).
    { unfold continue_last_session. fold order.
      destruct (glob_sessions d); [reflexivity|].
      rewrite <- (app_nil_r order), (continue_scan_skip clk d order [] Hall).
      reflexivity. }
    split; [exact Hscan|].
    unfold get_or_create_session. rewrite Hscan. reflexivity.
Qed.

End ManagerFacts.

Lemma continue_last_session_first_live_witness :
  sort_desc (mtime_of sample_dir) (glob_sessions sample_dir)
  = ["sess_new"; "sess_mid"; "sess_old"] /\
  live fall_back clock_late sample_dir "sess_new" = false /\
  live fall_back clock_late sample_dir "sess_mid" = true /\
  exists s d',
    continue_last_session RefJson.dumps RefJson.loads fall_back clock_late
      sample_dir = Ok (Some s, d') /\
    get_or_create_session RefJson.dumps RefJson.loads fall_back clock_late
      "k3x9q2ab" None true sample_dir = Ok (s, d') /\
    session_id s = "sess_mid" /\
    dir_lookup "sess_k3x9q2ab" d' = None.
Proof.
  destruct (continue_last_session_first_live RefJson.dumps RefJson.loads
              fall_back clock_late "k3x9q2ab" sample_dir) as (_ & H & _).
  split; [reflexivity|]. split; [reflexivity|]. split; [reflexivity|].
  destruct (H ["sess_new"] "sess_mid" ["sess_old"]
              (mkSession "sess_mid" JNull [entry_of clock0 session_start] true))
    as (s & d' & H1 & H2 & H3 & _ & H5).
  - reflexivity.
  - repeat constructor.
  - reflexivity.
  - vm_compute. reflexivity.
  - exists s, d'. split; [exact H1|]. split; [exact H2|]. split; [exact H3|].
    rewrite H5; [reflexivity | discriminate].
Defined.

(* ================================================================== *)
(** * tools/base.py: the approval gate, dry run and logging *)

Section RunFacts.

Variable json_dumps : json -> string.
Variable json_loads : string -> outcome json.

(** C3.  An EXPLICIT tool run with parameters that validate and without
    force-approve answers with an error envelope of type
    "ApprovalRequired", and the session, its entries and the logs are
    left as they were. *)
Theorem run_explicit_requires_approval :
  forall clk t raw_params params env,
    approval_level (metadata t) = EXPLICIT ->
    validate_params t raw_params = Ok params ->
    exists resp,
      run json_dumps json_loads clk t raw_params false env = Ok (resp, env) /\
      Responses.success resp = false /\
      Responses.result resp = JNull /\
      option_map Responses.type_ (Responses.error resp)
      = Some "ApprovalRequired".
Proof.
  intros clk t raw_params params env Hlevel Hvalid.
  unfold run. rewrite Hvalid, Hlevel. simpl.
  eexists. split; [reflexivity|]. repeat split.
Qed.

(** C4, amended.  A tool run with parameters that validate and ask for a
    dry run, force-approved or of a tier other than EXPLICIT, answers with
    a success envelope flagged as a dry run whose result names the
    operation and its tier, and the session, its entries and the logs are
    left as they were. *)
Theorem run_dry_run_preview :
  forall clk t raw_params params auto_approve env,
    validate_params t raw_params = Ok params ->
    dry_run params = true ->
    auto_approve = true \/ approval_level (metadata t) <> EXPLICIT ->
    exists resp,
      run json_dumps json_loads clk t raw_params auto_approve env
      = Ok (resp, env) /\
      Responses.success resp = true /\
      Responses.dry_run resp = true /\
      Responses.error resp = None /\
      json_getitem (Responses.result resp) "would_execute"
      = Ok (JStr (name (metadata t))) /\
      json_getitem (Responses.result resp) "approval_level"
      = Ok (JStr (value (approval_level (metadata t)))).
Proof.
  intros clk t raw_params params auto_approve env Hvalid Hdry Hgate.
  unfold run. rewrite Hvalid.
  assert (Hg : negb auto_approve && is_EXPLICIT (approval_level (metadata t))
               = false).
  { destruct Hgate as [-> | Hne]; [reflexivity|].
    destruct (approval_level (metadata t)); try congruence;
      apply andb_false_r. }
  rewrite Hg, Hdry. eexists. split; [reflexivity|]. repeat split.
Qed.

(** C5.  A tool run with parameters that fail validation, on a session
    whose log loads, answers with an error envelope carrying the class
    and message of the validation error, and appends exactly one entry:
    an entry of type "tool_call" that names the tool, carries the raw
    parameters, no result, the same class and message as its error, and
    the focus of the session as its context.  The entry is added at the
    end of the entries in memory and, as one line, at the end of the
    session's log; no other log is touched. *)
Theorem run_validation_error_logged :
  forall clk t raw_params auto_approve env e s1,
    validate_params t raw_params = Raise e ->
    Session_load json_loads (sessions env) (session env) = Ok s1 ->
    exists resp env' entry,
      run json_dumps json_loads clk t raw_params auto_approve env
      = Ok (resp, env') /\
      Responses.success resp = false /\
      option_map Responses.type_ (Responses.error resp) = Some (exn_class e) /\
      option_map Responses.message (Responses.error resp) = Some (exn_msg e) /\
      entry = [ ("timestamp", JStr (utcnow_isoformat clk ++ "Z"));
                ("type", JStr "tool_call");
                ("tool", JStr (name (metadata t)));
                ("params", raw_params);
                ("result", JNull);
                ("error", JDict [("type", JStr (exn_class e));
                                 ("message", JStr (exn_msg e))]);
                ("context",
                 JDict [("project_focus", _project_focus (session env))]) ] /\
      _entries (session env') = (_entries s1 ++ [entry])%list /\
      dir_content (session_id (session env)) (sessions env')
      = dir_content (session_id (session env)) (sessions env)
        ++ json_dumps (JDict entry) ++ nl /\
      (forall sid, sid <> session_id (session env) ->
                   dir_lookup sid (sessions env') = dir_lookup sid (sessions env)).
Proof.
  intros clk t raw_params auto_approve env e s1 Hvalid Hload.
  unfold run. rewrite Hvalid.
  unfold run_except, env_log_tool_call, log_tool_call.
  rewrite (Session_append_ok json_dumps json_loads clk (sessions env)
             (session env) _ s1 Hload).
  cbn [bind fst snd].
  eexists. eexists. eexists. split; [reflexivity|].
  cbn. repeat split.
  - apply dir_content_append_same.
  - intros sid Hne. apply dir_lookup_append_other. exact Hne.
Qed.

End RunFacts.

Lemma run_explicit_requires_approval_witness :
  exists resp,
    run RefJson.dumps RefJson.loads clock0 sample_bash
      (JDict [("command", JStr "ls")]) false sample_env
    = Ok (resp, sample_env) /\
    Responses.success resp = false /\
    Responses.result resp = JNull /\
    option_map Responses.type_ (Responses.error resp) = Some "ApprovalRequired".
Proof.
  apply (run_explicit_requires_approval RefJson.dumps RefJson.loads clock0
           sample_bash (JDict [("command", JStr "ls")])
           (mkParams false [("command", JStr "ls"); ("timeout", JInt 60);
                            ("cwd", JNull)])
           sample_env); reflexivity.
Defined.

Lemma run_dry_run_preview_witness :
  exists resp,
    run RefJson.dumps RefJson.loads clock0 sample_bash
      (JDict [("command", JStr "ls"); ("dry_run", JBool true)]) true sample_env
    = Ok (resp, sample_env) /\
    Responses.success resp = true /\
    Responses.dry_run resp = true /\
    Responses.error resp = None /\
    json_getitem (Responses.result resp) "would_execute" = Ok (JStr "bash_run") /\
    json_getitem (Responses.result resp) "approval_level" = Ok (JStr "explicit").
Proof.
  apply (run_dry_run_preview RefJson.dumps RefJson.loads clock0
           sample_bash (JDict [("command", JStr "ls"); ("dry_run", JBool true)])
           (mkParams true [("command", JStr "ls"); ("timeout", JInt 60);
                           ("cwd", JNull)])
           true sample_env); [reflexivity | reflexivity | left; reflexivity].
Defined.

(** C4 as stated fails.  With [dry_run] set to true, [bash_run] (an
    EXPLICIT tool) run without force-approve is stopped at the approval
    gate, which comes before the dry-run branch; and parameters that set
    [dry_run] but fail the schema (no [command]) are a validation error,
    which is logged. *)
Lemma run_dry_run_counterexample :
  let raw := JDict [("command", JStr "ls"); ("dry_run", JBool true)] in
  let bad := JDict [("dry_run", JBool true)] in
  (exists params,
     validate_params sample_bash raw = Ok params /\ dry_run params = true) /\
  ~ (exists resp env',
       run RefJson.dumps RefJson.loads clock0 sample_bash raw false sample_env
       = Ok (resp, env') /\
       Responses.success resp = true /\ Responses.dry_run resp = true) /\
  ~ (exists resp env',
       run RefJson.dumps RefJson.loads clock0 sample_bash bad true sample_env
       = Ok (resp, env') /\
       Responses.success resp = true /\
       length (_entries (session env'))
       = length (_entries (session sample_env))).
Proof.
  split; [eexists; split; reflexivity|]. split.
  - intros (resp & env' & Hrun & Hs & _).
    vm_compute in Hrun. inversion Hrun; subst. discriminate.
  - intros (resp & env' & Hrun & Hs & _).
    vm_compute in Hrun. inversion Hrun; subst. discriminate.
Qed.

Lemma run_validation_error_logged_witness :
  let report :=
    "1 validation error for BashRunParams" ++ nl ++
    "command" ++ nl ++
    "  Field required [type=missing, input_value={'dry_run': True}, " ++
    "input_type=dict]" ++ nl ++
    "    For further information visit " ++
    "https://errors.pydantic.dev/2.11/v/missing" in
  let entry :=
    [ ("timestamp", JStr "2024-05-01T10:00:00Z");
      ("type", JStr "tool_call");
      ("tool", JStr "bash_run");
      ("params", JDict [("dry_run", JBool true)]);
      ("result", JNull);
      ("error", JDict [("type", JStr "ValidationError");
                       ("message", JStr report)]);
      ("context", JDict [("project_focus", JNull)]) ] in
  exists resp env',
    run RefJson.dumps RefJson.loads clock0 sample_bash
      (JDict [("dry_run", JBool true)]) true sample_env = Ok (resp, env') /\
    Responses.success resp = false /\
    option_map Responses.type_ (Responses.error resp) = Some "ValidationError" /\
    option_map Responses.message (Responses.error resp) = Some report /\
    _entries (session env') = [entry] /\
    dir_content "sess_a" (sessions env')
    = RefJson.dumps (JDict entry) ++ nl.
Proof.
  intros report entry.
  destruct (run_validation_error_logged RefJson.dumps RefJson.loads clock0
              sample_bash (JDict [("dry_run", JBool true)]) true sample_env
              (ValidationError report) (session sample_env)
              eq_refl eq_refl)
    as (resp & env' & entry' & H1 & H2 & H3 & H4 & H5 & H6 & H7 & _).
  exists resp, env'.
  assert (He : entry' = entry) by (rewrite H5; reflexivity).
  rewrite He in H6, H7.
  repeat split; assumption.
Defined.

(** The scenario of the specification on [bash_run]: refused without
    force-approve, previewed with force-approve and [dry_run], both
    without a log entry; executed with force-approve, with exactly one
    [tool_call] entry appended. *)
Example run_scenario :
  let run_ := run RefJson.dumps RefJson.loads clock0 sample_bash in
  let entries r :=
    match r with
    | Ok (_, env') => Some (length (_entries (session env')))
    | Raise _ => None
    end in
  let succeeded r :=
    match r with
    | Ok (resp, _) => Some (Responses.success resp)
    | Raise _ => None
    end in
  let r1 := run_ (JDict [("command", JStr "ls")]) false sample_env in
  let r2 := run_ (JDict [("command", JStr "ls"); ("dry_run", JBool true)])
              true sample_env in
  let r3 := run_ (JDict [("command", JStr "ls"); ("dry_run", JBool false)])
              true sample_env in
  (succeeded r1, entries r1) = (Some false, Some 0%nat) /\
  (succeeded r2, entries r2) = (Some true, Some 0%nat) /\
  (succeeded r3, entries r3) = (Some true, Some 1%nat).
Proof. vm_compute. repeat split. Qed.

(* ================================================================== *)
(** * context.py: the focus invariant *)

Lemma set_focus_ok :
  forall exists_ is_dir ctx path ctx',
    set_focus exists_ is_dir ctx path = Ok ctx' ->
    _focus_path ctx' = Some (Path path) /\
    is_absolute (Path path) = true /\
    exists_ (Path path) = true /\ is_dir (Path path) = true.
Proof.
  intros exists_ is_dir ctx path ctx' H. unfold set_focus in H.
  destruct (is_absolute (Path path)); [|discriminate].
  destruct (exists_ (Path path)); [|discriminate].
  destruct (is_dir (Path path)); [|discriminate].
  inversion H. repeat split.
Qed.

Lemma focus_absolute_resolve :
  forall ctx,
    (forall f, _focus_path ctx = Some f -> is_absolute f = true) ->
    (forall fs cwd cwd' p,
       resolve_path fs cwd ctx p = resolve_path fs cwd' ctx p) /\
    (forall fs cwd p r,
       resolve_path fs cwd ctx p = Ok r -> is_absolute r = true).
Proof.
  intros ctx Habs. split.
  - intros fs cwd cwd' p. unfold resolve_path.
    destruct (is_absolute (Path p)) eqn:E; [reflexivity|].
    destruct (_focus_path ctx) as [f|] eqn:Hf; [|reflexivity].
    unfold resolve, truediv. rewrite E.
    unfold is_absolute in *. simpl. rewrite (Habs f eq_refl). reflexivity.
  - intros fs cwd p r. unfold resolve_path.
    destruct (is_absolute (Path p)) eqn:E.
    + intros H. inversion H; subst. exact E.
    + destruct (_focus_path ctx) as [f|]; [|discriminate].
      unfold resolve, bind.
      destruct (joinrealpath _ _ _ _ _) as [jr|] eqn:Ej; [|discriminate].
      destruct (existsb _ _); [discriminate|].
      destruct (stat_eloop _ _ _ _); [discriminate|].
      intros H. inversion H.
      exact (joinrealpath_absolute _ _ _ _ _ _ Ej).
Qed.

(** X1.  A context built by [ProjectContext(...)] and changed only by
    [set_focus] and [clear_focus] has either no focus or a focus that is
    an absolute path of an existing directory; for such a context
    [resolve_path] does not depend on the working directory and returns
    absolute paths only, on every file system. *)
Theorem context_focus_invariant :
  forall exists_ is_dir focus0 ctx0 calls,
    ProjectContext_init exists_ is_dir focus0 = Ok ctx0 ->
    let ctx := fold_left (context_call exists_ is_dir) calls ctx0 in
    (forall f, _focus_path ctx = Some f ->
               is_absolute f = true /\ exists_ f = true /\ is_dir f = true) /\
    (forall fs cwd cwd' p,
       resolve_path fs cwd ctx p = resolve_path fs cwd' ctx p) /\
    (forall fs cwd p r,
       resolve_path fs cwd ctx p = Ok r -> is_absolute r = true).
Proof.
  intros exists_ is_dir focus0 ctx0 calls Hinit ctx.
  assert (Hinv : forall f, _focus_path ctx = Some f ->
                   is_absolute f = true /\ exists_ f = true /\ is_dir f = true).
  { subst ctx.
    assert (H0 : forall f, _focus_path ctx0 = Some f ->
                   is_absolute f = true /\ exists_ f = true /\ is_dir f = true).
    { unfold ProjectContext_init in Hinit.
      destruct (truthy focus0).
      - destruct focus0; try discriminate.
        destruct (set_focus_ok _ _ _ _ _ Hinit) as (Hf & H1 & H2 & H3).
        intros f Hf'. rewrite Hf in Hf'. inversion Hf'; subst. auto.
      - inversion Hinit. simpl. discriminate. }
    clear Hinit. revert ctx0 H0.
    induction calls as [|c calls IH]; intros ctx0 H0; [exact H0|].
    simpl. apply IH. destruct c as [path|]; simpl.
    - destruct (set_focus exists_ is_dir ctx0 path) as [ctx'|] eqn:E;
        [|exact H0].
      destruct (set_focus_ok _ _ _ _ _ E) as (Hf & H1 & H2 & H3).
      intros f Hf'. rewrite Hf in Hf'. inversion Hf'; subst. auto.
    - discriminate. }
  split; [exact Hinv|].
  apply focus_absolute_resolve. intros f Hf. apply (Hinv f Hf).
Qed.

Lemma context_focus_invariant_witness :
  let exists_ := fun p : PurePath => str p =? "/srv/app" in
  let ctx :=
    fold_left (context_call exists_ exists_)
      [call_set_focus "relative/dir"; call_set_focus "/missing";
       call_set_focus "/srv//app/"]
      (mkContext None) in
  _focus_path ctx = Some (Path "/srv/app") /\
  resolve_path sample_links ["home"; "u"] ctx "x/../y"
  = resolve_path sample_links [] ctx "x/../y".
Proof.
  intros exists_ ctx.
  destruct (context_focus_invariant exists_ exists_ JNull (mkContext None)
              [call_set_focus "relative/dir"; call_set_focus "/missing";
               call_set_focus "/srv//app/"] eq_refl) as (_ & H & _).
  split; [reflexivity | apply H].
Defined.

(* ================================================================== *)
(** * context.py: [get_relative_path] *)

Lemma relative_to_raises :
  forall p f e, relative_to p f = Raise e -> isinstance_ValueError e = true.
Proof.
  intros p f e. unfold relative_to.
  destruct ((root p =? root f) && list_prefixb (tail f) (tail p));
    [discriminate|].
  intros H. inversion H. reflexivity.
Qed.

(** X2.  Under an absolute focus, [get_relative_path] never raises; it
    hands its argument back unchanged whenever the components of the focus
    do not begin those of the path; and whenever it returns something else,
    [is_within_focus] reports the path as within the focus. *)
Theorem get_relative_path_within_focus :
  forall fs cwd f path,
    is_absolute f = true ->
    exists s,
      get_relative_path (mkContext (Some f)) path = Ok s /\
      (is_relative_to (Path path) f = false -> s = path) /\
      (s <> path ->
       is_within_focus fs cwd (mkContext (Some f)) path = Ok true).
Proof.
  intros fs cwd f path Hf. unfold get_relative_path. simpl.
  destruct (is_absolute (Path path)) eqn:Hp; simpl.
  2:{ exists path. split; [reflexivity|]. split; [reflexivity|]. congruence. }
  unfold relative_to.
  assert (Hrel : is_relative_to (Path path) f
                 = (root (Path path) =? root f)
                   && list_prefixb (tail f) (tail (Path path))).
  { unfold is_relative_to, parts. unfold is_absolute in Hf, Hp.
    apply negb_true_iff in Hf, Hp. rewrite Hf, Hp. simpl.
    rewrite String.eqb_sym. reflexivity. }
  rewrite <- Hrel.
  destruct (is_relative_to (Path path) f) eqn:E.
  - eexists. split; [reflexivity|]. split; [discriminate|].
    intros _. apply (is_within_focus_under fs cwd f path (Path path) Hf).
    + unfold resolve_path. rewrite Hp. reflexivity.
    + exact E.
  - exists path. simpl. split; [reflexivity|]. split; [reflexivity|]. congruence.
Qed.

Lemma get_relative_path_within_focus_witness :
  exists s,
    get_relative_path (mkContext (Some (Path "/root/proj"))) "/root/proj/a/b.py"
    = Ok s /\
    (is_relative_to (Path "/root/proj/a/b.py") (Path "/root/proj") = false ->
     s = "/root/proj/a/b.py") /\
    (s <> "/root/proj/a/b.py" ->
     is_within_focus sample_links [] (mkContext (Some (Path "/root/proj")))
       "/root/proj/a/b.py"
     = Ok true).
Proof.
  apply (get_relative_path_within_focus sample_links [] (Path "/root/proj")
           "/root/proj/a/b.py").
  reflexivity.
Defined.

(* ------------------------------------------------------------------ *)
(** ** Parsing a printed path *)

Lemma split_slash_single :
  forall x, str_contains "/" x = false -> split_slash x = [x].
Proof.
  induction x as [|c x IH]; intros H; [reflexivity|].
  simpl in H. apply orb_false_iff in H. destruct H as [Hc Hx].
  simpl. rewrite Hc, (IH Hx). reflexivity.
Qed.

Lemma split_slash_app :
  forall x s,
    str_contains "/" x = false ->
    split_slash (x ++ String "/" s) = x :: split_slash s.
Proof.
  induction x as [|c x IH]; intros s H; [reflexivity|].
  simpl in H. apply orb_false_iff in H. destruct H as [Hc Hx].
  simpl. rewrite Hc, (IH s Hx). reflexivity.
Qed.

Lemma split_slash_no_slash :
  forall s, forallb (fun x => negb (str_contains "/" x)) (split_slash s) = true.
Proof.
  induction s as [|c s IH]; [reflexivity|]. simpl.
  destruct (Ascii.eqb c "/") eqn:E; [exact IH|].
  destruct (split_slash s) as [|x xs]; simpl in *.
  - rewrite E. reflexivity.
  - rewrite E. exact IH.
Qed.

Lemma wf_component_inv :
  forall x, wf_component x = true ->
            is_fieldb x = true /\ str_contains "/" x = false.
Proof.
  intros x H. unfold wf_component in H.
  apply andb_true_iff in H. destruct H as [H1 H2].
  apply negb_true_iff in H2. auto.
Qed.

Lemma fields_of_join :
  forall xs,
    forallb wf_component xs = true ->
    filter is_fieldb (split_slash (join "/" xs)) = xs.
Proof.
  induction xs as [|x xs IH]; intros H; [reflexivity|].
  simpl in H. apply andb_true_iff in H. destruct H as [Hx Hxs].
  destruct (wf_component_inv x Hx) as [Hf Hs].
  destruct xs as [|y ys].
  - simpl. rewrite (split_slash_single x Hs). simpl. rewrite Hf. reflexivity.
  - change (join "/" (x :: y :: ys))
      with (x ++ String "/" (join "/" (y :: ys))).
    rewrite (split_slash_app x _ Hs). cbn [filter]. rewrite Hf.
    rewrite (IH Hxs). reflexivity.
Qed.

(** The text of a non-empty sequence of components starts with a
    character other than the slash. *)
Lemma join_head :
  forall xs,
    xs <> [] -> forallb wf_component xs = true ->
    exists c rest, join "/" xs = String c rest /\ Ascii.eqb c "/" = false.
Proof.
  intros [|x xs] Hne H; [contradiction|].
  simpl in H. apply andb_true_iff in H. destruct H as [Hx _].
  destruct (wf_component_inv x Hx) as [Hf Hs].
  destruct x as [|c x']; [discriminate|].
  simpl in Hs. apply orb_false_iff in Hs. destruct Hs as [Hc _].
  destruct xs; simpl; eauto.
Qed.

Lemma splitroot_relative :
  forall c rest,
    Ascii.eqb c "/" = false -> splitroot (String c rest) = ("", String c rest).
Proof.
  intros c rest H. unfold splitroot.
  destruct c as [[] [] [] [] [] [] [] []]; try reflexivity. discriminate.
Qed.

Lemma splitroot_one :
  forall c rest,
    Ascii.eqb c "/" = false ->
    splitroot (String "/" (String c rest)) = ("/", String c rest).
Proof.
  intros c rest H. unfold splitroot.
  destruct c as [[] [] [] [] [] [] [] []]; try reflexivity. discriminate.
Qed.

Lemma splitroot_two :
  forall c rest,
    Ascii.eqb c "/" = false ->
    splitroot (String "/" (String "/" (String c rest))) = ("//", String c rest).
Proof.
  intros c rest H. unfold splitroot.
  destruct c as [[] [] [] [] [] [] [] []]; try reflexivity. discriminate.
Qed.

(** What [Path] builds is well formed. *)
Lemma Path_wf : forall s, wf_path (Path s) = true.
Proof.
  intros s. unfold wf_path, Path.
  assert (Hroot : forall r rel, splitroot s = (r, rel) ->
                    (r =? "") || (r =? "/") || (r =? "//") = true).
  { intros r rel. unfold splitroot.
    destruct s as [|c s]; [intros H; inversion H; reflexivity|].
    destruct c as [[] [] [] [] [] [] [] []];
      try (intros H; inversion H; reflexivity).
    destruct s as [|c' s]; [intros H; inversion H; reflexivity|].
    destruct c' as [[] [] [] [] [] [] [] []];
      try (intros H; inversion H; reflexivity).
    destruct s as [|c'' s]; [intros H; inversion H; reflexivity|].
    destruct c'' as [[] [] [] [] [] [] [] []];
      intros H; inversion H; reflexivity. }
  destruct (splitroot s) as [r rel] eqn:E. simpl.
  rewrite (Hroot r rel eq_refl). simpl.
  apply forallb_forall. intros x Hx. apply filter_In in Hx.
  destruct Hx as [Hin Hf]. unfold wf_component. rewrite Hf. simpl.
  pose proof (split_slash_no_slash rel) as Hns.
  rewrite forallb_forall in Hns. apply (Hns x Hin).
Qed.

(** Printing a well-formed path and parsing it again gives it back. *)
Lemma Path_str :
  forall p, wf_path p = true -> Path (str p) = p.
Proof.
  intros [r xs] H. unfold wf_path in H. simpl in H.
  apply andb_true_iff in H. destruct H as [Hr Hxs].
  pose proof (fields_of_join xs Hxs) as Hfields.
  unfold str. simpl.
  destruct xs as [|x xs'].
  - simpl. rewrite str_app_nil_r.
    apply orb_true_iff in Hr. destruct Hr as [Hr | Hr].
    + apply orb_true_iff in Hr. destruct Hr as [Hr | Hr];
        apply String.eqb_eq in Hr; subst r; reflexivity.
    + apply String.eqb_eq in Hr. subst r. reflexivity.
  - destruct (join_head (x :: xs') ltac:(discriminate) Hxs)
      as (c & rest & Hj & Hc).
    rewrite Hj in *.
    apply orb_true_iff in Hr. destruct Hr as [Hr | Hr].
    + apply orb_true_iff in Hr. destruct Hr as [Hr | Hr];
        apply String.eqb_eq in Hr; subst r; simpl.
      * unfold Path. rewrite (splitroot_relative c rest Hc).
        rewrite Hfields. reflexivity.
      * unfold Path. rewrite (splitroot_one c rest Hc).
        rewrite Hfields. reflexivity.
    + apply String.eqb_eq in Hr. subst r. simpl.
      unfold Path. rewrite (splitroot_two c rest Hc).
      rewrite Hfields. reflexivity.
Qed.

Lemma wf_plain :
  forall l,
    forallb wf_component l = true ->
    forallb (fun x => negb (x =? "..")) l = true ->
    Forall plain_component l.
Proof.
  induction l as [|x l IH]; intros Hwf Hdd; [constructor|].
  cbn [forallb] in Hwf, Hdd.
  apply andb_true_iff in Hwf. destruct Hwf as [Hx Hwf].
  apply andb_true_iff in Hdd. destruct Hdd as [Hd Hdd].
  destruct (wf_component_inv x Hx) as [Hf _].
  unfold is_fieldb in Hf. apply andb_true_iff in Hf. destruct Hf as [H1 H2].
  apply negb_true_iff in H1, H2, Hd.
  constructor; [|exact (IH Hwf Hdd)].
  repeat split; apply eqb_false_neq; assumption.
Qed.

Lemma list_prefixb_app :
  forall xs ys, list_prefixb xs (xs ++ ys) = true.
Proof.
  induction xs as [|x xs IH]; intros ys; simpl; [reflexivity|].
  rewrite String.eqb_refl. apply IH.
Qed.

Lemma skipn_app_length :
  forall (xs ys : list string), skipn (length xs) (xs ++ ys) = ys.
Proof. induction xs as [|x xs IH]; intros ys; simpl; auto. Qed.

(** X3.  [get_relative_path] undoes [resolve_path]: under a focus set
    from a path with a single leading slash and no "..", a relative path
    without "..", none of whose components, nor any of the focus, is a
    symbolic link, resolves to a path whose text [get_relative_path]
    turns back into the relative path, as [Path] prints it. *)
Theorem get_relative_path_resolve :
  forall fs cwd focus path,
    root (Path focus) = "/" ->
    no_dotdot (Path focus) = true ->
    posix_string focus = true ->
    is_absolute (Path path) = false ->
    no_dotdot (Path path) = true ->
    posix_string path = true ->
    link_free fs [] (tail (Path focus) ++ tail (Path path)) = true ->
    let ctx := mkContext (Some (Path focus)) in
    exists r,
      resolve_path fs cwd ctx path = Ok r /\
      get_relative_path ctx (str r) = Ok (str (Path path)).
Proof.
  intros fs cwd focus path Hroot Hdd Hpx Hrel Hdd' Hpx' Hfree ctx.
  pose proof (Path_wf focus) as Hwf. pose proof (Path_wf path) as Hwf'.
  destruct (Path focus) as [rf tf] eqn:EF.
  destruct (Path path) as [rp tp] eqn:EP.
  simpl in Hroot. subst rf.
  unfold wf_path in Hwf, Hwf'. simpl in Hwf, Hwf'.
  apply andb_true_iff in Hwf'. destruct Hwf' as [_ Hwf'].
  unfold is_absolute in Hrel. simpl in Hrel.
  apply negb_false_iff, String.eqb_eq in Hrel. subst rp.
  unfold no_dotdot in Hdd, Hdd'. simpl in Hdd, Hdd'.
  apply Path_posix in Hpx, Hpx'. rewrite EF in Hpx. rewrite EP in Hpx'.
  unfold posix_path in Hpx, Hpx'. simpl in Hpx, Hpx'.
  cbn [tail] in Hfree.
  assert (Hplain : Forall plain_component (tf ++ tp)).
  { apply wf_plain; rewrite forallb_app;
      [rewrite Hwf, Hwf' | rewrite Hdd, Hdd']; reflexivity. }
  exists (mkPath "/" (tf ++ tp)). split.
  - unfold resolve_path. rewrite EP. simpl. unfold truediv. simpl.
    rewrite resolve_link_free; [| reflexivity | exact Hfree |].
    + cbn [tail]. rewrite (normpath_plain _ [] Hplain). reflexivity.
    + unfold posix_path. cbn [tail]. rewrite forallb_app, Hpx, Hpx'.
      reflexivity.
  - unfold get_relative_path. simpl.
    rewrite (Path_str (mkPath "/" (tf ++ tp))).
    + simpl. unfold relative_to. simpl.
      rewrite list_prefixb_app, skipn_app_length. reflexivity.
    + unfold wf_path. simpl. rewrite forallb_app, Hwf, Hwf'. reflexivity.
Qed.

Lemma get_relative_path_resolve_witness :
  exists r,
    resolve_path sample_links ["home"] (mkContext (Some (Path "/srv/app")))
      "src//lib/./x.py"
    = Ok r /\
    get_relative_path (mkContext (Some (Path "/srv/app"))) (str r)
    = Ok "src/lib/x.py".
Proof.
  apply (get_relative_path_resolve sample_links ["home"] "/srv/app"
           "src//lib/./x.py");
    reflexivity.
Defined.

(* ================================================================== *)
(** * context.py: [_detect_project_type] *)

Lemma has_marker_In :
  forall m ms, existsb (String.eqb m) ms = true <-> In m ms.
Proof.
  intros m ms. rewrite existsb_exists. split.
  - intros (x & Hin & Heq). apply String.eqb_eq in Heq. subst. exact Hin.
  - intros Hin. exists m. split; [exact Hin | apply String.eqb_refl].
Qed.

Lemma has_marker_ext :
  forall ms ms' m,
    (forall x, In x ms <-> In x ms') ->
    existsb (String.eqb m) ms = existsb (String.eqb m) ms'.
Proof.
  intros ms ms' m H.
  destruct (existsb (String.eqb m) ms) eqn:E1;
    destruct (existsb (String.eqb m) ms') eqn:E2; try reflexivity.
  - apply has_marker_In, H, has_marker_In in E1. congruence.
  - apply has_marker_In, H, has_marker_In in E2. congruence.
Qed.

(** X4.  The project type depends only on which markers were found, not
    on their order or repetition; [package.json] wins over every other
    marker; and the type is "unknown" exactly when none of the seven
    markers that decide a type was found (a project with only a
    [Makefile] is of unknown type). *)
Theorem detect_project_type_markers :
  forall markers,
    (forall markers',
       (forall m, In m markers <-> In m markers') ->
       _detect_project_type markers' = _detect_project_type markers) /\
    (In "package.json" markers -> _detect_project_type markers = "node") /\
    (_detect_project_type markers = "unknown" <->
     forall m,
       In m ["package.json"; "pyproject.toml"; "setup.py"; "requirements.txt";
             "Cargo.toml"; "go.mod"; ".git"] ->
       ~ In m markers).
Proof.
  intros markers. split; [|split].
  - intros markers' H. unfold _detect_project_type.
    rewrite !(has_marker_ext markers markers' _ H). reflexivity.
  - intros H. unfold _detect_project_type.
    apply has_marker_In in H. rewrite H. reflexivity.
  - cbv beta zeta delta [_detect_project_type]. split.
    + intros H m Hm Hin. apply has_marker_In in Hin.
      repeat match type of H with
             | context [existsb (String.eqb ?x) markers] =>
                 let E := fresh "E" in
                 destruct (existsb (String.eqb x) markers) eqn:E;
                 cbn [orb] in H; try discriminate
             end.
      simpl in Hm. repeat (destruct Hm as [<- | Hm]; [congruence|]).
      contradiction.
    + intros H.
      repeat match goal with
             | |- context [existsb (String.eqb ?m) markers] =>
                 let E := fresh in
                 destruct (existsb (String.eqb m) markers) eqn:E;
                 [apply has_marker_In in E; exfalso;
                  apply (H m); [simpl; tauto | exact E]|]; cbn [orb]
             end.
      reflexivity.
Qed.

(* ================================================================== *)
(** * session.py: history, creation, resumption, expiry, clean-up *)

Section SessionFacts.

Variable json_dumps : json -> string.
Variable json_loads : string -> outcome json.
Variable fromtimestamp : Z -> Z.

(** X5.  [get_history(limit)] on a session whose log loads: a positive
    limit returns the last [limit] entries (all of them when there are
    fewer), in order; a limit of zero returns the whole history, not an
    empty list; a negative limit drops that many entries from the
    front. *)
Theorem get_history_slice :
  forall d s s' limit,
    Session_load json_loads d s = Ok s' ->
    exists h,
      get_history json_loads d s limit = Ok (h, s') /\
      ((0 < limit)%Z ->
       (exists pre, _entries s' = (pre ++ h)%list) /\
       length h = Nat.min (Z.to_nat limit) (length (_entries s'))) /\
      (limit = 0%Z -> h = _entries s') /\
      ((limit < 0)%Z -> h = skipn (Z.to_nat (- limit)) (_entries s')).
Proof.
  intros d s s' limit Hload. unfold get_history. rewrite Hload. simpl.
  eexists. split; [reflexivity|]. unfold slice_from.
  split; [|split].
  - intros Hpos.
    assert (E : (- limit <? 0)%Z = true) by (apply Z.ltb_lt; lia).
    rewrite E. rewrite Z.opp_involutive. split.
    + exists (firstn (length (_entries s') - Z.to_nat limit) (_entries s')).
      symmetry. apply firstn_skipn.
    + rewrite length_skipn. lia.
  - intros ->. reflexivity.
  - intros Hneg.
    assert (E : (- limit <? 0)%Z = false) by (apply Z.ltb_ge; lia).
    rewrite E. reflexivity.
Qed.

(** X6.  [create_session] does not check whether a log of the generated
    id exists.  Whatever records that log holds (none when the id is new),
    the session returned carries the id with the [sess_] prefix, has
    those records followed by a [session_start] entry as its entries and
    the focus those records replay to, and the log gets the one new
    line. *)
Theorem create_session_inherits :
  forall clk suffix d rs0,
    let sid := generate_session_id suffix in
    dir_content sid d = log_text json_dumps (entries_of rs0) ->
    Forall (serialisable json_dumps json_loads) (entries_of rs0) ->
    exists s d',
      create_session json_dumps json_loads clk suffix d = Ok (s, d') /\
      session_id s = sid /\
      startswith sid "sess_" = true /\
      _entries s = (entries_of rs0 ++ [entry_of clk session_start])%list /\
      _project_focus s = last_context_change JNull rs0 /\
      dir_lookup sid d'
      = Some (mkFile (time_ clk)
                (dir_content sid d
                 ++ json_dumps (JDict (entry_of clk session_start)) ++ nl)) /\
      (forall sid', sid' <> sid -> dir_lookup sid' d' = dir_lookup sid' d).
Proof.
  intros clk suffix d rs0 sid Hc Hser.
  destruct (Session_load_log_text json_dumps json_loads rs0 d sid Hc Hser)
    as (s0 & Hl & Hid & Hld & He & Hf).
  unfold create_session. fold sid.
  rewrite (Session_append_ok json_dumps json_loads clk d (Session_init sid)
             _ s0 Hl).
  eexists. eexists. split; [reflexivity|].
  split; [simpl; exact Hid|].
  split; [unfold startswith, sid, generate_session_id, SESSION_ID_PREFIX;
          apply prefix_app_r|].
  split; [simpl; rewrite He; reflexivity|]. split; [simpl; exact Hf|].
  split; [apply dir_lookup_append_same|].
  intros sid' Hne. apply dir_lookup_append_other. exact Hne.
Qed.

Lemma is_expired_lookup :
  forall clk d1 d2 s,
    dir_lookup (session_id s) d1 = dir_lookup (session_id s) d2 ->
    is_expired fromtimestamp clk d1 s = is_expired fromtimestamp clk d2 s.
Proof. intros clk d1 d2 s H. unfold is_expired. rewrite H. reflexivity. Qed.

(** X7.  A session whose log is missing counts as expired.  Expiry is
    judged on the local wall clock alone: a session expired at one
    reading is expired at every reading whose local time is not earlier,
    and a session is live at every reading whose local time is at most
    24 hours past the local time of the last write to its log, whatever
    the instant; so where the local clock is set back, a session that had
    expired can be live again later.  A session just appended to is not
    expired as long as the local time is at most 24 hours past the local
    time of the write. *)
Theorem is_expired_refresh :
  forall clk d s,
    (dir_lookup (session_id s) d = None ->
     is_expired fromtimestamp clk d s = true) /\
    (forall clk',
       (now_ clk <= now_ clk')%Z ->
       is_expired fromtimestamp clk d s = true ->
       is_expired fromtimestamp clk' d s = true) /\
    (forall clk' f,
       dir_lookup (session_id s) d = Some f ->
       (now_ clk' <= fromtimestamp (st_mtime f) + timedelta_hours 24)%Z ->
       is_expired fromtimestamp clk' d s = false) /\
    (forall e s' d' clk',
       Session_append json_dumps json_loads clk d s e = Ok (s', d') ->
       (now_ clk' <= fromtimestamp (time_ clk) + timedelta_hours 24)%Z ->
       is_expired fromtimestamp clk' d' s' = false).
Proof.
  intros clk d s. split; [|split; [|split]].
  - intros H. unfold is_expired. rewrite H. reflexivity.
  - intros clk' Hle. unfold is_expired.
    destruct (dir_lookup (session_id s) d); [|reflexivity].
    intros H. apply Z.gtb_lt in H. apply Z.gtb_lt. lia.
  - intros clk' f Hf Hnow. unfold is_expired. rewrite Hf.
    unfold SESSION_TTL_HOURS.
    destruct (now_ clk' >? fromtimestamp (st_mtime f) + timedelta_hours 24)%Z
      eqn:E; [|reflexivity].
    apply Z.gtb_lt in E. lia.
  - intros e s' d' clk' Happ Hnow.
    unfold Session_append, bind in Happ.
    destruct (Session_load json_loads d s) as [s1|] eqn:Hl; [|discriminate].
    inversion Happ; subst. unfold is_expired. simpl.
    rewrite (Session_load_session_id json_loads _ _ _ Hl).
    rewrite dir_lookup_append_same. simpl.
    unfold SESSION_TTL_HOURS.
    destruct (now_ clk' >? fromtimestamp (time_ clk) + timedelta_hours 24)%Z
      eqn:E; [|reflexivity].
    apply Z.gtb_lt in E. lia.
Qed.


End SessionFacts.

Lemma get_history_slice_witness :
  exists h,
    get_history RefJson.loads sample_dir0 (Session_init "sess_a") 0
    = Ok (h, mkSession "sess_a" (JStr "/tmp/proj") (entries_of sample_history)
               true) /\
    h = entries_of sample_history.
Proof.
  destruct (get_history_slice RefJson.loads sample_dir0 (Session_init "sess_a")
              (mkSession "sess_a" (JStr "/tmp/proj")
                 (entries_of sample_history) true) 0)
    as (h & H1 & _ & H2 & _).
  - vm_compute. reflexivity.
  - exists h. split; [exact H1 | apply H2; reflexivity].
Defined.


Lemma create_session_inherits_witness :
  exists s d',
    create_session RefJson.dumps RefJson.loads clock2 "a" sample_dir0
    = Ok (s, d') /\
    session_id s = "sess_a" /\
    _entries s
    = (entries_of sample_history ++ [entry_of clock2 session_start])%list /\
    _project_focus s = JStr "/tmp/proj".
Proof.
  destruct (create_session_inherits RefJson.dumps RefJson.loads clock2 "a"
              sample_dir0 sample_history)
    as (s & d' & H1 & H2 & _ & H4 & H5 & _).
  - reflexivity.
  - repeat (constructor; [split; vm_compute; reflexivity|]). constructor.
  - exists s, d'. repeat split; assumption.
Defined.

Lemma is_expired_refresh_witness :
  (exists s' d',
     Session_append RefJson.dumps RefJson.loads clock1 sample_dir0
       (Session_init "sess_a") (entry_of clock1 session_resume) = Ok (s', d') /\
     is_expired fall_back clock2 d' s' = false) /\
  (time_ clock_before_change < time_ clock_after_change)%Z /\
  is_expired fall_back clock_before_change sample_dir_change
    (Session_init "sess_x") = true /\
  is_expired fall_back clock_after_change sample_dir_change
    (Session_init "sess_x") = false.
Proof.
  split.
  - assert (Ha : exists s' d',
               Session_append RefJson.dumps RefJson.loads clock1 sample_dir0
                 (Session_init "sess_a") (entry_of clock1 session_resume)
               = Ok (s', d')).
    { eexists. eexists. vm_compute. reflexivity. }
    destruct Ha as (s' & d' & Ha).
    destruct (is_expired_refresh RefJson.dumps RefJson.loads fall_back clock1
                sample_dir0 (Session_init "sess_a")) as (_ & _ & _ & H4).
    exists s', d'. split; [exact Ha|].
    apply (H4 _ s' d' clock2 Ha). vm_compute. discriminate.
  - split; [reflexivity|]. split; [reflexivity|].
    destruct (is_expired_refresh RefJson.dumps RefJson.loads fall_back
                clock_before_change sample_dir_change (Session_init "sess_x"))
      as (_ & _ & H3 & _).
    apply (H3 clock_after_change
             (mkFile (timedelta_hours 75 + minutes 30) sample_log));
      [reflexivity | vm_compute; discriminate].
Defined.


(* ------------------------------------------------------------------ *)
(** ** Clean-up of expired logs *)

Lemma dir_lookup_None_notin :
  forall sid d, dir_lookup sid d = None <-> ~ In sid (map fst d).
Proof.
  intros sid d. induction d as [|[k f] d IH]; simpl.
  - tauto.
  - destruct (k =? sid) eqn:E.
    + apply String.eqb_eq in E. subst. split; [discriminate | tauto].
    + apply String.eqb_neq in E. rewrite IH. tauto.
Qed.

Lemma dir_remove_incl :
  forall sid d x, In x (map fst (dir_remove sid d)) -> In x (map fst d).
Proof.
  intros sid d x. induction d as [|[k f] d IH]; simpl; [tauto|].
  destruct (k =? sid); simpl; tauto.
Qed.

Lemma dir_remove_NoDup :
  forall sid d, NoDup (map fst d) -> NoDup (map fst (dir_remove sid d)).
Proof.
  intros sid d H. induction d as [|[k f] d IH]; simpl; [constructor|].
  simpl in H. inversion H as [|? ? Hk Hd]; subst.
  destruct (k =? sid); [exact Hd|].
  simpl. constructor; [|apply IH; exact Hd].
  intros Hin. apply Hk. eapply dir_remove_incl. exact Hin.
Qed.

Lemma dir_lookup_remove_same :
  forall sid d, NoDup (map fst d) -> dir_lookup sid (dir_remove sid d) = None.
Proof.
  intros sid d H. induction d as [|[k f] d IH]; simpl; [reflexivity|].
  simpl in H. inversion H as [|? ? Hk Hd]; subst.
  destruct (k =? sid) eqn:E.
  - apply String.eqb_eq in E. subst. apply dir_lookup_None_notin. exact Hk.
  - simpl. rewrite E. apply IH. exact Hd.
Qed.

Lemma dir_lookup_remove_other :
  forall sid d sid',
    sid' <> sid -> dir_lookup sid' (dir_remove sid d) = dir_lookup sid' d.
Proof.
  intros sid d sid' Hne. induction d as [|[k f] d IH]; simpl; [reflexivity|].
  destruct (k =? sid) eqn:E.
  - apply String.eqb_eq in E. subst.
    destruct (sid =? sid') eqn:E'; [|reflexivity].
    apply String.eqb_eq in E'. congruence.
  - simpl. destruct (k =? sid'); [reflexivity | exact IH].
Qed.

Section CleanupFacts.

Variable fromtimestamp : Z -> Z.
Variable clk : Clock.

Lemma cleanup_scan_spec :
  forall files d n,
    NoDup files ->
    NoDup (map fst d) ->
    (forall sid,
       dir_lookup sid (snd (cleanup_scan fromtimestamp clk files d n))
       = if existsb (String.eqb sid) files
            && is_expired fromtimestamp clk d (Session_init sid)
         then None else dir_lookup sid d) /\
    fst (cleanup_scan fromtimestamp clk files d n)
    = (n + length (filter (fun sid =>
                     is_expired fromtimestamp clk d (Session_init sid))
                     files))%nat.
Proof.
  induction files as [|sid0 rest IH]; intros d n Hnd Hd.
  - simpl. split; [reflexivity | lia].
  - inversion Hnd as [|? ? Hnotin Hrest]; subst.
    assert (Hother : forall sid, In sid rest ->
              is_expired fromtimestamp clk (dir_remove sid0 d) (Session_init sid)
              = is_expired fromtimestamp clk d (Session_init sid)).
    { intros sid Hin. apply is_expired_lookup. simpl.
      apply dir_lookup_remove_other. intros ->. contradiction. }
    cbn [cleanup_scan filter].
    destruct (is_expired fromtimestamp clk d (Session_init sid0)) eqn:E.
    + destruct (IH (dir_remove sid0 d) (S n) Hrest (dir_remove_NoDup sid0 d Hd))
        as [IH1 IH2].
      split.
      * intros sid. rewrite IH1. cbn [existsb].
        destruct (String.eqb_spec sid sid0) as [->|Hne].
        -- rewrite E. simpl.
           assert (Hex : existsb (String.eqb sid0) rest = false).
           { destruct (existsb (String.eqb sid0) rest) eqn:Ex; [|reflexivity].
             apply has_marker_In in Ex. contradiction. }
           rewrite Hex. simpl. apply dir_lookup_remove_same. exact Hd.
        -- simpl. rewrite (dir_lookup_remove_other sid0 d sid Hne).
           destruct (existsb (String.eqb sid) rest) eqn:Ex; [|reflexivity].
           apply has_marker_In in Ex. rewrite (Hother sid Ex). reflexivity.
      * rewrite IH2. rewrite (filter_ext_in _ _ rest Hother). simpl. lia.
    + destruct (IH d n Hrest Hd) as [IH1 IH2].
      split; [|exact IH2].
      intros sid. rewrite IH1. cbn [existsb].
      destruct (String.eqb_spec sid sid0) as [->|Hne]; [|reflexivity].
      rewrite E. simpl.
      destruct (existsb (String.eqb sid0) rest) eqn:Ex; [|reflexivity].
      apply has_marker_In in Ex. contradiction.
Qed.

Lemma cleanup_scan_live :
  forall files d n,
    Forall (fun sid => is_expired fromtimestamp clk d (Session_init sid) = false)
      files ->
    cleanup_scan fromtimestamp clk files d n = (n, d).
Proof.
  intros files d n H. induction H as [|sid files Hs _ IH]; [reflexivity|].
  simpl. rewrite Hs. exact IH.
Qed.

Lemma glob_sessions_In :
  forall d sid,
    In sid (glob_sessions d) <->
    In sid (map fst d) /\ startswith sid "sess_" = true.
Proof. intros d sid. unfold glob_sessions. rewrite filter_In. tauto. Qed.

(** X9.  In a directory (file names are unique), [cleanup_expired]
    removes exactly the [sess_*] logs that have expired and leaves every
    other file as it was; the count it returns is the number of expired
    [sess_*] logs; and run again on the directory it left, it finds
    nothing to remove. *)
Theorem cleanup_expired_exact :
  forall d,
    NoDup (map fst d) ->
    let r := cleanup_expired fromtimestamp clk d in
    (forall sid,
       dir_lookup sid (snd r)
       = if startswith sid "sess_"
            && is_expired fromtimestamp clk d (Session_init sid)
         then None else dir_lookup sid d) /\
    fst r = length (filter (fun sid =>
                      is_expired fromtimestamp clk d (Session_init sid))
                      (glob_sessions d)) /\
    cleanup_expired fromtimestamp clk (snd r) = (0%nat, snd r).
Proof.
  intros d Hd r.
  assert (Hg : NoDup (glob_sessions d)).
  { unfold glob_sessions. apply NoDup_filter. exact Hd. }
  destruct (cleanup_scan_spec (glob_sessions d) d 0 Hg Hd) as [H1 H2].
  fold (cleanup_expired fromtimestamp clk d) in H1, H2. fold r in H1, H2.
  assert (Hlook : forall sid,
            dir_lookup sid (snd r)
            = if startswith sid "sess_"
                 && is_expired fromtimestamp clk d (Session_init sid)
              then None else dir_lookup sid d).
  { intros sid. rewrite H1.
    destruct (existsb (String.eqb sid) (glob_sessions d)) eqn:Ex.
    - apply has_marker_In, glob_sessions_In in Ex. destruct Ex as [_ Hs].
      rewrite Hs. reflexivity.
    - simpl. destruct (startswith sid "sess_") eqn:Hs; [|reflexivity].
      simpl.
      destruct (is_expired fromtimestamp clk d (Session_init sid)) eqn:E;
        [|reflexivity].
      destruct (dir_lookup sid d) eqn:El; [|reflexivity].
      exfalso.
      assert (Hin : In sid (glob_sessions d)).
      { apply glob_sessions_In. split; [|exact Hs].
        destruct (in_dec string_dec sid (map fst d)) as [Hi|Hi]; [exact Hi|].
        apply dir_lookup_None_notin in Hi. congruence. }
      apply has_marker_In in Hin. congruence. }
  split; [exact Hlook|]. split; [exact H2|].
  unfold cleanup_expired at 1. apply cleanup_scan_live.
  apply Forall_forall. intros sid Hin.
  apply glob_sessions_In in Hin. destruct Hin as [Hin Hs].
  assert (Hsome : dir_lookup sid (snd r) <> None).
  { intros Hn. apply dir_lookup_None_notin in Hn. contradiction. }
  pose proof (Hlook sid) as Hl. rewrite Hs in Hl. simpl in Hl.
  destruct (is_expired fromtimestamp clk d (Session_init sid)) eqn:E;
    [congruence|].
  rewrite <- E. apply is_expired_lookup. simpl. exact Hl.
Qed.

End CleanupFacts.

Lemma cleanup_expired_exact_witness :
  let r := cleanup_expired fall_back clock_late sample_dir in
  fst r = 2%nat /\
  map fst (snd r) = ["sess_mid"] /\
  cleanup_expired fall_back clock_late (snd r) = (0%nat, snd r).
Proof.
  destruct (cleanup_expired_exact fall_back clock_late sample_dir)
    as (_ & H2 & H3).
  - repeat constructor; simpl; intuition discriminate.
  - intros r. split; [exact H2|]. split; [reflexivity | exact H3].
Defined.

(* ================================================================== *)
(** * config.py and tools/base.py: approval table and registry *)

(** X10.  [get_approval_level] answers EXPLICIT for every name that is
    not a registered tool, and for each of the fifteen registered tools
    it answers the level the tool's own metadata declares; the table has
    no entry for anything else. *)
Theorem approval_levels_agree :
  (forall n, ~ In n (map fst REGISTERED_LEVELS) ->
             get_approval_level n = EXPLICIT) /\
  (forall n l, In (n, l) REGISTERED_LEVELS -> get_approval_level n = l) /\
  (forall n, In n (map fst TOOL_APPROVAL_LEVELS) ->
             In n (map fst REGISTERED_LEVELS)).
Proof.
  split; [|split].
  - intros n Hn. unfold get_approval_level, TOOL_APPROVAL_LEVELS.
    cbn [lookup_level].
    repeat match goal with
           | |- context [(?k =? n)] =>
               let E := fresh "E" in
               destruct (k =? n) eqn:E;
               [apply String.eqb_eq in E; subst n; exfalso; apply Hn;
                simpl; tauto|]
           end.
    reflexivity.
  - intros n l H. simpl in H.
    repeat (destruct H as [H | H]; [inversion H; subst; reflexivity|]).
    contradiction.
  - intros n H. simpl in H. simpl.
    repeat (destruct H as [<- | H]; [tauto|]). contradiction.
Qed.

Lemma registry_get_None :
  forall n reg, registry_get n reg = None <-> ~ In n (map fst reg).
Proof.
  intros n reg. induction reg as [|[k t] reg IH]; simpl.
  - tauto.
  - destruct (k =? n) eqn:E.
    + apply String.eqb_eq in E. subst. split; [discriminate | tauto].
    + apply String.eqb_neq in E. rewrite IH. tauto.
Qed.

Lemma registry_get_In :
  forall n t reg,
    NoDup (map fst reg) -> In (n, t) reg -> registry_get n reg = Some t.
Proof.
  intros n t reg Hnd Hin. induction reg as [|[k t'] reg IH]; [contradiction|].
  simpl in Hnd. inversion Hnd as [|? ? Hk Hrest]; subst. simpl.
  destruct Hin as [Heq | Hin].
  - inversion Heq; subst. rewrite String.eqb_refl. reflexivity.
  - destruct (k =? n) eqn:E; [|apply IH; assumption].
    apply String.eqb_eq in E. subst. exfalso. apply Hk.
    apply (in_map fst) in Hin. exact Hin.
Qed.

(** What [register_tool] requires of a tool. *)
Lemma register_tool_ok :
  forall cls t reg reg',
    register_tool cls t reg = Ok reg' <->
    name (metadata t) <> "" /\ description (metadata t) <> "" /\
    ~ In (name (metadata t)) (map fst reg) /\
    reg' = (reg ++ [(name (metadata t), t)])%list.
Proof.
  intros cls t reg reg'. unfold register_tool, validate_metadata, bind.
  destruct (name (metadata t) =? "") eqn:E1.
  { apply String.eqb_eq in E1. split; [discriminate | tauto]. }
  destruct (description (metadata t) =? "") eqn:E2.
  { apply String.eqb_eq in E2. split; [discriminate | tauto]. }
  apply String.eqb_neq in E1, E2.
  destruct (registry_get (name (metadata t)) reg) eqn:E3.
  - split; [discriminate|]. intros (_ & _ & Hn & _).
    apply registry_get_None in Hn. congruence.
  - apply registry_get_None in E3. split.
    + intros H. inversion H. tauto.
    + intros (_ & _ & _ & ->). reflexivity.
Qed.

Lemma register_all_acc :
  forall classes reg reg',
    register_all classes reg = Ok reg' <->
    Forall (fun ct => name (metadata (snd ct)) <> "" /\
                      description (metadata (snd ct)) <> "") classes /\
    NoDup (map (fun ct => name (metadata (snd ct))) classes) /\
    (forall ct, In ct classes ->
                ~ In (name (metadata (snd ct))) (map fst reg)) /\
    reg' = (reg ++ map (fun ct => (name (metadata (snd ct)), snd ct)) classes)%list.
Proof.
  induction classes as [|[cls t] classes IH]; intros reg reg'.
  - simpl. rewrite app_nil_r. split.
    + intros H. inversion H. repeat split; try constructor. intros ct [].
    + intros (_ & _ & _ & ->). reflexivity.
  - cbn [register_all]. unfold bind.
    destruct (register_tool cls t reg) as [reg1|e] eqn:E.
    + apply register_tool_ok in E. destruct E as (E1 & E2 & E3 & ->).
      rewrite IH. simpl. split.
      * intros (HF & HN & HI & ->). split; [constructor; auto|].
        split.
        -- constructor; [|exact HN]. intros Hin.
           apply in_map_iff in Hin. destruct Hin as (ct & Hct & Hin).
           apply (HI ct Hin). rewrite map_app, in_app_iff. right.
           simpl. left. symmetry. exact Hct.
        -- split; [|rewrite <- app_assoc; reflexivity].
           intros ct [<- | Hin]; [exact E3|].
           intros Hr. apply (HI ct Hin). rewrite map_app, in_app_iff. tauto.
      * intros (HF & HN & HI & ->).
        inversion HF as [|? ? Ht HF']; subst.
        inversion HN as [|? ? Hnt HN']; subst.
        split; [exact HF'|]. split; [exact HN'|].
        split; [|rewrite <- app_assoc; reflexivity].
        intros ct Hin Hr. rewrite map_app, in_app_iff in Hr.
        destruct Hr as [Hr | Hr].
        -- apply (HI ct (or_intror Hin)). exact Hr.
        -- simpl in Hr. destruct Hr as [Hr | []].
           apply Hnt. apply in_map_iff. exists ct. split; [auto | exact Hin].
    + split; [discriminate|].
      intros (HF & HN & HI & _). exfalso.
      inversion HF as [|? ? [Ht1 Ht2] HF']; subst. simpl in *.
      assert (Hok : register_tool cls t reg = Ok (reg ++ [(name (metadata t), t)])%list).
      { apply register_tool_ok. repeat split; auto.
        apply (HI (cls, t)). left. reflexivity. }
      congruence.
Qed.

(** X11.  Registering a list of tool classes into the empty registry
    succeeds exactly when every tool has a name and a description and no
    two tools share a name.  The registry then holds the tools in
    registration order under their own names, each name once, and
    [get_tool] finds every one of them and nothing else. *)
Theorem register_all_registry :
  forall classes,
    ((exists reg, register_all classes [] = Ok reg) <->
     Forall (fun ct => name (metadata (snd ct)) <> "" /\
                       description (metadata (snd ct)) <> "") classes /\
     NoDup (map (fun ct => name (metadata (snd ct))) classes)) /\
    (forall reg,
       register_all classes [] = Ok reg ->
       map snd reg = map snd classes /\
       NoDup (map fst reg) /\
       (forall n t, get_tool reg n = Some t <-> In (n, t) reg) /\
       (forall n t, In (n, t) reg -> n = name (metadata t) /\ n <> "")).
Proof.
  intros classes. split.
  - split.
    + intros (reg & H). apply register_all_acc in H. tauto.
    + intros (HF & HN). eexists. apply register_all_acc.
      repeat split; auto.
  - intros reg H. apply register_all_acc in H.
    destruct H as (HF & HN & _ & ->). simpl.
    assert (Hfst : map fst (map (fun ct : string * BaseTool =>
                                   (name (metadata (snd ct)), snd ct)) classes)
                   = map (fun ct => name (metadata (snd ct))) classes).
    { rewrite map_map. reflexivity. }
    split; [rewrite map_map; reflexivity|].
    split; [rewrite Hfst; exact HN|].
    split.
    + intros n t. split.
      * unfold get_tool. generalize (map (fun ct : string * BaseTool =>
                                   (name (metadata (snd ct)), snd ct)) classes).
        intros reg. induction reg as [|[k t'] reg IH]; simpl; [discriminate|].
        destruct (k =? n) eqn:E.
        -- apply String.eqb_eq in E. intros Hs. inversion Hs; subst. tauto.
        -- intros Hs. right. apply IH. exact Hs.
      * intros Hin. apply registry_get_In; [rewrite Hfst; exact HN | exact Hin].
    + intros n t Hin. apply in_map_iff in Hin.
      destruct Hin as (ct & Hct & Hin). inversion Hct; subst.
      rewrite Forall_forall in HF. destruct (HF ct Hin) as [H1 _]. auto.
Qed.

Lemma register_all_registry_witness :
  register_all sample_classes [] = Ok sample_registry /\
  map snd sample_registry = map snd sample_classes /\
  NoDup (map fst sample_registry) /\
  get_tool sample_registry "bash_run" = Some sample_bash.
Proof.
  destruct (register_all_registry sample_classes) as [_ H].
  destruct (H sample_registry eq_refl) as (H1 & H2 & H3 & _).
  split; [reflexivity|]. split; [exact H1|]. split; [exact H2|].
  apply H3. right. left. reflexivity.
Defined.

(* ================================================================== *)
(** * tools/base.py: execution and the response envelope *)

Section ExecFacts.

Variable json_dumps : json -> string.
Variable json_loads : string -> outcome json.

(** X12.  A call that passes validation and the approval gate and is not
    a dry run is executed, and whether [execute] returns or raises,
    exactly one entry is logged after whatever [execute] itself logged:
    an entry of type "tool_call" that names the tool and carries the raw
    parameters, the result or else the class and message of the
    exception, and as its context the focus of the session as [execute]
    left it.  The envelope reports success with the result, or failure
    with the same class and message. *)
Theorem run_executes_and_logs :
  forall clk t raw_params params auto_approve env out env1 s1,
    validate_params t raw_params = Ok params ->
    dry_run params = false ->
    auto_approve = true \/ approval_level (metadata t) <> EXPLICIT ->
    execute t params env = (out, env1) ->
    Session_load json_loads (sessions env1) (session env1) = Ok s1 ->
    exists resp env2 entry,
      run json_dumps json_loads clk t raw_params auto_approve env
      = Ok (resp, env2) /\
      entry = [ ("timestamp", JStr (utcnow_isoformat clk ++ "Z"));
                ("type", JStr "tool_call");
                ("tool", JStr (name (metadata t)));
                ("params", raw_params);
                ("result", match out with Ok r => r | Raise _ => JNull end);
                ("error",
                 match out with
                 | Ok _ => JNull
                 | Raise e => JDict [("type", JStr (exn_class e));
                                     ("message", JStr (exn_msg e))]
                 end);
                ("context",
                 JDict [("project_focus", _project_focus (session env1))]) ] /\
      _entries (session env2) = (_entries s1 ++ [entry])%list /\
      dir_content (session_id (session env1)) (sessions env2)
      = dir_content (session_id (session env1)) (sessions env1)
        ++ json_dumps (JDict entry) ++ nl /\
      context env2 = context env1 /\
      Responses.success resp
      = (match out with Ok _ => true | Raise _ => false end) /\
      Responses.result resp
      = (match out with Ok r => r | Raise _ => JNull end) /\
      option_map (fun e => (Responses.type_ e, Responses.message e))
        (Responses.error resp)
      = (match out with
         | Ok _ => None
         | Raise e => Some (exn_class e, exn_msg e)
         end).
Proof.
  intros clk t raw_params params auto_approve env out env1 s1
         Hvalid Hdry Hgate Hexec Hload.
  unfold run. rewrite Hvalid.
  assert (Hg : negb auto_approve && is_EXPLICIT (approval_level (metadata t))
               = false).
  { destruct Hgate as [-> | Hne]; [reflexivity|].
    destruct (approval_level (metadata t)); try congruence;
      apply andb_false_r. }
  rewrite Hg, Hdry, Hexec.
  destruct out as [r|e].
  - unfold env_log_tool_call, log_tool_call.
    rewrite (Session_append_ok json_dumps json_loads clk (sessions env1)
               (session env1) _ s1 Hload).
    cbn [bind fst snd].
    eexists. eexists. eexists. split; [reflexivity|]. cbn.
    repeat split. apply dir_content_append_same.
  - unfold run_except, env_log_tool_call, log_tool_call.
    rewrite (Session_append_ok json_dumps json_loads clk (sessions env1)
               (session env1) _ s1 Hload).
    cbn [bind fst snd].
    eexists. eexists. eexists. split; [reflexivity|]. cbn.
    repeat split. apply dir_content_append_same.
Qed.

(** X13.  Every envelope [run] returns is well formed: it reports
    success exactly when it carries no error; a failure carries no result
    and is never flagged as a dry run; a dry run is a success that left
    the environment untouched; and the envelope names the tool, its tier
    and the session, with the focus as it was before the call. *)
Theorem run_envelope :
  forall clk t raw_params auto_approve env resp env',
    run json_dumps json_loads clk t raw_params auto_approve env
    = Ok (resp, env') ->
    (Responses.success resp = true <-> Responses.error resp = None) /\
    (Responses.success resp = false ->
     Responses.result resp = JNull /\ Responses.dry_run resp = false) /\
    (Responses.dry_run resp = true ->
     Responses.success resp = true /\ env' = env) /\
    Responses.tool resp = name (metadata t) /\
    Responses.approval_level resp = value (approval_level (metadata t)) /\
    Responses.session_id resp = session_id (session env') /\
    Responses.context resp
    = Responses.mkContextInfo (Context.focus_path_str (context env))
        (Some (session_id (session env))) [].
Proof.
  intros clk t raw_params auto_approve env resp env' H.
  unfold run, run_except, env_log_tool_call, bind in H.
  repeat match type of H with
         | context [match ?x with _ => _ end] => destruct x eqn:?
         end;
    try discriminate; inversion H; subst; cbn;
    repeat split; try discriminate; try reflexivity; try congruence.
Qed.

End ExecFacts.

Lemma run_executes_and_logs_witness :
  let result :=
    JDict [("exit_code", JInt 0); ("stdout", JStr ""); ("stderr", JStr "");
           ("cwd", JNull)] in
  exists resp env2,
    run RefJson.dumps RefJson.loads clock0 sample_bash
      (JDict [("command", JStr "ls")]) true sample_env = Ok (resp, env2) /\
    _entries (session env2)
    = [ [ ("timestamp", JStr "2024-05-01T10:00:00Z");
          ("type", JStr "tool_call");
          ("tool", JStr "bash_run");
          ("params", JDict [("command", JStr "ls")]);
          ("result", result);
          ("error", JNull);
          ("context", JDict [("project_focus", JNull)]) ] ] /\
    Responses.success resp = true.
Proof.
  intros result.
  destruct (run_executes_and_logs RefJson.dumps RefJson.loads clock0
              sample_bash (JDict [("command", JStr "ls")])
              (mkParams false [("command", JStr "ls"); ("timeout", JInt 60);
                               ("cwd", JNull)])
              true sample_env (Ok result)
              sample_env (session sample_env))
    as (resp & env2 & entry & H1 & H2 & H3 & _ & _ & H6 & _);
    [reflexivity | reflexivity | left; reflexivity | reflexivity
     | reflexivity |].
  exists resp, env2. split; [exact H1|].
  split; [rewrite H3, H2; reflexivity | exact H6].
Defined.

Lemma run_envelope_witness :
  exists resp env',
    run RefJson.dumps RefJson.loads clock0 sample_bash
      (JDict [("command", JStr "ls")]) false sample_env = Ok (resp, env') /\
    Responses.tool resp = "bash_run" /\
    Responses.approval_level resp = "explicit".
Proof.
  assert (Hr : exists resp env',
             run RefJson.dumps RefJson.loads clock0 sample_bash
               (JDict [("command", JStr "ls")]) false sample_env
             = Ok (resp, env')).
  { eexists. eexists. vm_compute. reflexivity. }
  destruct Hr as (resp & env' & Hr).
  destruct (run_envelope RefJson.dumps RefJson.loads clock0 sample_bash
              (JDict [("command", JStr "ls")]) false sample_env resp env' Hr)
    as (_ & _ & _ & H4 & H5 & _).
  exists resp, env'. repeat split; assumption.
Defined.

(* ================================================================== *)
(** * agent.py: [execute_tool] *)

Section AgentFacts.

Variable json_dumps : json -> string.
Variable json_loads : string -> outcome json.
Variable exists_ : PurePath -> bool.
Variable is_dir : PurePath -> bool.
Variable model_json_schema : BaseTool -> json.

Lemma tool_names_registry :
  forall reg,
    tool_names model_json_schema reg
    = map (fun kt => JStr (name (metadata (snd kt)))) reg.
Proof.
  intros reg. unfold tool_names, list_tools. rewrite map_map. reflexivity.
Qed.

(** X14.  For a name that is not in the registry, [execute_tool] (on a
    session whose log loads and whose focus is still valid) answers with
    a [ToolNotFound] error envelope of tier "none" that lists the names of
    all registered tools in registration order, and writes nothing to any
    log. *)
Theorem execute_tool_not_found :
  forall reg clk tool_name params s d auto_approve focus s1 ctx,
    get_tool reg tool_name = None ->
    Session_project_focus json_loads d s = Ok (focus, s1) ->
    ProjectContext_init exists_ is_dir focus = Ok ctx ->
    exists resp,
      execute_tool json_dumps json_loads exists_ is_dir model_json_schema
        reg clk tool_name params s d auto_approve
      = Ok (resp, mkEnv s1 ctx d) /\
      Responses.success resp = false /\
      Responses.result resp = JNull /\
      Responses.tool resp = tool_name /\
      Responses.approval_level resp = "none" /\
      Responses.session_id resp = session_id s1 /\
      Responses.error resp
      = Some (Responses.mkErrorDetail "ToolNotFound"
                ("Unknown tool: " ++ tool_name) (Some tool_name)
                [("available_tools",
                  JList (map (fun kt => JStr (name (metadata (snd kt)))) reg))]).
Proof.
  intros reg clk tool_name params s d auto_approve focus s1 ctx Hget Hf Hctx.
  unfold execute_tool. rewrite Hf. cbn [bind fst snd]. rewrite Hctx.
  cbn [bind]. unfold create_tool. rewrite Hget.
  eexists. split; [reflexivity|]. cbn.
  rewrite tool_names_registry. repeat split.
Qed.

(** X15.  When the focus recorded in the session is no longer an
    absolute path of an existing directory, [execute_tool] raises a
    [ValueError] before it looks the tool up: no tool runs on that
    session, [project_focus] included, no envelope is built and nothing is
    logged. *)
Theorem execute_tool_stale_focus :
  forall reg clk tool_name params s d auto_approve p s1,
    Session_project_focus json_loads d s = Ok (JStr p, s1) ->
    p <> "" ->
    is_absolute (Path p) && exists_ (Path p) && is_dir (Path p) = false ->
    exists e,
      execute_tool json_dumps json_loads exists_ is_dir model_json_schema
        reg clk tool_name params s d auto_approve = Raise e /\
      exn_class e = "ValueError".
Proof.
  intros reg clk tool_name params s d auto_approve p s1 Hf Hne Hbad.
  unfold execute_tool. rewrite Hf. cbn [bind fst snd].
  unfold ProjectContext_init. simpl.
  apply String.eqb_neq in Hne. rewrite Hne. simpl.
  unfold set_focus.
  destruct (is_absolute (Path p)); simpl;
    [|eexists; split; reflexivity].
  destruct (exists_ (Path p)); simpl;
    [|eexists; split; reflexivity].
  simpl in Hbad. rewrite Hbad. simpl. eexists; split; reflexivity.
Qed.

End AgentFacts.

Section FocusFacts.

Variable json_dumps : json -> string.
Variable json_loads : string -> outcome json.
Variable exists_ : PurePath -> bool.
Variable is_dir : PurePath -> bool.
Variable model_json_schema : BaseTool -> json.
Variable pydantic_version : string.
Variable get_project_info : string -> outcome json.

Lemma ProjectFocusParams_path :
  forall P,
    startswith P "/" = true ->
    ProjectFocusParams pydantic_version (JDict [("path", JStr P)])
    = Ok (mkParams false [("path", JStr P)]).
Proof.
  intros P H. unfold ProjectFocusParams, dry_run_field, extra_errors.
  cbn. rewrite H. reflexivity.
Qed.

(** What [ProjectFocusTool.execute] does for a path that [set_focus]
    accepts, on a loaded session. *)
Lemma project_focus_execute :
  forall clk_exec P dry env,
    startswith P "/" = true ->
    exists_ (Path P) = true ->
    is_dir (Path P) = true ->
    _loaded (session env) = true ->
    execute (ProjectFocusTool json_dumps json_loads exists_ is_dir
               pydantic_version get_project_info clk_exec)
      (mkParams dry [("path", JStr P)]) env
    = (match get_project_info P with
       | Ok info => Ok (JDict [("focused", JBool true); ("path", JStr P);
                               ("project", info)])
       | Raise e => Raise e
       end,
       mkEnv
         (push_entry (set_project_focus (session env) (JStr P))
            (entry_of clk_exec (context_change (Some P))))
         (mkContext (Some (Path P)))
         (dir_append (time_ clk_exec) (session_id (session env))
            (json_dumps (JDict (entry_of clk_exec (context_change (Some P))))
             ++ nl) (sessions env))).
Proof.
  intros clk_exec P dry env HP Hex Hdir Hl.
  destruct env as [[sid0 f0 es0 l0] ctx0 d0]. simpl in Hl. subst l0. cbn.
  unfold set_focus. rewrite Path_is_absolute, HP, Hex, Hdir. cbn.
  destruct (get_project_info P); reflexivity.
Qed.

(** [project_focus] run through [execute_tool], in terms of the records
    written. *)
Lemma project_focus_run :
  forall reg clk clk_exec sid d rs0 ctx0 P auto_approve,
    get_tool reg "project_focus"
    = Some (ProjectFocusTool json_dumps json_loads exists_ is_dir
              pydantic_version get_project_info clk_exec) ->
    dir_content sid d = log_text json_dumps (entries_of rs0) ->
    ProjectContext_init exists_ is_dir (last_context_change JNull rs0)
    = Ok ctx0 ->
    startswith P "/" = true ->
    exists_ (Path P) = true ->
    is_dir (Path P) = true ->
    let raw := JDict [("path", JStr P)] in
    let out := get_project_info P in
    let new :=
      [ (clk_exec, context_change (Some P));
        (clk, tool_call "project_focus" raw
                (match out with
                 | Ok info => JDict [("focused", JBool true);
                                     ("path", JStr P); ("project", info)]
                 | Raise _ => JNull
                 end)
                (match out with
                 | Ok _ => JNull
                 | Raise e => JDict [("type", JStr (exn_class e));
                                     ("message", JStr (exn_msg e))]
                 end)
                (JStr P)) ] in
    Forall (serialisable json_dumps json_loads) (entries_of (rs0 ++ new)) ->
    exists resp env' s'',
      execute_tool json_dumps json_loads exists_ is_dir model_json_schema
        reg clk "project_focus" raw (Session_init sid) d auto_approve
      = Ok (resp, env') /\
      Responses.success resp
      = (match out with Ok _ => true | Raise _ => false end) /\
      Responses.project (Responses.context resp) = Some (str (Path P)) /\
      _entries (session env') = entries_of (rs0 ++ new) /\
      dir_content sid (sessions env')
      = log_text json_dumps (entries_of (rs0 ++ new)) /\
      Session_project_focus json_loads (sessions env') (Session_init sid)
      = Ok (JStr P, s'').
Proof.
  intros reg clk clk_exec sid d rs0 ctx0 P auto_approve
         Hget Hc Hctx HP Hex Hdir raw out new Hser.
  assert (Hser0 : Forall (serialisable json_dumps json_loads) (entries_of rs0)).
  { unfold entries_of in *. rewrite map_app in Hser.
    apply Forall_app in Hser. tauto. }
  destruct (Session_load_log_text json_dumps json_loads rs0 d sid Hc Hser0)
    as (s0 & Hl0 & Hid & Hld & He0 & Hf0).
  assert (Hcontent :
    forall d',
      dir_content sid d'
      = dir_content sid d
        ++ (json_dumps (JDict (entry_of clk_exec (context_change (Some P))))
            ++ nl)
        ++ json_dumps (JDict (snd (stamped (clk, snd (List.last new (clk, session_start))))))
        ++ nl ->
      dir_content sid d' = log_text json_dumps (entries_of (rs0 ++ new)) /\
      exists s'',
        Session_project_focus json_loads d' (Session_init sid)
        = Ok (JStr P, s'')).
  { intros d' Hd'.
    assert (Hlog : dir_content sid d'
                   = log_text json_dumps (entries_of (rs0 ++ new))).
    { rewrite Hd', Hc. unfold entries_of. rewrite map_app, log_text_app.
      cbn. rewrite !str_app_assoc, str_app_nil_r. reflexivity. }
    split; [exact Hlog|].
    destruct (Session_load_log_text json_dumps json_loads (rs0 ++ new) d' sid
                Hlog Hser) as (s'' & Hl'' & _ & _ & _ & Hf'').
    exists s''. unfold Session_project_focus. rewrite Hl''. cbn.
    rewrite Hf'', last_context_change_app. reflexivity. }
  unfold execute_tool, Session_project_focus.
  rewrite Hl0. cbn [bind fst snd]. rewrite Hf0, Hctx. cbn [bind].
  unfold create_tool. rewrite Hget.
  set (T := ProjectFocusTool json_dumps json_loads exists_ is_dir
              pydantic_version get_project_info clk_exec).
  assert (Hv : validate_params T raw = Ok (mkParams false [("path", JStr P)]))
    by (apply ProjectFocusParams_path; exact HP).
  assert (Hlev : approval_level (metadata T) = AUTO) by reflexivity.
  assert (Hname : name (metadata T) = "project_focus") by reflexivity.
  pose proof (project_focus_execute clk_exec P false (mkEnv s0 ctx0 d)
                HP Hex Hdir Hld) as Hexec.
  fold T in Hexec. fold out in Hexec. cbn [session sessions context] in Hexec.
  rewrite Hid in Hexec.
  unfold run. rewrite Hv, Hlev, Hname.
  cbn [is_EXPLICIT andb negb dry_run value]. rewrite andb_false_r.
  rewrite Hexec.
  set (S1 := push_entry (set_project_focus s0 (JStr P))
               (entry_of clk_exec (context_change (Some P)))).
  assert (Hld1 : Session_load json_loads
                   (dir_append (time_ clk_exec) sid
                      (json_dumps (JDict (entry_of clk_exec
                         (context_change (Some P)))) ++ nl) d) S1 = Ok S1)
    by (apply Session_load_loaded; exact Hld).
  assert (Hid1 : session_id S1 = sid) by exact Hid.
  destruct out as [info|e] eqn:Eout.
  - unfold env_log_tool_call, log_tool_call. cbn [session sessions context].
    rewrite (Session_append_ok json_dumps json_loads clk _ _ _ _ Hld1).
    cbn [bind fst snd]. rewrite Hid1.
    destruct (Hcontent
                (dir_append (time_ clk) sid
                   (json_dumps (JDict (entry_of clk
                      (tool_call "project_focus" raw
                         (JDict [("focused", JBool true); ("path", JStr P);
                                 ("project", info)]) JNull (JStr P)))) ++ nl)
                   (dir_append (time_ clk_exec) sid
                      (json_dumps (JDict (entry_of clk_exec
                         (context_change (Some P)))) ++ nl) d)))
      as (Hlog & s'' & Hre).
    { rewrite !dir_content_append_same, !str_app_assoc. reflexivity. }
    eexists. eexists. exists s''. split; [reflexivity|].
    cbn. repeat split; try assumption.
    rewrite He0. unfold entries_of. rewrite map_app, <- app_assoc.
    reflexivity.
  - unfold run_except, env_log_tool_call, log_tool_call.
    cbn [session sessions context].
    rewrite (Session_append_ok json_dumps json_loads clk _ _ _ _ Hld1).
    cbn [bind fst snd]. rewrite Hid1.
    destruct (Hcontent
                (dir_append (time_ clk) sid
                   (json_dumps (JDict (entry_of clk
                      (tool_call "project_focus" raw JNull
                         (JDict [("type", JStr (exn_class e));
                                 ("message", JStr (exn_msg e))])
                         (JStr P)))) ++ nl)
                   (dir_append (time_ clk_exec) sid
                      (json_dumps (JDict (entry_of clk_exec
                         (context_change (Some P)))) ++ nl) d)))
      as (Hlog & s'' & Hre).
    { rewrite !dir_content_append_same, !str_app_assoc. reflexivity. }
    eexists. eexists. exists s''. split; [reflexivity|].
    cbn. repeat split; try assumption.
    rewrite He0. unfold entries_of. rewrite map_app, <- app_assoc.
    reflexivity.
Qed.

(** X16.  [project_focus] makes the new focus last.  Run through
    [execute_tool] with a path [P] of an existing directory, on a session
    whose log holds the records [rs0], it adds two entries to the session
    and, as two lines, to its log: an entry of type "context_change"
    whose context is the focus [P], and then its own entry of type
    "tool_call", with the raw parameters, the result or the error, and a
    context that is already the focus [P].  The envelope shows as its
    context the new focus as pathlib prints it, [str(Path(P))]; and a
    session reloaded from the log has the focus [P], also when the survey
    of the directory raised and the envelope reports a failure. *)
Theorem project_focus_persists :
  forall reg clk clk_exec sid d rs0 ctx0 P auto_approve,
    get_tool reg "project_focus"
    = Some (ProjectFocusTool json_dumps json_loads exists_ is_dir
              pydantic_version get_project_info clk_exec) ->
    dir_content sid d = log_text json_dumps (entries_of rs0) ->
    ProjectContext_init exists_ is_dir (last_context_change JNull rs0)
    = Ok ctx0 ->
    startswith P "/" = true ->
    exists_ (Path P) = true ->
    is_dir (Path P) = true ->
    let raw := JDict [("path", JStr P)] in
    let out := get_project_info P in
    let change : SessionEntry :=
      [ ("timestamp", JStr (utcnow_isoformat clk_exec ++ "Z"));
        ("type", JStr "context_change");
        ("tool", JNull); ("params", JNull); ("result", JNull);
        ("error", JNull);
        ("context", JDict [("project_focus", JStr P)]) ] in
    let call : SessionEntry :=
      [ ("timestamp", JStr (utcnow_isoformat clk ++ "Z"));
        ("type", JStr "tool_call");
        ("tool", JStr "project_focus");
        ("params", raw);
        ("result",
         match out with
         | Ok info => JDict [("focused", JBool true);
                             ("path", JStr P); ("project", info)]
         | Raise _ => JNull
         end);
        ("error",
         match out with
         | Ok _ => JNull
         | Raise e => JDict [("type", JStr (exn_class e));
                             ("message", JStr (exn_msg e))]
         end);
        ("context", JDict [("project_focus", JStr P)]) ] in
    Forall (serialisable json_dumps json_loads)
      (entries_of rs0 ++ [change; call]) ->
    exists resp env' s'',
      execute_tool json_dumps json_loads exists_ is_dir model_json_schema
        reg clk "project_focus" raw (Session_init sid) d auto_approve
      = Ok (resp, env') /\
      Responses.success resp
      = (match out with Ok _ => true | Raise _ => false end) /\
      Responses.project (Responses.context resp) = Some (str (Path P)) /\
      _entries (session env') = (entries_of rs0 ++ [change; call])%list /\
      dir_content sid (sessions env')
      = log_text json_dumps (entries_of rs0 ++ [change; call]) /\
      Session_project_focus json_loads (sessions env') (Session_init sid)
      = Ok (JStr P, s'').
Proof.
  intros reg clk clk_exec sid d rs0 ctx0 P auto_approve
         Hget Hc Hctx HP Hex Hdir raw out change call Hser.
  pose (new :=
      [ (clk_exec, context_change (Some P));
        (clk, tool_call "project_focus" raw
                (match out with
                 | Ok info => JDict [("focused", JBool true);
                                     ("path", JStr P); ("project", info)]
                 | Raise _ => JNull
                 end)
                (match out with
                 | Ok _ => JNull
                 | Raise e => JDict [("type", JStr (exn_class e));
                                     ("message", JStr (exn_msg e))]
                 end)
                (JStr P)) ]).
  assert (Hnew : entries_of (rs0 ++ new)
                 = (entries_of rs0 ++ [change; call])%list).
  { unfold entries_of. rewrite map_app. reflexivity. }
  rewrite <- Hnew in Hser.
  destruct (project_focus_run reg clk clk_exec sid d rs0 ctx0 P auto_approve
              Hget Hc Hctx HP Hex Hdir Hser)
    as (resp & env' & s'' & H1 & H2 & H3 & H4 & H5 & H6).
  exists resp, env', s''. rewrite <- Hnew.
  repeat split; assumption.
Qed.

End FocusFacts.

Lemma execute_tool_not_found_witness :
  exists resp,
    execute_tool RefJson.dumps RefJson.loads sample_fs sample_fs
      (fun _ => JNull) sample_registry clock2 "file_delete" (JDict [])
      (Session_init "sess_b") [] false
    = Ok (resp, mkEnv (set_loaded (Session_init "sess_b")) (mkContext None) []) /\
    Responses.error resp
    = Some (Responses.mkErrorDetail "ToolNotFound" "Unknown tool: file_delete"
              (Some "file_delete")
              [("available_tools",
                JList [JStr "project_focus"; JStr "bash_run"])]).
Proof.
  destruct (execute_tool_not_found RefJson.dumps RefJson.loads sample_fs
              sample_fs (fun _ => JNull) sample_registry clock2 "file_delete"
              (JDict []) (Session_init "sess_b") [] false JNull
              (set_loaded (Session_init "sess_b")) (mkContext None)
              eq_refl eq_refl eq_refl)
    as (resp & H1 & _ & _ & _ & _ & _ & H7).
  exists resp. split; assumption.
Defined.

Lemma execute_tool_stale_focus_witness :
  exists e,
    execute_tool RefJson.dumps RefJson.loads sample_fs sample_fs
      (fun _ => JNull) sample_registry clock2 "project_focus"
      (JDict [("path", JStr "/srv/app")]) (Session_init "sess_a")
      sample_dir0 false = Raise e /\
    exn_class e = "ValueError".
Proof.
  apply (execute_tool_stale_focus RefJson.dumps RefJson.loads sample_fs
           sample_fs (fun _ => JNull) sample_registry clock2 "project_focus"
           (JDict [("path", JStr "/srv/app")]) (Session_init "sess_a")
           sample_dir0 false "/tmp/proj"
           (mkSession "sess_a" (JStr "/tmp/proj") (entries_of sample_history)
              true)).
  - vm_compute. reflexivity.
  - discriminate.
  - reflexivity.
Defined.

Lemma project_focus_persists_witness :
  exists resp env' s'',
    execute_tool RefJson.dumps RefJson.loads sample_fs sample_fs
      (fun _ => JNull) sample_registry clock2 "project_focus"
      (JDict [("path", JStr "/srv/app")]) (Session_init "sess_b") [] false
    = Ok (resp, env') /\
    Responses.success resp = true /\
    Responses.project (Responses.context resp) = Some "/srv/app" /\
    _entries (session env')
    = [ [ ("timestamp", JStr "2024-05-01T10:00:01Z");
          ("type", JStr "context_change");
          ("tool", JNull); ("params", JNull); ("result", JNull);
          ("error", JNull);
          ("context", JDict [("project_focus", JStr "/srv/app")]) ];
        [ ("timestamp", JStr "2024-05-01T10:00:02Z");
          ("type", JStr "tool_call");
          ("tool", JStr "project_focus");
          ("params", JDict [("path", JStr "/srv/app")]);
          ("result",
           JDict [("focused", JBool true); ("path", JStr "/srv/app");
                  ("project", JDict [("path", JStr "/srv/app");
                                     ("exists", JBool true)])]);
          ("error", JNull);
          ("context", JDict [("project_focus", JStr "/srv/app")]) ] ] /\
    Session_project_focus RefJson.loads (sessions env') (Session_init "sess_b")
    = Ok (JStr "/srv/app", s'').
Proof.
  destruct (project_focus_persists RefJson.dumps RefJson.loads sample_fs
              sample_fs (fun _ => JNull) "2.11"
              (fun path => Ok (JDict [("path", JStr path);
                                      ("exists", JBool true)]))
              sample_registry clock2 clock1 "sess_b" [] [] (mkContext None)
              "/srv/app" false eq_refl eq_refl eq_refl eq_refl eq_refl eq_refl)
    as (resp & env' & s'' & H1 & H2 & H3 & H4 & _ & H6).
  - repeat (constructor; [split; vm_compute; reflexivity|]). constructor.
  - exists resp, env', s''. repeat split; assumption.
Defined.

(* ================================================================== *)
(** * context.py: more on resolution *)

Lemma names_of_map_Name : forall l, names_of (map Name l) = l.
Proof.
  induction l as [|x l IH]; [reflexivity|].
  cbn [map names_of flat_map app]. fold (names_of (map Name l)).
  rewrite IH. reflexivity.
Qed.

Lemma normpath_wf :
  forall rest acc,
    forallb wf_component acc = true ->
    Forall (fun x => str_contains "/" x = false) rest ->
    forallb wf_component (normpath acc rest) = true.
Proof.
  induction rest as [|x rest IH]; intros acc Hacc Hrest.
  - simpl. apply forallb_forall. intros y Hy. apply in_rev in Hy.
    rewrite forallb_forall in Hacc. apply Hacc. exact Hy.
  - inversion Hrest as [|? ? Hx Hrest']; subst. cbn [normpath].
    destruct (x =? "") eqn:E1; [exact (IH _ Hacc Hrest')|].
    destruct (x =? ".") eqn:E2; [exact (IH _ Hacc Hrest')|]. cbn [orb].
    destruct (x =? "..").
    + refine (IH _ _ Hrest').
      destruct acc as [|a acc]; [reflexivity|].
      cbn [forallb] in Hacc. apply andb_true_iff in Hacc. apply Hacc.
    + refine (IH _ _ Hrest'). cbn [forallb]. rewrite Hacc.
      unfold wf_component, is_fieldb. rewrite E1, E2, Hx. reflexivity.
Qed.

Section SlashFree.

Variable fs : FileSystem.

(** The components of what the walk returns hold no slash. *)
Lemma realpath_walk_slash_free :
  forall items seen acc,
    Forall (fun x => str_contains "/" x = false) acc ->
    Forall (fun x => str_contains "/" x = false) (names_of items) ->
    (forall k c, In (k, Some c) seen ->
                 Forall (fun x => str_contains "/" x = false) c) ->
    match realpath_walk fs seen acc items with
    | Finished a => Forall (fun x => str_contains "/" x = false) a
    | Loop _ => True
    | Follow a items' seen' =>
        Forall (fun x => str_contains "/" x = false) a /\
        Forall (fun x => str_contains "/" x = false) (names_of items') /\
        (forall k c, In (k, Some c) seen' ->
                     Forall (fun x => str_contains "/" x = false) c)
    | Failed _ => True
    end.
Proof.
  induction items as [|[name|key] items IH]; intros seen acc Hacc Hitems Hseen;
    cbn [realpath_walk]; [exact Hacc | |].
  - cbn [names_of flat_map app] in Hitems.
    inversion Hitems as [|? ? Hn Hrest]; subst.
    fold (names_of items) in Hrest.
    destruct ((name =? "") || (name =? ".")); [exact (IH _ _ Hacc Hrest Hseen)|].
    destruct (name =? "..").
    { apply IH; [|exact Hrest | exact Hseen].
      destruct acc; [constructor | inversion Hacc; assumption]. }
    destruct (str_contains NUL name); [exact I|].
    destruct (readlink fs (rev (name :: acc))) as [target|] eqn:El;
      [|apply IH; [constructor; assumption | exact Hrest | exact Hseen]].
    destruct (seen_get (rev (name :: acc)) seen) as [[cached|]|] eqn:Es.
    + destruct (seen_get_In _ _ _ Es) as (k' & Hin).
      apply IH; [exact (Hseen _ _ Hin) | exact Hrest | exact Hseen].
    + exact I.
    + split; [destruct (startswith target "/"); [constructor | exact Hacc]|].
      split.
      * unfold names_of. rewrite flat_map_app. apply Forall_app. split.
        -- assert (Hs : flat_map (fun i => match i with
                                             | Name s => [s]
                                             | Resolved _ => []
                                             end)
                           (map Name (split_slash target))
                         = split_slash target).
           { induction (split_slash target) as [|x l IHl]; [reflexivity|].
             simpl. rewrite IHl. reflexivity. }
           rewrite Hs. apply Forall_forall. intros x Hx.
           pose proof (split_slash_no_slash target) as Hns.
           rewrite forallb_forall in Hns. specialize (Hns x Hx).
           apply negb_true_iff in Hns. exact Hns.
        -- exact Hrest.
      * intros k c Hin. apply seen_set_In in Hin.
        destruct Hin as [Hv | Hin]; [discriminate | exact (Hseen _ _ Hin)].
  - apply IH; [exact Hacc | exact Hitems|].
    intros k c Hin. apply seen_set_In in Hin.
    destruct Hin as [Hv | Hin]; [inversion Hv; subst; exact Hacc|].
    exact (Hseen _ _ Hin).
Qed.

Lemma joinrealpath_slash_free :
  forall budget seen acc items r,
    Forall (fun x => str_contains "/" x = false) acc ->
    Forall (fun x => str_contains "/" x = false) (names_of items) ->
    (forall k c, In (k, Some c) seen ->
                 Forall (fun x => str_contains "/" x = false) c) ->
    joinrealpath budget fs seen acc items = Ok r ->
    Forall (fun x => str_contains "/" x = false) (tail (fst r)).
Proof.
  assert (Hsplit : forall raw,
            Forall (fun x => str_contains "/" x = false) (split_slash raw)).
  { intros raw. apply Forall_forall. intros x Hx.
    pose proof (split_slash_no_slash raw) as Hns.
    rewrite forallb_forall in Hns. specialize (Hns x Hx).
    apply negb_true_iff in Hns. exact Hns. }
  induction budget as [|budget IH]; intros seen acc items r Hacc Hitems Hseen H;
    cbn [joinrealpath] in H;
    pose proof (realpath_walk_slash_free items seen acc Hacc Hitems Hseen) as Hk;
    destruct (realpath_walk fs seen acc items) as [a|raw|a its sn|e'];
    try discriminate;
    try (inversion H; subst; cbn [fst tail];
         first [apply Forall_rev; exact Hk | apply Hsplit]).
  destruct Hk as (Ha & Hi & Hs). exact (IH _ _ _ _ Ha Hi Hs H).
Qed.


End SlashFree.

(** Under a focus as [set_focus] stores it, what [resolve_path] returns
    is absolute and well formed. *)
Lemma resolve_path_result :
  forall fs cwd ctx path r,
    (forall f, _focus_path ctx = Some f ->
               wf_path f = true /\ is_absolute f = true) ->
    resolve_path fs cwd ctx path = Ok r ->
    wf_path r = true /\ is_absolute r = true.
Proof.
  intros fs cwd ctx path r Hfocus H.
  unfold resolve_path in H.
  destruct (is_absolute (Path path)) eqn:E.
  - inversion H; subst. split; [apply Path_wf | exact E].
  - destruct (_focus_path ctx) as [f|] eqn:Hf; [|discriminate].
    destruct (Hfocus f eq_refl) as [Hwf Habs].
    unfold resolve, truediv, bind in H. rewrite E in H.
    assert (Ha : is_absolute
                   {| root := root f; tail := tail f ++ tail (Path path) |}
                 = true) by exact Habs.
    rewrite Ha in H. cbn [tail] in H.
    destruct (joinrealpath (length fs) fs [] []
                (map Name (tail f ++ tail (Path path)))) as [jr|] eqn:Hw;
      [|discriminate].
    destruct (existsb _ _); [discriminate|].
    destruct (stat_eloop _ _ _ _); [discriminate|].
    inversion H; subst.
    split; [|exact (joinrealpath_absolute _ _ _ _ _ _ Hw)].
    unfold wf_path. cbn [root tail].
    destruct (joinrealpath_root _ _ _ _ _ _ Hw) as [-> | ->]; cbn [orb andb].
    all: apply normpath_wf; [reflexivity|].
    all: apply (joinrealpath_slash_free fs _ _ _ _ jr (Forall_nil _)) in Hw;
      [exact Hw | | intros k c []].
    all: rewrite names_of_map_Name.
    all: unfold wf_path in Hwf; apply andb_true_iff in Hwf.
    all: destruct Hwf as [_ Hwf].
    all: pose proof (Path_wf path) as Hp; unfold wf_path in Hp.
    all: apply andb_true_iff in Hp; destruct Hp as [_ Hp].
    all: apply Forall_forall; intros x Hx.
    all: assert (Hw' : forallb wf_component (tail f ++ tail (Path path)) = true)
      by (rewrite forallb_app, Hwf, Hp; reflexivity).
    all: rewrite forallb_forall in Hw'.
    all: apply (wf_component_inv x (Hw' x Hx)).
Qed.

(** X17.  [resolve_path] is idempotent: under a focus as [set_focus]
    stores it (absolute and well formed), the text of a resolved path
    resolves to the same path again, whatever the working directory and
    the file system. *)
Theorem resolve_path_idempotent :
  forall fs fs' cwd cwd' ctx path r,
    (forall f, _focus_path ctx = Some f ->
               wf_path f = true /\ is_absolute f = true) ->
    resolve_path fs cwd ctx path = Ok r ->
    resolve_path fs' cwd' ctx (str r) = Ok r.
Proof.
  intros fs fs' cwd cwd' ctx path r Hfocus H.
  destruct (resolve_path_result fs cwd ctx path r Hfocus H) as [Hwf Habs].
  unfold resolve_path. rewrite (Path_str r Hwf), Habs. reflexivity.
Qed.

Lemma resolve_path_idempotent_witness :
  resolve_path [] [] (mkContext (Some (Path "/tmp/vlinks")))
    (str (mkPath "/" ["etc"; "hosts"]))
  = Ok (mkPath "/" ["etc"; "hosts"]).
Proof.
  apply (resolve_path_idempotent sample_links [] ["home"] [] _
           "../vlinks/link/./hosts").
  - intros f Hf. inversion Hf. split; reflexivity.
  - reflexivity.
Defined.

(** X18.  A relative path without ".." never leaves the focus, unless
    through a symbolic link: under a focus set from a path with a single
    leading slash and no "..", where no component of the focus or of the
    path under it is a symbolic link, [is_within_focus] answers True for
    it, and so it does for the text of the path it resolves to. *)
Theorem is_within_focus_relative :
  forall fs cwd focus path,
    root (Path focus) = "/" ->
    no_dotdot (Path focus) = true ->
    posix_string focus = true ->
    is_absolute (Path path) = false ->
    no_dotdot (Path path) = true ->
    posix_string path = true ->
    link_free fs [] (tail (Path focus) ++ tail (Path path)) = true ->
    let ctx := mkContext (Some (Path focus)) in
    is_within_focus fs cwd ctx path = Ok true /\
    exists r, resolve_path fs cwd ctx path = Ok r /\
              is_relative_to r (Path focus) = true /\
              is_within_focus fs cwd ctx (str r) = Ok true.
Proof.
  intros fs cwd focus path Hroot Hdd Hpx Hrel Hdd' Hpx' Hfree ctx.
  pose proof (Path_wf focus) as Hwf. pose proof (Path_wf path) as Hwf'.
  assert (Habs : is_absolute (Path focus) = true).
  { unfold is_absolute. rewrite Hroot. reflexivity. }
  assert (Hres : resolve_path fs cwd ctx path
                 = Ok (mkPath "/" (tail (Path focus) ++ tail (Path path)))).
  { unfold no_dotdot in Hdd, Hdd'.
    apply Path_posix in Hpx, Hpx'. unfold posix_path in Hpx, Hpx'.
    unfold wf_path in Hwf, Hwf'.
    apply andb_true_iff in Hwf, Hwf'.
    destruct Hwf as [_ Hwf]. destruct Hwf' as [_ Hwf'].
    unfold resolve_path, ctx. rewrite Hrel. cbn [_focus_path].
    unfold truediv. rewrite Hrel.
    rewrite resolve_link_free; [| exact Habs | exact Hfree |].
    - cbn [tail]. rewrite (normpath_plain _ []); [reflexivity|].
      apply wf_plain; rewrite forallb_app;
        [rewrite Hwf, Hwf' | rewrite Hdd, Hdd']; reflexivity.
    - unfold posix_path. cbn [tail]. rewrite forallb_app, Hpx, Hpx'.
      reflexivity. }
  set (r := mkPath "/" (tail (Path focus) ++ tail (Path path))) in *.
  assert (Hunder : is_relative_to r (Path focus) = true).
  { unfold is_relative_to, parts, r. rewrite Hroot. simpl.
    apply list_prefixb_app. }
  split; [exact (is_within_focus_under fs cwd _ path r Habs Hres Hunder)|].
  exists r. split; [exact Hres|]. split; [exact Hunder|].
  apply (is_within_focus_under fs cwd _ (str r) r Habs); [|exact Hunder].
  destruct (resolve_path_result fs cwd ctx path r) as [Hwfr Habsr];
    [|exact Hres|].
  - intros f Hf. inversion Hf; subst. split; [apply Path_wf | exact Habs].
  - unfold resolve_path. rewrite (Path_str r Hwfr), Habsr. reflexivity.
Qed.

Lemma is_within_focus_relative_witness :
  is_within_focus sample_links ["home"] (mkContext (Some (Path "/srv/app")))
    "src//x.py"
  = Ok true /\
  exists r,
    resolve_path sample_links ["home"] (mkContext (Some (Path "/srv/app")))
      "src//x.py"
    = Ok r /\
    is_relative_to r (Path "/srv/app") = true /\
    is_within_focus sample_links ["home"] (mkContext (Some (Path "/srv/app")))
      (str r)
    = Ok true.
Proof.
  apply (is_within_focus_relative sample_links ["home"] "/srv/app" "src//x.py");
    reflexivity.
Defined.

(* ================================================================== *)
(** * session.py: the session in memory and the replay of its log *)

Section CallFacts.

Variable json_dumps : json -> string.
Variable json_loads : string -> outcome json.

(** One logging call on a loaded session. *)
Lemma session_call_loaded :
  forall clk d sid F E c,
    session_call json_dumps json_loads clk d (mkSession sid F E true) c
    = Ok (mkSession sid (focus_after_call F c)
            (E ++ [entry_of clk (record_of_call F c)]) true,
          dir_append (time_ clk) sid
            (json_dumps (JDict (entry_of clk (record_of_call F c))) ++ nl) d).
Proof. intros clk d sid F E [t p r e | f]; reflexivity. Qed.

Lemma last_context_change_snoc :
  forall rs acc clk F c,
    last_context_change acc rs = F ->
    last_context_change acc (rs ++ [(clk, record_of_call F c)])
    = focus_after_call F c.
Proof.
  intros rs acc clk F c H. rewrite last_context_change_app, H.
  destruct c; reflexivity.
Qed.

Lemma session_calls_loaded :
  forall sid cs d rs0,
    dir_content sid d = log_text json_dumps (entries_of rs0) ->
    let rs := records_of_calls (last_context_change JNull rs0) cs in
    exists d',
      session_calls json_dumps json_loads d
        (mkSession sid (last_context_change JNull rs0) (entries_of rs0) true)
        cs
      = Ok (mkSession sid (last_context_change JNull (rs0 ++ rs))
              (entries_of (rs0 ++ rs)) true, d') /\
      dir_content sid d' = log_text json_dumps (entries_of (rs0 ++ rs)) /\
      (forall sid', sid' <> sid -> dir_lookup sid' d' = dir_lookup sid' d).
Proof.
  intros sid. induction cs as [|[clk c] cs IH]; intros d rs0 Hc rs.
  - exists d. subst rs. simpl. rewrite app_nil_r. repeat split. exact Hc.
  - subst rs. cbn [records_of_calls session_calls].
    rewrite session_call_loaded. cbn [bind fst snd].
    set (F := last_context_change JNull rs0).
    set (rec := (clk, record_of_call F c)).
    set (d1 := dir_append (time_ clk) sid
                 (json_dumps (JDict (entry_of clk (record_of_call F c))) ++ nl)
                 d).
    assert (HF : last_context_change JNull (rs0 ++ [rec])
                 = focus_after_call F c)
      by (apply last_context_change_snoc; reflexivity).
    assert (HE : entries_of (rs0 ++ [rec])
                 = (entries_of rs0 ++ [entry_of clk (record_of_call F c)])%list).
    { unfold entries_of. rewrite map_app. reflexivity. }
    assert (Hc1 : dir_content sid d1
                  = log_text json_dumps (entries_of (rs0 ++ [rec]))).
    { unfold d1. rewrite dir_content_append_same, Hc, HE, log_text_app.
      simpl. rewrite str_app_nil_r. reflexivity. }
    destruct (IH d1 (rs0 ++ [rec])%list Hc1) as (d' & Hrun & Hc' & Ho).
    rewrite HF, HE in Hrun. rewrite HF in Hc'.
    rewrite <- !app_assoc in Hrun, Hc'. cbn [app] in Hrun, Hc'.
    exists d'. split; [exact Hrun|]. split; [exact Hc'|].
    intros sid' Hne. rewrite (Ho sid' Hne).
    apply dir_lookup_append_other. exact Hne.
Qed.

Lemma records_of_calls_app :
  forall pre post F,
    records_of_calls F (pre ++ post)
    = (records_of_calls F pre
       ++ records_of_calls
            (fold_left (fun F c => focus_after_call F (snd c)) pre F) post)%list.
Proof.
  induction pre as [|[clk c] pre IH]; intros post F; [reflexivity|].
  cbn [app records_of_calls fold_left snd]. rewrite IH. reflexivity.
Qed.

Lemma records_of_calls_length :
  forall cs F, length (records_of_calls F cs) = length cs.
Proof.
  induction cs as [|[clk c] cs IH]; intros F; [reflexivity|].
  cbn [records_of_calls length]. rewrite IH. reflexivity.
Qed.

(** The entry at the place of a call, in the entries of the old records
    followed by the records of the calls. *)
Lemma entries_of_call :
  forall rs0 F pre clk c post,
    nth_error
      (entries_of (rs0 ++ records_of_calls F (pre ++ (clk, c) :: post)))
      (length rs0 + length pre)
    = Some (entry_of clk
              (record_of_call
                 (fold_left (fun F c => focus_after_call F (snd c)) pre F) c)).
Proof.
  intros rs0 F pre clk c post. unfold entries_of.
  rewrite records_of_calls_app, !map_app.
  rewrite nth_error_app2 by (rewrite length_map; lia).
  rewrite length_map.
  replace (length rs0 + length pre - length rs0) with (length pre) by lia.
  rewrite nth_error_app2
    by (rewrite length_map, records_of_calls_length; lia).
  rewrite length_map, records_of_calls_length, Nat.sub_diag.
  reflexivity.
Qed.

(** X19.  The session in memory is the replay of its log.  Load a
    session from a log of records [rs0] and make any sequence of
    [log_tool_call] and [log_context_change] calls on it: every call
    succeeds, the log holds the lines of [rs0] followed by one line per
    call, no other log changes, and loading the log afresh gives exactly
    the session the calls left in memory.  The entry of each call stands
    at the place of the call: for [log_tool_call] an entry of type
    "tool_call" with the tool, the parameters, the result, the error and,
    as its context, the focus of the last [log_context_change] before it
    (or else the focus loaded from [rs0]); for [log_context_change] an
    entry of type "context_change" whose context is the new focus. *)
Theorem session_calls_replay :
  forall d sid rs0 cs,
    dir_content sid d = log_text json_dumps (entries_of rs0) ->
    Forall (serialisable json_dumps json_loads)
      (entries_of
         (rs0 ++ records_of_calls (last_context_change JNull rs0) cs)) ->
    exists s0 s d',
      Session_load json_loads d (Session_init sid) = Ok s0 /\
      session_calls json_dumps json_loads d s0 cs = Ok (s, d') /\
      dir_content sid d' = log_text json_dumps (_entries s) /\
      firstn (length rs0) (_entries s) = entries_of rs0 /\
      length (_entries s) = length rs0 + length cs /\
      (forall sid', sid' <> sid -> dir_lookup sid' d' = dir_lookup sid' d) /\
      Session_load json_loads d' (Session_init sid) = Ok s /\
      (forall pre clk tool params result error post,
         cs = (pre ++ (clk, call_log_tool_call tool params result error)
                   :: post)%list ->
         nth_error (_entries s) (length rs0 + length pre)
         = Some [ ("timestamp", JStr (utcnow_isoformat clk ++ "Z"));
                  ("type", JStr "tool_call");
                  ("tool", JStr tool);
                  ("params", params);
                  ("result", result);
                  ("error", error);
                  ("context",
                   JDict [("project_focus",
                           fold_left (fun F c => focus_after_call F (snd c))
                             pre (last_context_change JNull rs0))]) ]) /\
      (forall pre clk f post,
         cs = (pre ++ (clk, call_log_context_change f) :: post)%list ->
         nth_error (_entries s) (length rs0 + length pre)
         = Some [ ("timestamp", JStr (utcnow_isoformat clk ++ "Z"));
                  ("type", JStr "context_change");
                  ("tool", JNull); ("params", JNull); ("result", JNull);
                  ("error", JNull);
                  ("context",
                   JDict [("project_focus", json_of_opt_str f)]) ]).
Proof.
  intros d sid rs0 cs Hc Hser.
  assert (Hser0 : Forall (serialisable json_dumps json_loads) (entries_of rs0)).
  { unfold entries_of in *. rewrite map_app in Hser.
    apply Forall_app in Hser. tauto. }
  destruct (Session_load_log_text json_dumps json_loads rs0 d sid Hc Hser0)
    as (s0 & Hl0 & Hid & Hld & He0 & Hf0).
  destruct (session_calls_loaded sid cs d rs0 Hc) as (d' & Hrun & Hc' & Ho).
  destruct (Session_load_log_text json_dumps json_loads _ d' sid Hc' Hser)
    as (s & Hl & Hid' & Hld' & He & Hf).
  exists s0, s, d'.
  destruct s0 as [i0 f0 e0 l0]. destruct s as [i f e l].
  simpl in *. subst.
  split; [assumption|]. split; [assumption|]. split; [assumption|].
  split.
  { unfold entries_of. rewrite map_app.
    rewrite <- (length_map (fun cr => snd (stamped cr)) rs0) at 1.
    rewrite firstn_app, Nat.sub_diag, firstn_all. cbn [firstn].
    apply app_nil_r. }
  split.
  { unfold entries_of.
    rewrite length_map, length_app, records_of_calls_length. reflexivity. }
  split; [assumption|]. split; [assumption|]. split.
  - intros pre clk tool params result error post ->.
    rewrite entries_of_call. reflexivity.
  - intros pre clk f' post ->.
    rewrite entries_of_call. reflexivity.
Qed.

Lemma Session_load_log_text_from :
  forall rs d s,
    _loaded s = false ->
    dir_content (session_id s) d = log_text json_dumps (entries_of rs) ->
    Forall (serialisable json_dumps json_loads) (entries_of rs) ->
    Session_load json_loads d s
    = Ok (set_loaded (fold_left replay_record rs s)).
Proof.
  intros rs d s Hl Hc Hser. unfold Session_load, dir_content in *.
  rewrite Hl.
  destruct (dir_lookup (session_id s) d) as [f|].
  - rewrite Hc. unfold entries_of in *.
    rewrite (load_lines_log_text json_dumps json_loads rs _ Hser).
    reflexivity.
  - symmetry in Hc. apply log_text_nil in Hc.
    destruct rs; [|discriminate]. reflexivity.
Qed.

(** X20.  A logging call on a session object that has not been loaded
    yet.  The call loads the log first, after the call has read or set
    the focus in memory.  So the entry [log_tool_call] writes has the
    context focus None whatever the log says, and after
    [log_context_change] the focus in memory is the one of the last
    [context_change] in the old log, when there is one, not the focus
    just set, while the log, read afresh, gives the focus just set. *)
Theorem session_call_unloaded :
  forall clk d sid rs0 c,
    let written : SessionEntry :=
      match c with
      | call_log_tool_call tool params result error =>
          [ ("timestamp", JStr (utcnow_isoformat clk ++ "Z"));
            ("type", JStr "tool_call");
            ("tool", JStr tool);
            ("params", params);
            ("result", result);
            ("error", error);
            ("context", JDict [("project_focus", JNull)]) ]
      | call_log_context_change f =>
          [ ("timestamp", JStr (utcnow_isoformat clk ++ "Z"));
            ("type", JStr "context_change");
            ("tool", JNull); ("params", JNull); ("result", JNull);
            ("error", JNull);
            ("context", JDict [("project_focus", json_of_opt_str f)]) ]
      end in
    dir_content sid d = log_text json_dumps (entries_of rs0) ->
    Forall (serialisable json_dumps json_loads)
      (entries_of rs0 ++ [written]) ->
    exists s d' s',
      session_call json_dumps json_loads clk d (Session_init sid) c
      = Ok (s, d') /\
      _entries s = (entries_of rs0 ++ [written])%list /\
      dir_content sid d'
      = log_text json_dumps (entries_of rs0 ++ [written]) /\
      _project_focus s
      = last_context_change (focus_after_call JNull c) rs0 /\
      Session_load json_loads d' (Session_init sid) = Ok s' /\
      _entries s' = _entries s /\
      _project_focus s'
      = focus_after_call (last_context_change JNull rs0) c.
Proof.
  intros clk d sid rs0 c written Hc Hser.
  assert (Hw : entries_of (rs0 ++ [(clk, record_of_call JNull c)])
               = (entries_of rs0 ++ [written])%list).
  { unfold entries_of. rewrite map_app. destruct c; reflexivity. }
  rewrite <- Hw in Hser. rewrite <- Hw.
  assert (Hser0 : Forall (serialisable json_dumps json_loads) (entries_of rs0)).
  { unfold entries_of in *. rewrite map_app in Hser.
    apply Forall_app in Hser. tauto. }
  set (s1 := mkSession sid (focus_after_call JNull c) [] false).
  pose proof (Session_load_log_text_from rs0 d s1 eq_refl Hc Hser0) as Hl1.
  destruct (replay_records_state rs0 s1) as (R1 & R2 & R3 & R4).
  set (e := entry_of clk (record_of_call JNull c)).
  set (d' := dir_append (time_ clk) sid (json_dumps (JDict e) ++ nl) d).
  assert (Hcall : session_call json_dumps json_loads clk d (Session_init sid) c
                  = Ok (push_entry (set_loaded (fold_left replay_record rs0 s1))
                          e, d')).
  { destruct c as [t p r er | f];
      unfold session_call, log_tool_call, log_context_change;
      cbn [_project_focus Session_init];
      apply (Session_append_ok json_dumps json_loads clk d _ e _ Hl1). }
  assert (Hc' : dir_content sid d'
                = log_text json_dumps
                    (entries_of (rs0 ++ [(clk, record_of_call JNull c)]))).
  { unfold d'. rewrite dir_content_append_same, Hc.
    unfold entries_of. rewrite map_app, log_text_app. simpl.
    rewrite str_app_nil_r. reflexivity. }
  destruct (Session_load_log_text json_dumps json_loads _ d' sid Hc' Hser)
    as (s' & Hl' & _ & _ & He' & Hf').
  assert (Hes : _entries (push_entry (set_loaded (fold_left replay_record rs0 s1))
                            e)
                = entries_of (rs0 ++ [(clk, record_of_call JNull c)])).
  { simpl. rewrite R3. simpl. unfold entries_of. rewrite map_app.
    reflexivity. }
  eexists _, d', s'. split; [exact Hcall|]. split; [exact Hes|].
  split; [exact Hc'|].
  split; [simpl; exact R4|]. split; [exact Hl'|]. split.
  - rewrite He', Hes. reflexivity.
  - rewrite Hf', last_context_change_app.
    destruct c; reflexivity.
Qed.

End CallFacts.

Lemma sample_calls_serialisable :
  Forall (serialisable RefJson.dumps RefJson.loads)
    (entries_of
       (sample_history
        ++ records_of_calls (last_context_change JNull sample_history)
             sample_calls)).
Proof.
  repeat (constructor; [split; vm_compute; reflexivity|]). constructor.
Qed.

Lemma session_calls_replay_witness :
  exists s0 s d',
    Session_load RefJson.loads sample_dir0 (Session_init "sess_a") = Ok s0 /\
    session_calls RefJson.dumps RefJson.loads sample_dir0 s0 sample_calls
    = Ok (s, d') /\
    Session_load RefJson.loads d' (Session_init "sess_a") = Ok s /\
    nth_error (_entries s) 2
    = Some [ ("timestamp", JStr "2024-05-01T10:00:01Z");
             ("type", JStr "tool_call");
             ("tool", JStr "file_read");
             ("params", JDict [("path", JStr "a.py")]);
             ("result", JDict [("lines", JInt 3)]);
             ("error", JNull);
             ("context", JDict [("project_focus", JStr "/tmp/proj")]) ] /\
    nth_error (_entries s) 4
    = Some [ ("timestamp", JStr "2024-05-01T10:00:02Z");
             ("type", JStr "tool_call");
             ("tool", JStr "bash_run");
             ("params", JDict []);
             ("result", JNull);
             ("error", JStr "ApprovalRequired");
             ("context", JDict [("project_focus", JStr "/srv/app")]) ].
Proof.
  destruct (session_calls_replay RefJson.dumps RefJson.loads
              sample_dir0 "sess_a" sample_history sample_calls
              eq_refl sample_calls_serialisable)
    as (s0 & s & d' & H1 & H2 & _ & _ & _ & _ & H7 & H8 & _).
  exists s0, s, d'.
  split; [exact H1|]. split; [exact H2|]. split; [exact H7|]. split.
  - exact (H8 [] clock1 "file_read" (JDict [("path", JStr "a.py")])
             (JDict [("lines", JInt 3)]) JNull
             [ (clock2, call_log_context_change (Some "/srv/app"));
               (clock2, call_log_tool_call "bash_run" (JDict []) JNull
                          (JStr "ApprovalRequired")) ] eq_refl).
  - exact (H8 [ (clock1, call_log_tool_call "file_read"
                           (JDict [("path", JStr "a.py")])
                           (JDict [("lines", JInt 3)]) JNull);
                (clock2, call_log_context_change (Some "/srv/app")) ]
             clock2 "bash_run" (JDict []) JNull (JStr "ApprovalRequired")
             [] eq_refl).
Defined.

Lemma session_call_unloaded_witness :
  (exists s d' s',
     session_call RefJson.dumps RefJson.loads clock1 sample_dir0
       (Session_init "sess_a") (call_log_context_change (Some "/srv/app"))
     = Ok (s, d') /\
     _project_focus s = JStr "/tmp/proj" /\
     Session_load RefJson.loads d' (Session_init "sess_a") = Ok s' /\
     _project_focus s' = JStr "/srv/app") /\
  (exists s d',
     session_call RefJson.dumps RefJson.loads clock1 sample_dir0
       (Session_init "sess_a")
       (call_log_tool_call "file_read" (JDict [("path", JStr "a.py")])
          (JDict [("lines", JInt 3)]) JNull)
     = Ok (s, d') /\
     _project_focus s = JStr "/tmp/proj" /\
     nth_error (_entries s) 2
     = Some [ ("timestamp", JStr "2024-05-01T10:00:01Z");
              ("type", JStr "tool_call");
              ("tool", JStr "file_read");
              ("params", JDict [("path", JStr "a.py")]);
              ("result", JDict [("lines", JInt 3)]);
              ("error", JNull);
              ("context", JDict [("project_focus", JNull)]) ]).
Proof.
  split.
  - destruct (session_call_unloaded RefJson.dumps RefJson.loads clock1
                sample_dir0 "sess_a" sample_history
                (call_log_context_change (Some "/srv/app")) eq_refl)
      as (s & d' & s' & H1 & _ & _ & H4 & H5 & _ & H7).
    + repeat (constructor; [split; vm_compute; reflexivity|]). constructor.
    + exists s, d', s'. repeat split; assumption.
  - destruct (session_call_unloaded RefJson.dumps RefJson.loads clock1
                sample_dir0 "sess_a" sample_history
                (call_log_tool_call "file_read" (JDict [("path", JStr "a.py")])
                   (JDict [("lines", JInt 3)]) JNull) eq_refl)
      as (s & d' & s' & H1 & H2 & _ & H4 & _).
    + repeat (constructor; [split; vm_compute; reflexivity|]). constructor.
    + exists s, d'. split; [exact H1|]. split; [exact H4|].
      rewrite H2. reflexivity.
Defined.

(* ================================================================== *)
(** * session.py: clean-up and continuation *)

Lemma filter_all :
  forall (A : Type) (p : A -> bool) (l : list A),
    (forall x, In x l -> p x = true) -> filter p l = l.
Proof.
  intros A p l H. induction l as [|x l IH]; [reflexivity|].
  simpl. rewrite (H x (or_introl eq_refl)). f_equal.
  apply IH. intros y Hy. apply H. right. exact Hy.
Qed.

Lemma filter_filter_andb :
  forall (A : Type) (p q : A -> bool) (l : list A),
    filter p (filter q l) = filter (fun x => q x && p x) l.
Proof.
  intros A p q l. induction l as [|x l IH]; [reflexivity|].
  simpl. destruct (q x); simpl; [destruct (p x)|]; rewrite IH; reflexivity.
Qed.

Lemma filter_map_fst :
  forall (q : string -> bool) (d : SessionDir),
    map fst (filter (fun kf => q (fst kf)) d) = filter q (map fst d).
Proof.
  intros q d. induction d as [|[k f] d IH]; [reflexivity|].
  simpl. destruct (q k); simpl; rewrite IH; reflexivity.
Qed.

Lemma dir_lookup_filter :
  forall (q : string -> bool) (d : SessionDir) sid,
    q sid = true ->
    dir_lookup sid (filter (fun kf => q (fst kf)) d) = dir_lookup sid d.
Proof.
  intros q d sid Hq. induction d as [|[k f] d IH]; [reflexivity|].
  simpl. destruct (q k) eqn:Ek; simpl.
  - rewrite IH. reflexivity.
  - destruct (String.eqb_spec k sid) as [->|Hne]; [congruence | exact IH].
Qed.

Lemma dir_remove_filter :
  forall sid d,
    NoDup (map fst d) ->
    dir_remove sid d = filter (fun kf => negb (fst kf =? sid)) d.
Proof.
  intros sid d H. induction d as [|[k f] d IH]; [reflexivity|].
  simpl in H. inversion H as [|? ? Hk Hd]; subst.
  simpl. destruct (String.eqb_spec k sid) as [->|Hne]; simpl.
  - symmetry. apply filter_all. intros [k' f'] Hin. simpl.
    apply negb_true_iff, String.eqb_neq. intros ->.
    apply Hk. apply (in_map fst) in Hin. exact Hin.
  - rewrite (IH Hd). reflexivity.
Qed.

Lemma insert_desc_head :
  forall key x l,
    (forall y, In y l -> (key y <= key x)%Z) ->
    insert_desc key x l = x :: l.
Proof.
  intros key x [|y l] H; [reflexivity|]. simpl.
  assert (E : (key y <=? key x)%Z = true)
    by (apply Z.leb_le, H; left; reflexivity).
  rewrite E. reflexivity.
Qed.

Lemma insert_desc_ext :
  forall key1 key2 x l,
    key1 x = key2 x ->
    (forall y, In y l -> key1 y = key2 y) ->
    insert_desc key1 x l = insert_desc key2 x l.
Proof.
  intros key1 key2 x l Hx. induction l as [|y l IH]; intros H; [reflexivity|].
  simpl. rewrite Hx, (H y (or_introl eq_refl)).
  destruct (key2 y <=? key2 x)%Z; [reflexivity|].
  f_equal. apply IH. intros z Hz. apply H. right. exact Hz.
Qed.

Lemma sort_desc_ext :
  forall key1 key2 l,
    (forall y, In y l -> key1 y = key2 y) ->
    sort_desc key1 l = sort_desc key2 l.
Proof.
  intros key1 key2 l. induction l as [|x l IH]; intros H; [reflexivity|].
  simpl. rewrite IH by (intros y Hy; apply H; right; exact Hy).
  apply insert_desc_ext; [apply H; left; reflexivity|].
  intros y Hy. apply H. right.
  apply (Permutation_in _ (sort_desc_perm key2 l)). exact Hy.
Qed.

(** Inserting into a sorted list and keeping the elements that pass a
    test, in either order. *)
Lemma insert_desc_filter :
  forall key (p : string -> bool) x l,
    StronglySorted (fun a b => (key b <= key a)%Z) l ->
    filter p (insert_desc key x l)
    = if p x then insert_desc key x (filter p l) else filter p l.
Proof.
  intros key p x l Hs. induction Hs as [|y l Hs IH Hall].
  - simpl. destruct (p x); reflexivity.
  - cbn [insert_desc].
    destruct (key y <=? key x)%Z eqn:E.
    + cbn [filter]. destruct (p x) eqn:Ex; [|reflexivity].
      symmetry. apply insert_desc_head.
      intros z Hz. apply Z.leb_le in E.
      destruct (p y).
      * destruct Hz as [<- | Hz]; [exact E|].
        apply filter_In in Hz. destruct Hz as [Hz _].
        rewrite Forall_forall in Hall. specialize (Hall z Hz). lia.
      * apply filter_In in Hz. destruct Hz as [Hz _].
        rewrite Forall_forall in Hall. specialize (Hall z Hz). lia.
    + cbn [filter]. destruct (p y) eqn:Ey.
      * rewrite IH. destruct (p x); [|reflexivity].
        cbn [insert_desc]. rewrite E. reflexivity.
      * exact IH.
Qed.

Lemma sort_desc_strongly_sorted :
  forall key l,
    StronglySorted (fun a b => (key b <= key a)%Z) (sort_desc key l).
Proof.
  intros key l. apply Sorted_StronglySorted; [|apply sort_desc_sorted].
  intros a b c Hab Hbc. lia.
Qed.

(** The sort is stable, so it commutes with dropping elements. *)
Lemma sort_desc_filter :
  forall key (p : string -> bool) l,
    sort_desc key (filter p l) = filter p (sort_desc key l).
Proof.
  intros key p l. induction l as [|x l IH]; [reflexivity|].
  cbn [filter sort_desc].
  rewrite (insert_desc_filter key p x _ (sort_desc_strongly_sorted key l)).
  destruct (p x); [|exact IH].
  cbn [sort_desc]. rewrite IH. reflexivity.
Qed.

Section CleanupContinue.

Variable json_dumps : json -> string.
Variable json_loads : string -> outcome json.
Variable fromtimestamp : Z -> Z.
Variable clk : Clock.

Lemma cleanup_scan_filter :
  forall files d n,
    NoDup (map fst d) ->
    snd (cleanup_scan fromtimestamp clk files d n)
    = filter (fun kf =>
                negb (existsb (String.eqb (fst kf)) files
                      && is_expired fromtimestamp clk d (Session_init (fst kf))))
        d.
Proof.
  induction files as [|sid0 rest IH]; intros d n Hd.
  - simpl. symmetry. apply filter_all. reflexivity.
  - cbn [cleanup_scan].
    destruct (is_expired fromtimestamp clk d (Session_init sid0)) eqn:E.
    + rewrite (IH _ _ (dir_remove_NoDup sid0 d Hd)).
      rewrite (dir_remove_filter sid0 d Hd), filter_filter_andb.
      apply filter_ext_in. intros [k f] Hin. cbn [fst existsb].
      destruct (String.eqb_spec k sid0) as [->|Hne].
      * rewrite E. reflexivity.
      * cbn [negb andb orb].
        rewrite (is_expired_lookup fromtimestamp clk
                   (filter (fun kf => negb (fst kf =? sid0)) d) d
                   (Session_init k)); [reflexivity|].
        rewrite <- (dir_remove_filter sid0 d Hd).
        apply dir_lookup_remove_other. exact Hne.
    + rewrite (IH _ _ Hd).
      apply filter_ext_in. intros [k f] Hin. cbn [fst existsb].
      destruct (String.eqb_spec k sid0) as [->|Hne]; [|reflexivity].
      rewrite E, !andb_false_r. reflexivity.
Qed.

(** What [cleanup_expired] leaves: the directory without the expired
    [sess_*] logs, the other files in their order. *)
Lemma cleanup_expired_filter :
  forall d,
    NoDup (map fst d) ->
    snd (cleanup_expired fromtimestamp clk d)
    = filter (fun kf =>
                negb (startswith (fst kf) "sess_"
                      && is_expired fromtimestamp clk d (Session_init (fst kf))))
        d.
Proof.
  intros d Hd. unfold cleanup_expired.
  rewrite (cleanup_scan_filter _ d 0 Hd).
  apply filter_ext_in. intros [k f] Hin. cbn [fst].
  assert (Hk : In k (map fst d)) by (apply (in_map fst) in Hin; exact Hin).
  destruct (startswith k "sess_") eqn:Hs.
  - assert (Hg : In k (glob_sessions d))
      by (apply glob_sessions_In; split; assumption).
    apply has_marker_In in Hg. rewrite Hg. reflexivity.
  - destruct (existsb (String.eqb k) (glob_sessions d)) eqn:Ex; [|reflexivity].
    apply has_marker_In, glob_sessions_In in Ex. destruct Ex. congruence.
Qed.

Lemma Session_load_lookup :
  forall d1 d2 s,
    dir_lookup (session_id s) d1 = dir_lookup (session_id s) d2 ->
    Session_load json_loads d1 s = Session_load json_loads d2 s.
Proof. intros d1 d2 s H. unfold Session_load. rewrite H. reflexivity. Qed.

Lemma continue_scan_live :
  forall d l,
    continue_scan json_dumps json_loads fromtimestamp clk d l
    = continue_scan json_dumps json_loads fromtimestamp clk d
        (filter (live fromtimestamp clk d) l).
Proof.
  intros d l. induction l as [|sid l IH]; [reflexivity|].
  cbn [filter]. unfold live at 1.
  destruct (is_expired fromtimestamp clk d (Session_init sid)) eqn:E;
    cbn [negb continue_scan]; rewrite E; cbn [negb]; [exact IH | reflexivity].
Qed.

Lemma continue_scan_returned :
  forall d1 d2 l,
    (forall sid, In sid l -> live fromtimestamp clk d2 sid = true ->
                 dir_lookup sid d1 = dir_lookup sid d2) ->
    returned (continue_scan json_dumps json_loads fromtimestamp clk d1
                (filter (live fromtimestamp clk d2) l))
    = returned (continue_scan json_dumps json_loads fromtimestamp clk d2
                  (filter (live fromtimestamp clk d2) l)).
Proof.
  intros d1 d2 l H.
  destruct (filter (live fromtimestamp clk d2) l) as [|sid rest] eqn:El;
    [reflexivity|].
  assert (Hin : In sid (filter (live fromtimestamp clk d2) l))
    by (rewrite El; left; reflexivity).
  apply filter_In in Hin. destruct Hin as [Hin Hlive].
  specialize (H sid Hin Hlive).
  cbn [continue_scan].
  rewrite (is_expired_lookup fromtimestamp clk d1 d2 (Session_init sid) H).
  unfold live in Hlive. rewrite Hlive.
  rewrite (Session_load_lookup d1 d2 (Session_init sid) H).
  destruct (Session_load json_loads d2 (Session_init sid)) as [s1|e] eqn:Hl;
    [|reflexivity].
  pose proof (Session_load_sets_loaded json_loads _ _ _ Hl) as Hld.
  cbn [bind].
  rewrite !(Session_append_ok json_dumps json_loads clk _ s1 _ s1
              (Session_load_loaded json_loads _ s1 Hld)).
  reflexivity.
Qed.

Lemma continue_last_session_scan :
  forall d,
    continue_last_session json_dumps json_loads fromtimestamp clk d
    = continue_scan json_dumps json_loads fromtimestamp clk d
        (sort_desc (mtime_of d) (glob_sessions d)).
Proof.
  intros d. unfold continue_last_session.
  destruct (glob_sessions d); reflexivity.
Qed.

(** X21.  Clean-up does not change which session is continued: in a
    directory (file names are unique), [continue_last_session] returns
    the same session, or the same absence of one, or raises the same
    exception, whether or not [cleanup_expired] has run before it at the
    same time. *)
Theorem cleanup_then_continue :
  forall d,
    NoDup (map fst d) ->
    returned (continue_last_session json_dumps json_loads fromtimestamp clk
                (snd (cleanup_expired fromtimestamp clk d)))
    = returned (continue_last_session json_dumps json_loads fromtimestamp clk
                  d).
Proof.
  intros d Hd.
  rewrite !continue_last_session_scan.
  set (q := fun k => negb (startswith k "sess_"
                           && is_expired fromtimestamp clk d (Session_init k))).
  set (d' := filter (fun kf => q (fst kf)) d).
  assert (Hc : snd (cleanup_expired fromtimestamp clk d) = d')
    by (apply cleanup_expired_filter; exact Hd).
  rewrite Hc.
  assert (Hglob : glob_sessions d'
                  = filter (live fromtimestamp clk d) (glob_sessions d)).
  { unfold glob_sessions, d'. rewrite filter_map_fst.
    rewrite !filter_filter_andb.
    apply filter_ext. intros k. unfold q, live.
    destruct (startswith k "sess_");
      destruct (is_expired fromtimestamp clk d (Session_init k));
      reflexivity. }
  assert (Hlook : forall sid,
            In sid (filter (live fromtimestamp clk d) (glob_sessions d)) ->
            dir_lookup sid d' = dir_lookup sid d).
  { intros sid Hin. apply filter_In in Hin. destruct Hin as [_ Hl].
    apply dir_lookup_filter. unfold q. unfold live in Hl.
    apply negb_true_iff in Hl. rewrite Hl, andb_false_r. reflexivity. }
  rewrite Hglob.
  rewrite (sort_desc_ext (mtime_of d') (mtime_of d))
    by (intros y Hy; unfold mtime_of; rewrite (Hlook y Hy); reflexivity).
  rewrite sort_desc_filter.
  rewrite (continue_scan_live d (sort_desc (mtime_of d) (glob_sessions d))).
  apply continue_scan_returned.
  intros sid Hin El.
  apply Hlook. apply filter_In. split; [|exact El].
  exact (Permutation_in _ (sort_desc_perm (mtime_of d) (glob_sessions d)) Hin).
Qed.

End CleanupContinue.

Lemma cleanup_then_continue_witness :
  map fst (snd (cleanup_expired fall_back clock_late sample_dir))
  = ["sess_mid"] /\
  returned (continue_last_session RefJson.dumps RefJson.loads fall_back
              clock_late (snd (cleanup_expired fall_back clock_late sample_dir)))
  = returned (continue_last_session RefJson.dumps RefJson.loads fall_back
                clock_late sample_dir).
Proof.
  split; [reflexivity|].
  apply (cleanup_then_continue RefJson.dumps RefJson.loads fall_back
           clock_late sample_dir).
  repeat constructor; simpl; intuition discriminate.
Defined.

(* ================================================================== *)
(** * tools/files.py: [FileReadTool] *)

Lemma slice_range :
  forall (A : Type) (l : list A) (s e : Z),
    (1 <= s)%Z -> (1 <= e)%Z ->
    slice (s - 1) e l
    = firstn (Z.to_nat e - Z.to_nat (s - 1)) (skipn (Z.to_nat (s - 1)) l).
Proof.
  intros A l s e Hs He. unfold slice, slice_index.
  assert (E1 : (s - 1 <? 0)%Z = false) by (apply Z.ltb_ge; lia).
  assert (E2 : (e <? 0)%Z = false) by (apply Z.ltb_ge; lia).
  rewrite E1, E2.
  set (n := length l).
  assert (Hf : firstn (Z.to_nat (Z.min e (Z.of_nat n))) l
               = firstn (Z.to_nat e) l).
  { destruct (Z.le_ge_cases e (Z.of_nat n)) as [H | H].
    - rewrite Z.min_l by exact H. reflexivity.
    - rewrite Z.min_r by lia. rewrite Nat2Z.id.
      rewrite !firstn_all2; [reflexivity | fold n; lia | fold n; lia]. }
  rewrite Hf.
  destruct (Z.le_ge_cases (s - 1) (Z.of_nat n)) as [H | H].
  - rewrite Z.min_l by exact H. apply skipn_firstn_comm.
  - rewrite Z.min_r by lia. rewrite Nat2Z.id.
    rewrite <- skipn_firstn_comm.
    rewrite !skipn_all2; [reflexivity | |];
      rewrite length_firstn; fold n; lia.
Qed.

Section FileReadFacts.

Variable exists_ : PurePath -> bool.
Variable is_file : PurePath -> bool.
Variable st_size : PurePath -> Z.
Variable read_text : PurePath -> string -> outcome string.
Variable splitlines : string -> list string.

(** X22.  [FileReadTool.execute] on validated parameters, for a path that
    resolves to a readable file of at most 10 MiB.  Without line numbers
    the text is returned as read and [truncated] is False.  With a start
    line [s] (1 when missing) or an end line [e] (the last line when
    missing) the lines returned are the lines [s] to [e] of the file,
    counted from 1 and both included, [content] is their concatenation,
    and [truncated] is True, also when the range covers the whole file.
    The focus is not consulted beyond resolving the path. *)
Theorem FileReadTool_execute_range :
  forall fs cwd ctx params r text,
    ge_1 (start_line params) = true ->
    ge_1 (end_line params) = true ->
    resolve_path fs cwd ctx (fr_path params) = Ok r ->
    exists_ r = true ->
    is_file r = true ->
    (st_size r <= MAX_FILE_SIZE_BYTES)%Z ->
    read_text r (encoding params) = Ok text ->
    let lines := splitlines text in
    let total := length lines in
    let s := match start_line params with Some n => Z.to_nat n | None => 1 end in
    let e := match end_line params with Some n => Z.to_nat n | None => total end in
    let ranged := match start_line params, end_line params with
                  | None, None => false
                  | _, _ => true
                  end in
    let selected := if ranged then firstn (e - (s - 1)) (skipn (s - 1) lines)
                    else lines in
    FileReadTool_execute exists_ is_file st_size read_text splitlines
      fs cwd ctx params
    = Ok [ ("path", JStr (str r));
           ("content", JStr (if ranged then String.concat "" selected
                             else text));
           ("lines", JInt (Z.of_nat (length selected)));
           ("total_lines", JInt (Z.of_nat total));
           ("size_bytes", JInt (st_size r));
           ("encoding", JStr (encoding params));
           ("truncated", JBool ranged) ] /\
    (ranged = true ->
     length selected = Nat.min e total - (s - 1) /\
     forall i, i < length selected ->
               nth_error selected i = nth_error lines (s - 1 + i)).
Proof.
  intros fs cwd ctx [path sl el enc] r text Hs He Hr Hex Hfile Hsize Hread
    lines total s e ranged selected.
  cbn [start_line end_line fr_path encoding] in *.
  split.
  - unfold FileReadTool_execute.
    cbn [start_line end_line fr_path encoding].
    rewrite Hr. cbn [bind]. rewrite Hex, Hfile. cbn [negb].
    assert (Hgt : (st_size r >? MAX_FILE_SIZE_BYTES)%Z = false).
    { rewrite Z.gtb_ltb. apply Z.ltb_ge. exact Hsize. }
    rewrite Hgt, Hread. cbn [bind]. fold lines. fold total.
    destruct sl as [a|]; destruct el as [b|]; cbn [ge_1] in Hs, He;
      try apply Z.leb_le in Hs; try apply Z.leb_le in He;
      unfold truthy_int, int_or, truthy_int.
    + assert (Ea : (a =? 0)%Z = false) by (apply Z.eqb_neq; lia).
      assert (Eb : (b =? 0)%Z = false) by (apply Z.eqb_neq; lia).
      rewrite Ea, Eb. cbn [negb orb].
      rewrite (slice_range _ lines a b Hs He).
      subst selected ranged s e. cbn match.
      replace (Z.to_nat (a - 1)) with (Z.to_nat a - 1) by lia.
      reflexivity.
    + assert (Ea : (a =? 0)%Z = false) by (apply Z.eqb_neq; lia).
      rewrite Ea. cbn [negb orb].
      destruct (Nat.eq_dec total 0) as [H0 | H0].
      * (* an empty file: the slice of nothing *)
        subst selected ranged s e. cbn match.
        assert (Hl : lines = [])
          by (subst total; destruct lines; [reflexivity | discriminate]).
        rewrite Hl. unfold slice. cbn [length].
        rewrite !firstn_nil, !skipn_nil, firstn_nil. reflexivity.
      * rewrite (slice_range _ lines a (Z.of_nat total) Hs ltac:(lia)).
        subst selected ranged s e. cbn match. rewrite Nat2Z.id.
        replace (Z.to_nat (a - 1)) with (Z.to_nat a - 1) by lia.
        reflexivity.
    + assert (Eb : (b =? 0)%Z = false) by (apply Z.eqb_neq; lia).
      rewrite Eb. cbn [negb orb].
      rewrite (slice_range _ lines 1 b ltac:(lia) He).
      subst selected ranged s e. cbn match. reflexivity.
    + cbn [orb]. subst selected ranged. reflexivity.
  - intros Hranged. subst selected. rewrite Hranged.
    assert (Hlen : length (firstn (e - (s - 1)) (skipn (s - 1) lines))
                   = Nat.min e total - (s - 1)).
    { rewrite length_firstn, length_skipn. fold total. lia. }
    split; [exact Hlen|].
    intros i Hi. rewrite Hlen in Hi.
    rewrite nth_error_firstn.
    destruct (Nat.ltb_spec i (e - (s - 1))) as [Hlt | Hge]; [|lia].
    rewrite nth_error_skipn. reflexivity.
Qed.

End FileReadFacts.

Lemma FileReadTool_execute_range_witness :
  let ctx := mkContext (Some (Path "/srv/app")) in
  is_within_focus sample_links ["home"] ctx "../../etc/hosts" = Ok false /\
  FileReadTool_execute sample_file sample_file (fun _ => 42%Z)
    (fun _ _ => Ok sample_text) readlines sample_links ["home"] ctx
    (mkFileReadParams "../../etc/hosts" (Some 2%Z) None "utf-8")
  = Ok [ ("path", JStr "/etc/hosts");
         ("content", JStr ("10.0.0.2 db" ++ nl ++ "10.0.0.3 web" ++ nl));
         ("lines", JInt 2);
         ("total_lines", JInt 3);
         ("size_bytes", JInt 42);
         ("encoding", JStr "utf-8");
         ("truncated", JBool true) ].
Proof.
  intros ctx. split; [reflexivity|].
  apply (FileReadTool_execute_range sample_file sample_file (fun _ => 42%Z)
           (fun _ _ => Ok sample_text) readlines sample_links ["home"] ctx
           (mkFileReadParams "../../etc/hosts" (Some 2%Z) None "utf-8")
           (mkPath "/" ["etc"; "hosts"]) sample_text);
    try reflexivity.
  unfold MAX_FILE_SIZE_BYTES. lia.
Defined.

(* ================================================================== *)
(** * context.py: [discover_projects] *)

Lemma insert_asc_perm :
  forall (A K : Type) (ltb : K -> K -> bool) (key : A -> K) x l,
    Permutation (insert_asc ltb key x l) (x :: l).
Proof.
  intros A K ltb key x l. induction l as [|y l IH]; simpl.
  - apply Permutation_refl.
  - destruct (ltb (key y) (key x)).
    + eapply Permutation_trans; [apply perm_skip; exact IH | apply perm_swap].
    + apply Permutation_refl.
Qed.

Lemma sort_asc_perm :
  forall (A K : Type) (ltb : K -> K -> bool) (key : A -> K) l,
    Permutation (sort_asc ltb key l) l.
Proof.
  intros A K ltb key l. induction l as [|x l IH]; simpl.
  - apply Permutation_refl.
  - eapply Permutation_trans; [apply insert_asc_perm|].
    apply perm_skip. exact IH.
Qed.

(** Among the markers found in a project, the type is "unknown" exactly
    when the Makefile is the only one. *)
Lemma detect_unknown_iff_makefile :
  forall has : string -> bool,
    let ms := filter has project_markers in
    ms <> [] ->
    (_detect_project_type ms = "unknown" <-> ms = ["Makefile"]).
Proof.
  intros has ms. subst ms. unfold project_markers. cbn [filter].
  destruct (has ".git"); destruct (has "package.json");
    destruct (has "pyproject.toml"); destruct (has "setup.py");
    destruct (has "requirements.txt"); destruct (has "Cargo.toml");
    destruct (has "go.mod"); destruct (has "Makefile");
    intros Hne;
    try (exfalso; apply Hne; reflexivity);
    split; intros H; try reflexivity; try discriminate H.
Qed.

Section DiscoverFacts.

Variable DEFAULT_PROJECTS_DIR : PurePath.
Variable exists_ : PurePath -> bool.
Variable is_dir : PurePath -> bool.
Variable iterdir : PurePath -> outcome (list string).
Variable lower : string -> string.
Variable str_ltb : string -> string -> bool.

Lemma discover_scan_In :
  forall base names p,
    In p (discover_scan exists_ is_dir base names) <->
    exists name, In name names /\
                 discover_entry exists_ is_dir base name = Some p.
Proof.
  intros base names p. induction names as [|n names IH]; simpl.
  - split; [tauto | intros (x & [] & _)].
  - destruct (discover_entry exists_ is_dir base n) as [q|] eqn:E.
    + simpl. rewrite IH. split.
      * intros [<- | (x & Hx & Hp)]; [exists n; tauto | exists x; tauto].
      * intros (x & [<- | Hx] & Hp);
          [left; congruence | right; exists x; tauto].
    + rewrite IH. split.
      * intros (x & Hx & Hp). exists x. tauto.
      * intros (x & [<- | Hx] & Hp); [congruence | exists x; tauto].
Qed.

(** X23.  [discover_projects].  A base directory that does not exist
    gives the empty list.  Otherwise the projects listed are exactly the
    entries of the base directory that are directories, whose name does
    not start with a dot, and that hold at least one of the eight
    markers: each is listed once per entry, with its markers in the order
    of the marker list, and its type is "unknown" exactly when the
    Makefile is its only marker. *)
Theorem discover_projects_spec :
  forall base_path,
    let base := match base_path with
                | Some s => if s =? "" then DEFAULT_PROJECTS_DIR else Path s
                | None => DEFAULT_PROJECTS_DIR
                end in
    let discover :=
      discover_projects DEFAULT_PROJECTS_DIR exists_ is_dir iterdir lower
        str_ltb base_path in
    (exists_ base = false -> discover = Ok []) /\
    (forall names,
       exists_ base = true ->
       iterdir base = Ok names ->
       exists ps,
         discover = Ok ps /\
         length ps <= length names /\
         (forall p,
            In p ps <->
            exists name ms,
              In name names /\
              is_dir (child base name) = true /\
              startswith name "." = false /\
              ms = markers_found exists_ (child base name) /\
              ms <> [] /\
              p = [ ("path", JStr (str (child base name)));
                    ("name", JStr name);
                    ("type", JStr (_detect_project_type ms));
                    ("markers", JList (map JStr ms)) ] /\
              (_detect_project_type ms = "unknown" <-> ms = ["Makefile"]))).
Proof.
  intros base_path base discover. split.
  - intros H. unfold discover, discover_projects. fold base.
    rewrite H. reflexivity.
  - intros names Hex Hit.
    exists (sort_asc str_ltb (name_key lower)
              (discover_scan exists_ is_dir base names)).
    split.
    { unfold discover, discover_projects. fold base.
      rewrite Hex, Hit. reflexivity. }
    pose proof (sort_asc_perm _ _ str_ltb (name_key lower)
                  (discover_scan exists_ is_dir base names)) as Hperm.
    split.
    { rewrite (Permutation_length Hperm).
      clear. induction names as [|n names IH]; simpl; [lia|].
      destruct (discover_entry exists_ is_dir base n); simpl; lia. }
    intros p. split.
    + intros Hin. apply (Permutation_in _ Hperm) in Hin.
      apply discover_scan_In in Hin. destruct Hin as (name & Hname & He).
      unfold discover_entry in He.
      destruct (is_dir (child base name)) eqn:Ed; [|discriminate].
      destruct (startswith name ".") eqn:Eh; [discriminate|].
      cbn [negb] in He.
      pose proof (detect_unknown_iff_makefile
                    (fun marker =>
                       exists_ (truediv (child base name) (Path marker))))
        as Hty.
      cbv zeta in Hty.
      change (filter _ project_markers)
        with (markers_found exists_ (child base name)) in Hty.
      destruct (markers_found exists_ (child base name)) as [|m ms] eqn:Em;
        [discriminate|].
      inversion He as [Hp].
      exists name, (m :: ms).
      split; [exact Hname|]. split; [exact Ed|]. split; [exact Eh|].
      split; [symmetry; exact Em|]. split; [discriminate|].
      split; [reflexivity|].
      apply Hty. discriminate.
    + intros (name & ms & Hname & Hd & Hh & Hms & Hne & Hp & _).
      apply (Permutation_in _ (Permutation_sym Hperm)).
      apply discover_scan_In. exists name. split; [exact Hname|].
      unfold discover_entry. rewrite Hd, Hh. cbn [negb].
      rewrite <- Hms. destruct ms; [contradiction|]. subst p. reflexivity.
Qed.

End DiscoverFacts.

Lemma discover_projects_spec_witness :
  discover_projects (Path "/home/u/projects") sample_tree sample_tree_dir
    sample_iterdir sample_lower sample_ltb None
  = Ok [] /\
  exists ps,
    discover_projects (Path "/home/u/projects") sample_tree sample_tree_dir
      sample_iterdir sample_lower sample_ltb (Some "/srv")
    = Ok ps /\
    length ps <= 4 /\
    map (dict_get "name") ps = [Some (JStr "Build"); Some (JStr "web")] /\
    map (dict_get "type") ps = [Some (JStr "unknown"); Some (JStr "python")].
Proof.
  split.
  - apply (discover_projects_spec (Path "/home/u/projects") sample_tree
             sample_tree_dir sample_iterdir sample_lower sample_ltb None).
    reflexivity.
  - destruct (discover_projects_spec (Path "/home/u/projects") sample_tree
                sample_tree_dir sample_iterdir sample_lower sample_ltb
                (Some "/srv")) as [_ H].
    destruct (H ["web"; ".cache"; "notes.txt"; "Build"] eq_refl eq_refl)
      as (ps & Hps & Hlen & _).
    exists ps. split; [exact Hps|]. split; [exact Hlen|].
    assert (E : Ok ps
                = Ok [ [ ("path", JStr "/srv/Build"); ("name", JStr "Build");
                         ("type", JStr "unknown");
                         ("markers", JList [JStr "Makefile"]) ];
                       [ ("path", JStr "/srv/web"); ("name", JStr "web");
                         ("type", JStr "python");
                         ("markers",
                          JList [JStr "setup.py"; JStr "Makefile"]) ] ])
      by (rewrite <- Hps; reflexivity).
    inversion E. split; reflexivity.
Defined.
